(** * The batched data loaders of xclib ([xclib/data/data_loader.py])

    A shallow embedding of [DataloaderBase], [Dataloader] and
    [DataloaderShortlist]: the batch plan built by [_gen_batches], the batch
    materialisers, the shortlist update that rebuilds the label matrix, and
    the checkpoint methods [save] and [load].

    Python integers are [Z]; Python lists and one-dimensional numpy arrays
    are [list]; a scipy sparse matrix is its shape together with the finite
    map of its stored entries; Python exceptions are the constructors of
    [exn], and a method of the loader is a function in the monad [M], which
    threads [self] and an exception. *)

From Stdlib Require Import ZArith String List Lia.
From stdpp Require Import base numbers list strings gmap sorting.

Local Open Scope string_scope.
Local Open Scope list_scope.
Local Open Scope Z_scope.

(** ** Exceptions and results

    The exceptions are Python's, but for [ConfigurationError]: that is the
    name the specification gives to the failure of the column slice of
    [LabelsBase], whose class is not known. *)

Inductive exn : Type :=
| NotImplementedError (msg : string)
| ValueError (msg : string)
| IndexError (msg : string)
| AttributeError (msg : string)
| ZeroDivisionError (msg : string)
| FileNotFoundError (msg : string)
| UnpicklingError (msg : string)
| TypeError (msg : string)
| KeyError (key : string)
| ConfigurationError (msg : string).

Inductive result (A : Type) : Type :=
| Ok (a : A)
| Raise (e : exn).
Arguments Ok {A} a.
Arguments Raise {A} e.

Definition rbind {A B : Type} (r : result A) (k : A → result B) : result B :=
  match r with
  | Ok a => k a
  | Raise e => Raise e
  end.

Notation "'try!' x ':=' r 'in' k" := (rbind r (fun x => k))
  (at level 10, x name, r at level 100, k at level 200).

(** ** The Python operations the loaders use *)

Module py.

(** [a // b] and [a % b] on integers: floor division, the remainder has
    the sign of the divisor, and a zero divisor raises. *)
Definition floordiv (a b : Z) : result Z :=
  if decide (b = 0) then Raise (ZeroDivisionError "integer division or modulo by zero")
  else Ok (a / b).

Definition mod_ (a b : Z) : result Z :=
  if decide (b = 0) then Raise (ZeroDivisionError "integer division or modulo by zero")
  else Ok (a mod b).

(** The bound of a slice [l[start:stop]] over a sequence of length [len]:
    a negative bound counts from the end, and both are clamped. *)
Definition slice_bound (len i : Z) : Z :=
  if decide (i < 0) then Z.max (i + len) 0 else Z.min i len.

Definition slice {A : Type} (l : list A) (start stop : Z) : list A :=
  let len := Z.of_nat (length l) in
  let s := slice_bound len start in
  let e := slice_bound len stop in
  take (Z.to_nat (e - s)) (drop (Z.to_nat s) l).

(** [l[i]] on a list: a negative index counts from the end. *)
Definition getitem {A : Type} (l : list A) (i : Z) : result A :=
  let len := Z.of_nat (length l) in
  let j := if decide (i < 0) then i + len else i in
  if decide (0 ≤ j < len) then
    match l !! Z.to_nat j with
    | Some x => Ok x
    | None => Raise (IndexError "list index out of range")
    end
  else Raise (IndexError "list index out of range").

(** [range(n)] *)
Definition range (n : Z) : list Z := seqZ 0 n.

(** [[x] * n] *)
Definition repeat_list {A : Type} (x : A) (n : Z) : list A :=
  replicate (Z.to_nat n) x.

Definition len {A : Type} (l : list A) : Z := Z.of_nat (length l).

End py.

(** ** The numpy operations the loaders use *)

Module np.

Definition arange (n : Z) : list Z := seqZ 0 n.

Fixpoint cumsum_from (acc : Z) (l : list Z) : list Z :=
  match l with
  | [] => []
  | x :: xs => (acc + x) :: cumsum_from (acc + x) xs
  end.

Definition cumsum (l : list Z) : list Z := cumsum_from 0 l.

(** [np.array_split(ary, Nsections)] for an integer number of sections
    (numpy/lib/shape_base.py):
<<
    Nsections = int(indices_or_sections)
    if Nsections <= 0:
        raise ValueError('number sections must be larger than 0.')
    Neach_section, extras = divmod(Ntotal, Nsections)
    section_sizes = ([0] + extras * [Neach_section+1] +
                     (Nsections-extras) * [Neach_section])
    div_points = _nx.array(section_sizes).cumsum()
    sub_arys = []
    for i in range(Nsections):
        st = div_points[i]
        end = div_points[i + 1]
        sub_arys.append(sary[st:end])
>> *)
Definition array_split {A : Type} (ary : list A) (Nsections : Z)
    : result (list (list A)) :=
  if decide (Nsections ≤ 0) then
    Raise (ValueError "number sections must be larger than 0.")
  else
    let Ntotal := py.len ary in
    let Neach_section := Ntotal / Nsections in
    let extras := Ntotal mod Nsections in
    let section_sizes :=
      [0] ++ py.repeat_list (Neach_section + 1) extras
          ++ py.repeat_list Neach_section (Nsections - extras) in
    let div_points := cumsum section_sizes in
    Ok ((λ i, py.slice ary (nth (Z.to_nat i) div_points 0)
                           (nth (Z.to_nat (i + 1)) div_points 0))
          <$> py.range Nsections).

(** [-1*np.ones((n,))] *)
Definition minus_ones (n : Z) : result (list Z) :=
  if decide (n < 0) then Raise (ValueError "negative dimensions are not allowed")
  else Ok (replicate (Z.to_nat n) (-1)).

(** [v[i] = x] for one index of an integer-array index: an index in
    [[-len, len)] is written (negative ones count from the end), any other
    raises. *)
Definition setitem_one (x : Z) (v : list Z) (i : Z) : result (list Z) :=
  let len := py.len v in
  if decide (0 ≤ i < len) then Ok (<[Z.to_nat i := x]> v)
  else if decide (- len ≤ i < 0) then Ok (<[Z.to_nat (i + len) := x]> v)
  else Raise (IndexError "index is out of bounds for axis 0").

(** [v[indices] = x] *)
Fixpoint setitem_fancy (v : list Z) (indices : list Z) (x : Z)
    : result (list Z) :=
  match indices with
  | [] => Ok v
  | i :: rest => try! v' := setitem_one x v i in setitem_fancy v' rest x
  end.

End np.

(** ** The scipy sparse-matrix operations the loaders use

    A sparse matrix is its shape and the finite map from the positions of
    its stored entries to their values. The compressed arrays are read off
    that map by scanning the shape in ascending order, which is the order
    scipy keeps them in. *)

Module sp.

Record spmatrix : Type := SpMatrix {
  shape : Z * Z;
  stored : gmap (Z * Z) Z
}.

Definition nrows (m : spmatrix) : Z := (shape m).1.
Definition ncols (m : spmatrix) : Z := (shape m).2.

(** One compressed column (or row): the [indices] and [data] arrays. *)
Record spvector : Type := SpVector {
  indices : list Z;
  data : list Z
}.

(** [m.getcol(j)]: the row indices of the stored entries of column [j],
    ascending, and their values. *)
Definition getcol (m : spmatrix) (j : Z) : spvector :=
  {| indices := filter (λ i, is_Some (stored m !! (i, j))) (seqZ 0 (nrows m));
     data := omap (λ i, stored m !! (i, j)) (seqZ 0 (nrows m)) |}.

(** [m.getrow(i)]: the column indices of the stored entries of row [i],
    ascending, and their values. *)
Definition getrow (m : spmatrix) (i : Z) : spvector :=
  {| indices := filter (λ j, is_Some (stored m !! (i, j))) (seqZ 0 (ncols m));
     data := omap (λ j, stored m !! (i, j)) (seqZ 0 (ncols m)) |}.

(** [m.tolil().rows]: for every row, the ascending column indices of its
    stored entries. *)
Definition lil_row (m : spmatrix) (i : Z) : list Z :=
  filter (λ j, is_Some (stored m !! (i, j))) (seqZ 0 (ncols m)).

Definition lil_rows (m : spmatrix) : list (list Z) :=
  lil_row m <$> seqZ 0 (nrows m).

(** [a.max()] and [a.min()] of a non-empty integer array. *)
Definition array_max (a : list Z) : Z :=
  match a with
  | [] => 0
  | x :: xs => foldl Z.max x xs
  end.

Definition array_min (a : list Z) : Z :=
  match a with
  | [] => 0
  | x :: xs => foldl Z.min x xs
  end.

(** [coo_matrix._check]:
<<
    if self.nnz > 0:
        if self.row.max() >= self.shape[0]:
            raise ValueError('row index exceeds matrix dimensions')
        if self.col.max() >= self.shape[1]:
            raise ValueError('column index exceeds matrix dimensions')
        if self.row.min() < 0:
            raise ValueError('negative row index found')
        if self.col.min() < 0:
            raise ValueError('negative column index found')
>> *)
Definition coo_check (shape : Z * Z) (data row col : list Z) : result unit :=
  if decide (0 < py.len data) then
    if decide (shape.1 ≤ array_max row) then
      Raise (ValueError "row index exceeds matrix dimensions")
    else if decide (shape.2 ≤ array_max col) then
      Raise (ValueError "column index exceeds matrix dimensions")
    else if decide (array_min row < 0) then
      Raise (ValueError "negative row index found")
    else if decide (array_min col < 0) then
      Raise (ValueError "negative column index found")
    else Ok tt
  else Ok tt.

(** Converting the triples to a compressed matrix sums the values given
    for one position. *)
Definition add_entry (m : gmap (Z * Z) Z) (t : Z * Z * Z) : gmap (Z * Z) Z :=
  <[(t.1.1, t.1.2) := default 0 (m !! (t.1.1, t.1.2)) + t.2]> m.

(** [csc_matrix((data, (row, col)), shape=shape)] *)
Definition csc_matrix (data row col : list Z) (shape : Z * Z)
    : result spmatrix :=
  if decide (shape.1 < 0 ∨ shape.2 < 0) then
    Raise (ValueError "'shape' elements cannot be negative")
  else
    try! checked := coo_check shape data row col in
    Ok (SpMatrix shape (foldl add_entry ∅ (zip (zip row col) data))).

(** The matrix made of the columns [cols] of [m], in that order. *)
Definition select_cols (m : spmatrix) (cols : list Z) : spmatrix :=
  SpMatrix (nrows m, py.len cols)
    (list_to_map
       (kc ← zip (seqZ 0 (py.len cols)) cols;
        i ← seqZ 0 (nrows m);
        match stored m !! (i, kc.2) with
        | Some v => [((i, kc.1), v)]
        | None => []
        end)).

(** The matrix made of the rows [rows] of [m], in that order. *)
Definition select_rows (m : spmatrix) (rows : list Z) : spmatrix :=
  SpMatrix (py.len rows, ncols m)
    (list_to_map
       (kr ← zip (seqZ 0 (py.len rows)) rows;
        j ← seqZ 0 (ncols m);
        match stored m !! (kr.2, j) with
        | Some v => [((kr.1, j), v)]
        | None => []
        end)).

End sp.

(** ** The label and feature containers ([xclib/data/labels.py],
       [xclib/data/features.py]) *)

Module LabelsBase.

(** Modelled from the spec: the class [LabelsBase] of
    [xclib/data/labels.py]. The label matrix is one sparse matrix of
    logical shape instance count by label count, which the loader reads
    as [labels.Y] and as [labels.data]; [_format] records the layout asked
    for at construction. *)
Record t : Type := Build {
  data : sp.spmatrix;
  _format : string
}.

Definition Y (l : t) : sp.spmatrix := data l.

Definition set_data (m : sp.spmatrix) (l : t) : t :=
  {| data := m; _format := _format l |}.

(** Modelled from the spec: the property [num_labels] of [LabelsBase],
    the label count of the logical shape. *)
Definition num_labels (l : t) : Z := sp.ncols (data l).

(** Modelled from the spec: [LabelsBase.index_select(idx)] as the
    one-vs-all materialiser calls it for one label index: the column of
    label [idx], whose [indices] are the row positions where that label's
    column has an entry. *)
Definition index_select (l : t) (idx : Z) : sp.spvector :=
  sp.getcol (data l) idx.

(** Modelled from the spec: [LabelsBase.index_select(idx)] as the
    shortlist materialiser calls it. There the specification has the index
    name an instance and the call select the row of the label matrix of
    that instance: the column indices of its stored entries, which are the
    shortlist of the instance, and their values. *)
Definition index_select_row (l : t) (idx : Z) : sp.spvector :=
  sp.getrow (data l) idx.

(** Modelled from the spec: [LabelsBase.index_select(indices, axis=0)],
    the label-matrix rows selected by those instance indices, in the
    sparse format. *)
Definition index_select_rows (l : t) (batch_indices : list Z) : sp.spmatrix :=
  sp.select_rows (data l) batch_indices.

(** Modelled from the spec: [LabelsBase.__getitem__] for
    [labels[:, start:stop]], the label-range restriction. It fails with a
    [ConfigurationError] when [stop <= start], and slices the columns to
    [[start, stop)] otherwise; a bound beyond the label count is cut as
    the bound of a Python slice is. *)
Definition getitem_cols (l : t) (start stop : Z) : result t :=
  if decide (stop ≤ start) then
    Raise (ConfigurationError "end_index <= start_index")
  else
    Ok (set_data
          (sp.select_cols (data l)
             (py.slice (seqZ 0 (sp.ncols (data l))) start stop))
          l).

(** Modelled from the spec: the valid labels, the label column indices
    that have at least one positive instance. *)
Definition get_valid (l : t) : list Z :=
  filter (λ j, sp.indices (sp.getcol (data l) j) ≠ [])
         (seqZ 0 (sp.ncols (data l))).

(** Modelled from the spec: [LabelsBase.remove_invalid()], which keeps
    the valid labels only and returns their indices, so that the removed
    labels stay recorded. *)
Definition remove_invalid (l : t) : list Z * t :=
  let indices := get_valid l in
  (indices, set_data (sp.select_cols (data l) indices) l).

End LabelsBase.

Module FeaturesBase.

Inductive kind : Type := SparseFeatures | DenseFeatures.

(** Modelled from the spec: the feature set of [xclib/data/features.py]:
    instance count, feature-dimension count, an opaque access handle and
    the normalisation applied to it. *)
Record t (FData : Type) : Type := Build {
  cls : kind;
  num_instances : Z;
  num_features : Z;
  data : FData;
  normalized : option string
}.
Arguments Build {FData}.
Arguments cls {FData}.
Arguments num_instances {FData}.
Arguments num_features {FData}.
Arguments data {FData}.
Arguments normalized {FData}.

(** Modelled from the spec: [features.normalize(norm=norm)], the in-place
    normalisation, which the feature set records. *)
Definition normalize {FData : Type} (norm : string) (f : t FData) : t FData :=
  {| cls := cls f; num_instances := num_instances f;
     num_features := num_features f; data := data f;
     normalized := Some norm |}.

End FeaturesBase.

(** ** Notions the properties are stated with *)

(** The sum of a list of integers. *)
Definition zsum (l : list Z) : Z := foldr Z.add 0 l.

(** Cutting a list into consecutive pieces of the given sizes. *)
Fixpoint split_sizes {A : Type} (l : list A) (sizes : list Z) : list (list A) :=
  match sizes with
  | [] => []
  | s :: rest => take (Z.to_nat s) l :: split_sizes (drop (Z.to_nat s) l) rest
  end.

#[global] Instance result_ret : MRet result := λ A a, Ok a.
#[global] Instance result_bind : MBind result := λ A B k r, rbind r k.

(** ** The loaders *)

Section Loader.

(** The opaque handle through which the features of the instances are
    reached ([features.data]). *)
Context {FData : Type}.

(** The type of the similarity scores handed to the shortlist update. *)
Context {Sim : Type}.

(** What the two input files under [os.path.join(data_dir, dataset)]
    hold once parsed: the header and the handle of the feature file, and
    the sparse matrix of the label file. *)
Record Files : Type := {
  feat_file : Z * Z * FData;
  label_file : sp.spmatrix
}.

(** The attributes of a loader object. [features] and [labels] are
    assigned by [construct] before anything reads them. *)
Record Loader : Type := {
  feature_type : string;
  norm : option string;
  features : FeaturesBase.t FData;
  labels : LabelsBase.t;
  batch_size : Z;
  start_index : Z;
  end_index : Z;
  batch_order : string;
  mode : string;
  valid_labels : option (list Z);
  num_valid_labels : option Z;
  batches : option (list (list Z));
  num_labels_ : Z
}.

Definition set_labels (x : LabelsBase.t) (s : Loader) : Loader :=
  {| feature_type := feature_type s; norm := norm s; features := features s;
     labels := x; batch_size := batch_size s; start_index := start_index s;
     end_index := end_index s; batch_order := batch_order s; mode := mode s;
     valid_labels := valid_labels s; num_valid_labels := num_valid_labels s;
     batches := batches s; num_labels_ := num_labels_ s |}.

Definition set_end_index (x : Z) (s : Loader) : Loader :=
  {| feature_type := feature_type s; norm := norm s; features := features s;
     labels := labels s; batch_size := batch_size s; start_index := start_index s;
     end_index := x; batch_order := batch_order s; mode := mode s;
     valid_labels := valid_labels s; num_valid_labels := num_valid_labels s;
     batches := batches s; num_labels_ := num_labels_ s |}.

Definition set_valid_labels (x : option (list Z)) (s : Loader) : Loader :=
  {| feature_type := feature_type s; norm := norm s; features := features s;
     labels := labels s; batch_size := batch_size s; start_index := start_index s;
     end_index := end_index s; batch_order := batch_order s; mode := mode s;
     valid_labels := x; num_valid_labels := num_valid_labels s;
     batches := batches s; num_labels_ := num_labels_ s |}.

Definition set_batches (x : option (list (list Z))) (s : Loader) : Loader :=
  {| feature_type := feature_type s; norm := norm s; features := features s;
     labels := labels s; batch_size := batch_size s; start_index := start_index s;
     end_index := end_index s; batch_order := batch_order s; mode := mode s;
     valid_labels := valid_labels s; num_valid_labels := num_valid_labels s;
     batches := x; num_labels_ := num_labels_ s |}.

Definition set_num_labels_ (x : Z) (s : Loader) : Loader :=
  {| feature_type := feature_type s; norm := norm s; features := features s;
     labels := labels s; batch_size := batch_size s; start_index := start_index s;
     end_index := end_index s; batch_order := batch_order s; mode := mode s;
     valid_labels := valid_labels s; num_valid_labels := num_valid_labels s;
     batches := batches s; num_labels_ := x |}.

(** A method: it reads and writes [self] and returns or raises. When it
    raises, [self] is as the method left it at that point. *)
Definition M (A : Type) : Type := Loader → result A * Loader.

#[global] Instance M_ret : MRet M := λ A a self, (Ok a, self).

#[global] Instance M_bind : MBind M := λ A B k m self,
  match m self with
  | (Ok a, self') => k a self'
  | (Raise e, self') => (Raise e, self')
  end.

Definition raise {A : Type} (e : exn) : M A := λ self, (Raise e, self).
Definition gets {A : Type} (f : Loader → A) : M A := λ self, (Ok (f self), self).
Definition modify (f : Loader → Loader) : M unit := λ self, (Ok tt, f self).
Definition lift {A : Type} (r : result A) : M A := λ self, (r, self).

(** A [for] loop whose body updates the local variables [acc]. *)
Fixpoint for_each {A S : Type} (l : list A) (body : A → S → M S) (acc : S)
    : M S :=
  match l with
  | [] => mret acc
  | x :: rest => acc' ← body x acc; for_each rest body acc'
  end.

(** *** [DataloaderBase] *)

Definition load_features (feature_type : string) (parsed : Z * Z * FData)
    : result (FeaturesBase.t FData) :=
  if String.eqb feature_type "sparse" then
    Ok (FeaturesBase.Build FeaturesBase.SparseFeatures
          parsed.1.1 parsed.1.2 parsed.2 None)
  else if String.eqb feature_type "dense" then
    Ok (FeaturesBase.Build FeaturesBase.DenseFeatures
          parsed.1.1 parsed.1.2 parsed.2 None)
  else Raise (NotImplementedError "Unknown feature type!").

Definition load_labels (batch_order : string) (parsed : sp.spmatrix)
    : LabelsBase.t :=
  let _format := if String.eqb batch_order "labels" then "csc" else "csr" in
  LabelsBase.Build parsed _format.

Definition load_data (feature_type batch_order : string) (norm : option string)
    (files : Files) : result (FeaturesBase.t FData * LabelsBase.t) :=
  let labels := load_labels batch_order (label_file files) in
  features ← load_features feature_type (feat_file files);
  let features :=
    match norm with
    | Some n => FeaturesBase.normalize n features
    | None => features
    end in
  mret (features, labels).

(** The read-only properties of the class. *)
Definition num_instances (self : Loader) : Z :=
  FeaturesBase.num_instances (features self).

Definition num_features (self : Loader) : Z :=
  FeaturesBase.num_features (features self).

Definition num_labels (self : Loader) : Z :=
  LabelsBase.num_labels (labels self).

Definition get_stats (self : Loader) : Z * Z * Z :=
  (num_instances self, num_features self, num_labels self).

(** The batch plan of [count] indices for the batch size of the loader:
    the three lines the two branches of [_gen_batches] share. *)
Definition plan_batches (count batch_size : Z) : result (list (list Z)) :=
  r ← py.mod_ count batch_size;
  let offset := if decide (r = 0) then 0 else 1 in
  q ← py.floordiv count batch_size;
  let num_batches := q + offset in
  np.array_split (np.arange count) num_batches.

Definition _gen_batches : M unit :=
  order ← gets batch_order;
  if String.eqb order "labels" then
    n ← gets num_labels;
    b ← gets batch_size;
    plan ← lift (plan_batches n b);
    modify (set_batches (Some plan))
  else if String.eqb order "instances" then
    n ← gets num_instances;
    b ← gets batch_size;
    plan ← lift (plan_batches n b);
    modify (set_batches (Some plan))
  else raise (NotImplementedError "Unknown order for batching!").

(** Lines 107 to 114 of [construct], on the object whose [features] and
    [labels] lines 105 and 106 have just assigned. *)
Definition construct_loaded : M unit :=
  Y ← gets (λ self, LabelsBase.Y (labels self));
  modify (set_num_labels_ (sp.ncols Y));;
  mode ← gets mode;
  (if String.eqb mode "train" then
     si ← gets start_index;
     ei ← gets end_index;
     (if negb (si =? 0) || negb (ei =? -1) then
        n ← gets num_labels;
        ei ← gets end_index;
        modify (set_end_index (if ei =? -1 then n else ei));;
        lbl ← gets labels;
        si ← gets start_index;
        ei ← gets end_index;
        sliced ← lift (LabelsBase.getitem_cols lbl si ei);
        modify (set_labels sliced)
      else mret tt);;
     lbl ← gets labels;
     modify (set_labels (LabelsBase.remove_invalid lbl).2);;
     modify (set_valid_labels (Some (LabelsBase.remove_invalid lbl).1))
   else mret tt);;
  _gen_batches.

(** [DataloaderBase.__init__] followed by [construct]: the loader, or the
    exception that escapes the constructor. The attribute [num_labels_]
    comes into being at line 107; until then its field holds 0, which
    nothing reads. *)
Definition construct (files : Files) (batch_size : Z) (feature_type : string)
    (mode batch_order : string) (norm : option string)
    (start_index end_index : Z) : result Loader :=
  fl ← load_data feature_type batch_order norm files;
  let self :=
    {| feature_type := feature_type; norm := norm; features := fl.1;
       labels := fl.2; batch_size := batch_size; start_index := start_index;
       end_index := end_index; batch_order := batch_order; mode := mode;
       valid_labels := None; num_valid_labels := None; batches := None;
       num_labels_ := 0 |} in
  match construct_loaded self with
  | (Ok _, self') => Ok self'
  | (Raise e, _) => Raise e
  end.

(** The dictionary a materialiser returns for one item: the keys
    ['data'], ['ind'] and ['Y']. ['Y'] is a dense vector in label-major
    order and a sparse slice of the label matrix in instance-major
    order. *)
Inductive target : Type :=
| Dense (v : list Z)
| Sparse (m : sp.spmatrix).

Record Item : Type := {
  item_data : FData;
  item_ind : option (list Z);
  item_Y : target
}.

Inductive Batch : Type :=
| LabelBatch (batch_data : list Item)
| InstanceBatch (item : Item).

Definition _create_instance_batch (batch_indices : list Z) : M Item :=
  fd ← gets (λ self, FeaturesBase.data (features self));
  lbl ← gets labels;
  mret {| item_data := fd;
          item_ind := Some batch_indices;
          item_Y := Sparse (LabelsBase.index_select_rows lbl batch_indices) |}.

(** The record [save] pickles. *)
Record Checkpoint : Type := {
  ck_num_labels : Z;
  ck_num_labels_ : Z;
  ck_valid_labels : option (list Z)
}.

(** A dict over the keys ['num_labels'], ['num_labels_'] and
    ['valid_labels']. The dict [save] pickles has the three of them; a
    dict from elsewhere may lack a key. A key that is there holds a value
    of the type [save] gives it. *)
Record StateDict : Type := {
  sd_num_labels : option Z;
  sd_num_labels_ : option Z;
  sd_valid_labels : option (option (list Z))
}.

Definition state_dict (state : Checkpoint) : StateDict :=
  {| sd_num_labels := Some (ck_num_labels state);
     sd_num_labels_ := Some (ck_num_labels_ state);
     sd_valid_labels := Some (ck_valid_labels state) |}.

(** The objects [pickle.load] may return here: a dict, or [None] for an
    object that is no dict. *)
Inductive PyObject : Type :=
| PyDict (d : StateDict)
| PyNone.

(** What a file holds: the pickle of an object, or bytes that are no
    pickle. *)
Inductive FileContent : Type :=
| Pickle (obj : PyObject)
| NotAPickle.

(** [pickle.dump(state, open(fname, 'wb'))] on a file system that maps
    the name of a file to what the file holds. *)
Definition save (fname : string) (fs : gmap string FileContent)
    : M (gmap string FileContent) :=
  n ← gets num_labels;
  n_ ← gets num_labels_;
  v ← gets valid_labels;
  let state :=
    {| ck_num_labels := n; ck_num_labels_ := n_; ck_valid_labels := v |} in
  mret (<[fname := Pickle (PyDict (state_dict state))]> fs).

(** [pickle.load(open(fname, 'rb'))] *)
Definition pickle_load (fs : gmap string FileContent) (fname : string)
    : result PyObject :=
  match fs !! fname with
  | Some (Pickle obj) => Ok obj
  | Some NotAPickle => Raise (UnpicklingError "invalid load key")
  | None => Raise (FileNotFoundError "No such file or directory")
  end.

(** [state[key]], the entry [field] of a dict. *)
Definition subscript {A : Type} (state : PyObject) (key : string)
    (field : StateDict → option A) : result A :=
  match state with
  | PyDict d =>
      match field d with
      | Some v => Ok v
      | None => Raise (KeyError key)
      end
  | PyNone => Raise (TypeError "'NoneType' object is not subscriptable")
  end.

(** [self.num_labels = v]. The class defines [num_labels] as a property
    with a getter only (lines 94 to 96), and a property without a setter
    refuses the assignment. *)
Definition setattr_num_labels (v : Z) : M unit :=
  raise (AttributeError "can't set attribute").

Definition load (fname : string) (fs : gmap string FileContent) : M unit :=
  state ← lift (pickle_load fs fname);
  v ← lift (subscript state "num_labels" sd_num_labels);
  setattr_num_labels v;;
  v ← lift (subscript state "num_labels_" sd_num_labels_);
  modify (set_num_labels_ v);;
  v ← lift (subscript state "valid_labels" sd_valid_labels);
  modify (set_valid_labels v).

Definition num_batches (self : Loader) : option Z :=
  py.len <$> batches self.

(** *** [Dataloader] *)

Definition _create_label_batch (batch_indices : list Z) : M (list Item) :=
  for_each batch_indices
    (λ idx batch_data,
       lbl ← gets labels;
       let pos_indices := sp.indices (LabelsBase.index_select lbl idx) in
       n ← gets num_instances;
       batch_labels ← lift (np.minus_ones n);
       batch_labels ← lift (np.setitem_fancy batch_labels pos_indices 1);
       fd ← gets (λ self, FeaturesBase.data (features self));
       let item :=
         {| item_ind := None; item_data := fd; item_Y := Dense batch_labels |} in
       mret (batch_data ++ [item]))
    [].

Definition _create_batch (batch_indices : list Z) : M Batch :=
  order ← gets batch_order;
  if String.eqb order "labels" then
    batch_data ← _create_label_batch batch_indices;
    mret (LabelBatch batch_data)
  else
    item ← _create_instance_batch batch_indices;
    mret (InstanceBatch item).

(** *** [DataloaderShortlist] *)

(** The body of the loop of [update_data_shortlist] (lines 285 to 293)
    on the local lists [rows], [cols] and [data]. *)
Definition shortlist_row (shortlist_ind : list (list Z))
    (pos_labels : list (list Z)) (idx : Z)
    (acc : list Z * list Z * list Z) : M (list Z * list Z * list Z) :=
  let rows := acc.1.1 in
  let cols := acc.1.2 in
  let data := acc.2 in
  indices ← lift (py.getitem shortlist_ind idx);
  _pos ← lift (py.getitem pos_labels idx);
  sentinel ← gets num_labels;
  let s_pos : gset Z := list_to_set _pos ∪ list_to_set [sentinel] in
  let _neg := filter (λ x, x ∉ s_pos) indices in
  let num_pos := py.len _pos in
  let num_neg := py.len _neg in
  let data := data ++ (py.repeat_list 1 num_pos ++ py.repeat_list (-1) num_neg) in
  let cols := cols ++ (_pos ++ _neg) in
  let rows := rows ++ py.repeat_list idx (num_pos + num_neg) in
  mret (rows, cols, data).

(** Lines 279 to 293: the triples assembled for the new matrix. *)
Definition shortlist_triples (shortlist_ind : list (list Z))
    : M (list Z * list Z * list Z) :=
  lbl ← gets labels;
  let _labels := LabelsBase.data lbl in
  let pos_labels := sp.lil_rows _labels in
  n ← gets num_instances;
  for_each (py.range n) (shortlist_row shortlist_ind pos_labels) ([], [], []).

Definition update_data_shortlist (shortlist_ind : list (list Z))
    (shortlist_sim : list (list Sim)) : M unit :=
  triples ← shortlist_triples shortlist_ind;
  let rows := triples.1.1 in
  let cols := triples.1.2 in
  let data := triples.2 in
  n ← gets num_instances;
  l ← gets num_labels;
  m ← lift (sp.csc_matrix data rows cols (n, l));
  modify (λ self, set_labels (LabelsBase.set_data m (labels self)) self).

(** The count [_gen_batches] partitions: labels in label-major order,
    instances otherwise. *)
Definition batch_count (self : Loader) : Z :=
  if String.eqb (batch_order self) "labels" then num_labels self
  else num_instances self.

(** The loader invariant the shortlist update relies on: the label
    matrix has one row per instance, and its shape is not negative. *)
Definition consistent (self : Loader) : Prop :=
  sp.nrows (LabelsBase.data (labels self)) = num_instances self
  ∧ 0 ≤ num_instances self
  ∧ 0 ≤ num_labels self.

(** The list [pos_labels[idx]] the update reads for instance [i]: the
    columns of the entries stored in row [i] of the label matrix, whatever
    their values. *)
Definition positives (self : Loader) (i : Z) : list Z :=
  sp.lil_row (LabelsBase.data (labels self)) i.

(** The candidate list [C_i] of instance [i]. *)
Definition candidates (shortlist_ind : list (list Z)) (i : Z) : list Z :=
  default [] (shortlist_ind !! Z.to_nat i).

(** The list [_neg] the update computes for instance [i]: the candidates
    that are neither in [pos_labels[idx]] nor the sentinel, which is the
    label count, in the order of the candidates. *)
Definition negatives (self : Loader) (shortlist_ind : list (list Z)) (i : Z)
    : list Z :=
  filter (λ x, (x ∉ positives self i) ∧ x ≠ num_labels self)
         (candidates shortlist_ind i).

(** The (row, column, value) triples handed to [csc_matrix]. *)
Definition zip3 (rows cols data : list Z) : list (Z * Z * Z) :=
  zip (zip rows cols) data.

(** The triples of one row: [+1] at the columns [P], then [-1] at the
    columns [N]. *)
Definition row_block (i : Z) (P N : list Z) : list (Z * Z * Z) :=
  ((λ p, (i, p, 1)) <$> P) ++ ((λ x, (i, x, -1)) <$> N).

(** The triples emitted for instance [i]. *)
Definition emitted (self : Loader) (shortlist_ind : list (list Z)) (i : Z)
    : list (Z * Z * Z) :=
  row_block i (positives self i) (negatives self shortlist_ind i).

(** The specification's side of the shortlist update. Its positive set
    [P_i] is the set of the true positives of instance [i]: the columns
    at which row [i] holds a positive entry. *)
Definition holds_positive (m : sp.spmatrix) (i j : Z) : Prop :=
  ∃ v, sp.stored m !! (i, j) = Some v ∧ 0 < v.

#[global] Instance holds_positive_dec (m : sp.spmatrix) (i j : Z)
    : Decision (holds_positive m i j).
Proof.
  unfold holds_positive. destruct (sp.stored m !! (i, j)) as [v|].
  - destruct (decide (0 < v)) as [Hv|Hv].
    + left. exists v. split; [reflexivity | exact Hv].
    + right. intros (w & [= <-] & Hw). exact (Hv Hw).
  - right. intros (w & Hw & _). discriminate.
Defined.

Definition positive_set (self : Loader) (i : Z) : list Z :=
  filter (holds_positive (LabelsBase.data (labels self)) i)
         (seqZ 0 (num_labels self)).

(** Its negative set [N_i = C_i \ (P_i ∪ {sentinel})], in the order of
    the candidates. *)
Definition negative_set (self : Loader) (shortlist_ind : list (list Z))
    (i : Z) : list Z :=
  filter (λ x, (x ∉ positive_set self i) ∧ x ≠ num_labels self)
         (candidates shortlist_ind i).

(** The ground-truth form of the label matrix: presence only, every
    stored entry is positive. The matrix an update stores is not of that
    form as soon as it holds a negative. *)
Definition ground_truth (self : Loader) : Prop :=
  ∀ i j v, sp.stored (LabelsBase.data (labels self)) !! (i, j) = Some v → 0 < v.

(** The label-range restriction of [construct]: it is asked for in mode
    "train" with a [start_index] other than 0 or an [end_index] other than
    -1; an [end_index] of -1 stands for the label count [n]; and the range
    is empty when the end so resolved is not after the start. *)
Definition restriction_requested (mode : string) (start_index end_index : Z)
    : Prop :=
  mode = "train" ∧ (start_index ≠ 0 ∨ end_index ≠ -1).

Definition resolved_end (end_index n : Z) : Z :=
  if end_index =? -1 then n else end_index.

Definition empty_range_requested (mode : string) (start_index end_index n : Z)
    : Prop :=
  restriction_requested mode start_index end_index
  ∧ resolved_end end_index n ≤ start_index.

#[global] Instance empty_range_requested_dec (mode : string)
    (start_index end_index n : Z)
    : Decision (empty_range_requested mode start_index end_index n).
Proof. unfold empty_range_requested, restriction_requested. apply _. Defined.

(** The failures the specification files under [ConfigurationError]: the
    [NotImplementedError] by which the code reports a feature type or a
    batch order it does not know, and the failure of the label-range
    restriction. *)
Definition configuration_error (e : exn) : Prop :=
  (∃ msg, e = NotImplementedError msg) ∨ (∃ msg, e = ConfigurationError msg).

(** A method that leaves [self] as it found it, whether it returns or
    raises. *)
Definition read_only {A : Type} (m : M A) : Prop :=
  ∀ self, (m self).2 = self.

End Loader.

(** ** Iteration

    A loader is iterated by a generator. Run to its end without anything
    else touching the loader in between, as [list(loader)] does, a
    generator has yielded a list of items and has ended in one of two
    ways: it is exhausted, or an exception has left its body. *)

Inductive gen_end : Type :=
| StopIteration
| Propagated (e : exn).

Section Generators.

Context {FData : Type}.

(** The loop [for batch_indices in chunks: yield create(batch_indices)]. *)
Fixpoint yield_each (create : list Z → @M FData (@Batch FData))
    (chunks : list (list Z)) (self : @Loader FData)
    : list (@Batch FData) * gen_end * @Loader FData :=
  match chunks with
  | [] => ([], StopIteration, self)
  | batch_indices :: rest =>
      match create batch_indices self with
      | (Ok batch, self') =>
          let run := yield_each create rest self' in
          (batch :: run.1.1, run.1.2, run.2)
      | (Raise e, self') => ([], Propagated e, self')
      end
  end.

(** The generator body shared by the two [__iter__] methods; iterating
    over [self.batches] while it is still [None] is a [TypeError]. *)
Definition iterate (create : list Z → @M FData (@Batch FData))
    (self : @Loader FData) : list (@Batch FData) * gen_end * @Loader FData :=
  match batches self with
  | Some chunks => yield_each create chunks self
  | None => ([], Propagated (TypeError "'NoneType' object is not iterable"), self)
  end.

(** [DataloaderBase.__len__] *)
Definition __len__ (self : @Loader FData) : option Z := num_batches self.

End Generators.

Module Dataloader.
Section Methods.

Context {FData : Type}.

Definition __iter__ (self : @Loader FData)
    : list (@Batch FData) * gen_end * @Loader FData :=
  iterate _create_batch self.

End Methods.
End Dataloader.

Module DataloaderShortlist.
Section Methods.

Context {FData : Type}.

(** The indices of a batch name instances here: an item carries the
    shortlist of one instance and the targets of its labels. *)
Definition _create_label_batch (batch_indices : list Z)
    : @M FData (list (@Item FData)) :=
  for_each batch_indices
    (λ idx batch_data,
       fd ← gets (λ self, FeaturesBase.data (features self));
       lbl ← gets labels;
       let temp := LabelsBase.index_select_row lbl idx in
       let item :=
         {| item_data := fd;
            item_ind := Some (sp.indices temp);
            item_Y := Dense (sp.data temp) |} in
       mret (batch_data ++ [item]))
    [].

Definition _create_batch (batch_indices : list Z) : @M FData (@Batch FData) :=
  order ← gets batch_order;
  if String.eqb order "labels" then
    batch_data ← _create_label_batch batch_indices;
    mret (LabelBatch batch_data)
  else
    item ← _create_instance_batch batch_indices;
    mret (InstanceBatch item).

Definition __iter__ (self : @Loader FData)
    : list (@Batch FData) * gen_end * @Loader FData :=
  iterate _create_batch self.

End Methods.
End DataloaderShortlist.

(** ** The ranking helper of the analysis script
       ([.processing_codes/Analysis/scripts/noncontribution.py]) *)

Module noncontribution.
Section RankSparse.

(** The type of the scores, and [np.argsort(-data)]: the indices that sort
    the scores in descending order. numpy's default sort leaves the order
    among equal scores open, so the function is a parameter. *)
Context {Score : Type} (argsort_neg : list Score → list Z).

(** A row of a CSR matrix as iterating over the matrix yields it: its
    [indices] and [data] arrays. *)
Record row : Type := Row {
  indices : list Z;
  data : list Score
}.

Record csr : Type := Csr {
  shape : Z * Z;
  rows : list row
}.

(** [np.full((total, K), fill)] *)
Definition full (total K fill : Z) : result (list (list Z)) :=
  if decide (total < 0 ∨ K < 0) then
    Raise (ValueError "negative dimensions are not allowed")
  else Ok (replicate (Z.to_nat total) (replicate (Z.to_nat K) fill)).

(** [index[idx]] for an integer array [idx]. *)
Fixpoint take_indices (index idx : list Z) : result (list Z) :=
  match idx with
  | [] => Ok []
  | j :: rest =>
      try! x := py.getitem index j in
      try! xs := take_indices index rest in
      Ok (x :: xs)
  end.

(** [predicted[i, :n] = values]: the values must be as many as the slice
    holds, or one value that is broadcast. *)
Definition assign_row_prefix (predicted : list (list Z)) (i n : Z)
    (values : list Z) : result (list (list Z)) :=
  try! row := py.getitem predicted i in
  let target := py.slice row 0 n in
  if decide (length values = length target) then
    Ok (<[Z.to_nat i := values ++ drop (length target) row]> predicted)
  else
    match values with
    | [v] => Ok (<[Z.to_nat i := replicate (length target) v
                                 ++ drop (length target) row]> predicted)
    | _ => Raise (ValueError "could not broadcast input array")
    end.

(** The loop [for i, x in enumerate(X)] of [_rank_sparse]. *)
Fixpoint rank_rows (K : Z) (enumerated : list (Z * row))
    (predicted : list (list Z)) : result (list (list Z)) :=
  match enumerated with
  | [] => Ok predicted
  | (i, x) :: rest =>
      let index := indices x in
      let data := data x in
      let idx := py.slice (argsort_neg data) 0 K in
      try! values := take_indices index idx in
      try! predicted := assign_row_prefix predicted i (py.len idx) values in
      rank_rows K rest predicted
  end.

Definition _rank_sparse (X : csr) (K : Z) : result (list (list Z)) :=
  let total := (shape X).1 in
  let labels := (shape X).2 in
  try! predicted := full total K labels in
  rank_rows K (zip (seqZ 0 (py.len (rows X))) (rows X)) predicted.

End RankSparse.
End noncontribution.

(** ** Further notions the properties are stated with *)

(** The items of a batch, one after the other. *)
Definition batch_items {FData : Type} (b : @Batch FData) : list (@Item FData) :=
  match b with
  | LabelBatch batch_data => batch_data
  | InstanceBatch item => [item]
  end.

(** The one-vs-all target of label [j] over [n] instances: [+1] at the
    rows where column [j] of [m] has a stored entry, [-1] elsewhere. *)
Definition one_vs_all (m : sp.spmatrix) (n j : Z) : list Z :=
  (λ i, if decide (is_Some (sp.stored m !! (i, j))) then 1 else -1) <$> seqZ 0 n.

(** How often [x] occurs in [l]. *)
Definition occurrences (x : Z) (l : list Z) : Z :=
  py.len (filter (λ y, y = x) l).

(** ** A small data set

    Four instances, three labels, the positives (0,0), (1,1) and (2,2);
    the feature handle carries no information. *)

Definition example_labels : sp.spmatrix :=
  sp.SpMatrix (4, 3) (<[(0, 0) := 1]> (<[(1, 1) := 1]> (<[(2, 2) := 1]> ∅))).

Definition example_files : @Files unit :=
  {| feat_file := (4, 10, tt); label_file := example_labels |}.

(** The loader built from it in label-major order with batches of two. *)
Definition example_loader : @Loader unit :=
  {| feature_type := "sparse";
     norm := Some "l2";
     features := FeaturesBase.Build FeaturesBase.SparseFeatures 4 10 tt (Some "l2");
     labels := LabelsBase.Build example_labels "csc";
     batch_size := 2;
     start_index := 0;
     end_index := -1;
     batch_order := "labels";
     mode := "train";
     valid_labels := Some [0; 1; 2];
     num_valid_labels := None;
     batches := Some [[0; 1]; [2]];
     num_labels_ := 3 |}.

(** Candidate lists for the four instances: label indices and the
    sentinel 3, without repetition. *)
Definition example_shortlist : list (list Z) :=
  [[1; 3]; [0; 2]; [0; 1]; []].

(** The loader after the update with these candidates: the label matrix
    holds [+1] at the positives and [-1] at the negatives. *)
Definition example_updated_loader : @Loader unit :=
  {| feature_type := "sparse";
     norm := Some "l2";
     features := FeaturesBase.Build FeaturesBase.SparseFeatures 4 10 tt (Some "l2");
     labels := LabelsBase.Build
                 (sp.SpMatrix (4, 3)
                    (<[(0, 0) := 1]> (<[(0, 1) := -1]>
                     (<[(1, 0) := -1]> (<[(1, 1) := 1]> (<[(1, 2) := -1]>
                     (<[(2, 0) := -1]> (<[(2, 1) := -1]> (<[(2, 2) := 1]> ∅)))))))))
                 "csc";
     batch_size := 2;
     start_index := 0;
     end_index := -1;
     batch_order := "labels";
     mode := "train";
     valid_labels := Some [0; 1; 2];
     num_valid_labels := None;
     batches := Some [[0; 1]; [2]];
     num_labels_ := 3 |}.

(** Candidate lists for a later update: label 2 for instance 0. *)
Definition later_shortlist : list (list Z) :=
  [[2]; []; []; []].

(** Candidate lists whose first one holds the index 5, which is neither a
    label index nor the sentinel. *)
Definition out_of_range_shortlist : list (list Z) :=
  [[0; 1; 5]; []; []; []].

(** The same loader with a batch size that exceeds the label count, and
    with a batch size of zero. *)
Definition example_wide_loader : @Loader unit :=
  {| feature_type := "sparse";
     norm := Some "l2";
     features := FeaturesBase.Build FeaturesBase.SparseFeatures 4 10 tt (Some "l2");
     labels := LabelsBase.Build example_labels "csc";
     batch_size := 5;
     start_index := 0;
     end_index := -1;
     batch_order := "labels";
     mode := "train";
     valid_labels := Some [0; 1; 2];
     num_valid_labels := None;
     batches := None;
     num_labels_ := 3 |}.

Definition example_unbatchable_loader : @Loader unit :=
  {| feature_type := "sparse";
     norm := Some "l2";
     features := FeaturesBase.Build FeaturesBase.SparseFeatures 4 10 tt (Some "l2");
     labels := LabelsBase.Build example_labels "csc";
     batch_size := 0;
     start_index := 0;
     end_index := -1;
     batch_order := "labels";
     mode := "train";
     valid_labels := Some [0; 1; 2];
     num_valid_labels := None;
     batches := None;
     num_labels_ := 3 |}.


(** A loader whose label matrix has a fifth row, with a positive of label
    0, while the features know four instances. *)
Definition example_tall_loader : @Loader unit :=
  {| feature_type := "sparse";
     norm := Some "l2";
     features := FeaturesBase.Build FeaturesBase.SparseFeatures 4 10 tt (Some "l2");
     labels := LabelsBase.Build
                 (sp.SpMatrix (5, 3) (<[(4, 0) := 1]> (<[(1, 1) := 1]> ∅))) "csc";
     batch_size := 2;
     start_index := 0;
     end_index := -1;
     batch_order := "labels";
     mode := "train";
     valid_labels := Some [0; 1];
     num_valid_labels := None;
     batches := Some [[0; 1]; [2]];
     num_labels_ := 3 |}.

(** An argsort for integer scores: the positions, sorted by descending
    score with a merge sort. *)
Definition example_argsort (data : list Z) : list Z :=
  (@merge_sort (Z * Z) (λ p q, q.1 ≤ p.1) (λ p q, decide (q.1 ≤ p.1))
     (zip data (seqZ 0 (py.len data)))).*2.

(** Scores of two rows over four columns. *)
Definition example_scores : @noncontribution.csr Z :=
  noncontribution.Csr (2, 4)
    [noncontribution.Row [0; 2; 3] [5; 9; 7]; noncontribution.Row [1] [4]].

(** ** Properties *)

Section Properties.

Context {FData : Type} {Sim : Type}.

Local Abbreviation Loader := (@Loader FData).
Local Abbreviation Files := (@Files FData).
Local Abbreviation M := (@M FData).

(** ** Slices and [np.array_split] *)

Lemma slice_in_range {A : Type} (l : list A) (s e : Z) :
  0 ≤ s → s ≤ e → e ≤ py.len l →
  py.slice l s e = take (Z.to_nat (e - s)) (drop (Z.to_nat s) l).
Proof.
  intros Hs Hse He. unfold py.slice, py.slice_bound, py.len in *.
  repeat case_decide; try lia.
  rewrite !Z.min_l by lia. reflexivity.
Qed.

Lemma zsum_app (l k : list Z) : zsum (l ++ k) = zsum l + zsum k.
Proof. induction l as [|x l IH]; simpl; [reflexivity | rewrite IH; lia]. Qed.

Lemma zsum_replicate (n : nat) (x : Z) : zsum (replicate n x) = Z.of_nat n * x.
Proof. induction n as [|n IH]; simpl; [reflexivity | rewrite IH; lia]. Qed.

Lemma zsum_nonneg (l : list Z) : Forall (λ s, 0 ≤ s) l → 0 ≤ zsum l.
Proof. induction 1; simpl; lia. Qed.

Lemma array_split_chunks {A : Type} (l : list A) (sizes : list Z) :
  ∀ off, 0 ≤ off → Forall (λ s, 0 ≤ s) sizes → off + zsum sizes ≤ py.len l →
  (λ i, py.slice l (nth (Z.to_nat i) (off :: np.cumsum_from off sizes) 0)
                   (nth (Z.to_nat (i + 1)) (off :: np.cumsum_from off sizes) 0))
    <$> seqZ 0 (py.len sizes)
  = split_sizes (drop (Z.to_nat off) l) sizes.
Proof.
  induction sizes as [|s sizes IH]; intros off Hoff Hall Hsum; [reflexivity|].
  inversion Hall as [|? ? Hs Hall']; subst. simpl in Hsum.
  pose proof (zsum_nonneg _ Hall') as Hpos.
  unfold py.len. rewrite seqZ_cons by (simpl; lia).
  rewrite fmap_cons. simpl split_sizes. f_equal.
  - simpl. rewrite slice_in_range by (unfold py.len in *; lia). f_equal. lia.
  - replace (Z.pred (Z.of_nat (length (s :: sizes)))) with (py.len sizes)
      by (unfold py.len; simpl; lia).
    replace (Z.succ 0) with (1 + 0) by lia.
    rewrite <- fmap_add_seqZ, <- list_fmap_compose.
    rewrite drop_drop, <- Z2Nat.inj_add by lia.
    rewrite <- (IH (off + s)) by (first [done | lia]).
    apply list_fmap_ext. intros i x Hx. apply lookup_seqZ in Hx as [-> Hlt].
    simpl.
    replace (Z.to_nat (1 + (0 + Z.of_nat i))) with (S (Z.to_nat (0 + Z.of_nat i))) by lia.
    replace (Z.to_nat (1 + (0 + Z.of_nat i) + 1)) with (S (Z.to_nat (0 + Z.of_nat i + 1))) by lia.
    reflexivity.
Qed.

Lemma concat_split_sizes {A : Type} (sizes : list Z) :
  ∀ l : list A, Forall (λ s, 0 ≤ s) sizes →
  concat (split_sizes l sizes) = take (Z.to_nat (zsum sizes)) l.
Proof.
  induction sizes as [|s sizes IH]; intros l Hall; simpl; [by rewrite take_0|].
  inversion Hall as [|? ? Hs Hall']; subst.
  pose proof (zsum_nonneg _ Hall') as Hpos.
  rewrite IH by done. rewrite Z2Nat.inj_add by lia.
  by rewrite take_add_app_drop || (rewrite <- take_take_drop; done).
Qed.

Lemma length_split_sizes {A : Type} (sizes : list Z) :
  ∀ l : list A, Forall (λ s, 0 ≤ s) sizes → zsum sizes ≤ py.len l →
  py.len <$> split_sizes l sizes = sizes.
Proof.
  induction sizes as [|s sizes IH]; intros l Hall Hsum; simpl; [done|].
  inversion Hall as [|? ? Hs Hall']; subst. simpl in Hsum.
  pose proof (zsum_nonneg _ Hall') as Hpos. unfold py.len in *.
  f_equal.
  - rewrite length_take. lia.
  - apply IH; [done|]. rewrite length_drop. lia.
Qed.

Lemma array_split_sections {A : Type} (ary : list A) (k : Z) :
  0 < k →
  np.array_split ary k =
    Ok (split_sizes ary
          (replicate (Z.to_nat (py.len ary `mod` k)) (py.len ary / k + 1)
           ++ replicate (Z.to_nat (k - py.len ary `mod` k)) (py.len ary / k))).
Proof.
  intros Hk. unfold np.array_split. case_decide; [lia|]. f_equal.
  unfold py.repeat_list, py.range.
  set (sizes := replicate _ _ ++ replicate _ _).
  pose proof (Z.mod_pos_bound (py.len ary) k Hk) as Hmod.
  assert (0 ≤ py.len ary) as Hlen by (unfold py.len; lia).
  pose proof (Z.div_pos (py.len ary) k Hlen Hk) as Hdiv.
  pose proof (Z.div_mod (py.len ary) k ltac:(lia)) as Hdm.
  assert (py.len sizes = k) as Hsz.
  { unfold sizes, py.len in *. rewrite length_app, !length_replicate. lia. }
  assert (Forall (λ s, 0 ≤ s) sizes) as Hall.
  { unfold sizes. apply Forall_app. split; apply Forall_replicate; lia. }
  assert (zsum sizes = py.len ary) as Hsum.
  { unfold sizes. rewrite zsum_app, !zsum_replicate. rewrite !Z2Nat.id by lia. nia. }
  change (np.cumsum ([0] ++ sizes)) with (0 :: np.cumsum_from 0 sizes).
  rewrite <- Hsz at 1. rewrite array_split_chunks by (first [done | lia]).
  reflexivity.
Qed.

Lemma plan_batches_sections (N B : Z) :
  0 < N → 0 < B →
  plan_batches N B =
    np.array_split (np.arange N)
      (N / B + (if decide (N `mod` B = 0) then 0 else 1))
  ∧ 0 < N / B + (if decide (N `mod` B = 0) then 0 else 1)
  ∧ N / B + (if decide (N `mod` B = 0) then 0 else 1) = (N + B - 1) / B.
Proof.
  intros HN HB. unfold plan_batches, py.mod_, py.floordiv.
  case_decide; [lia|]. simpl.
  pose proof (Z.mod_pos_bound N B HB) as Hmod.
  pose proof (Z.div_mod N B ltac:(lia)) as Hdm.
  assert (0 ≤ N / B) as Hq by (apply Z.div_pos; lia).
  split; [reflexivity|].
  case_decide.
  - split; [nia|]. apply (Z.div_unique _ _ _ (B - 1)); lia.
  - split; [lia|]. apply (Z.div_unique _ _ _ (N `mod` B - 1)); lia.
Qed.

Lemma plan_batches_spec (N B : Z) :
  0 < N → 0 < B →
  ∃ plan k,
    plan_batches N B = Ok plan
    ∧ k = (N + B - 1) / B
    ∧ 0 < k
    ∧ py.len <$> plan =
        replicate (Z.to_nat (N `mod` k)) (N / k + 1)
        ++ replicate (Z.to_nat (k - N `mod` k)) (N / k)
    ∧ concat plan = seqZ 0 N.
Proof.
  intros HN HB.
  destruct (plan_batches_sections N B HN HB) as (Hplan & Hk & Hceil).
  rewrite Hceil in *. set (k := (N + B - 1) / B) in *.
  assert (py.len (np.arange N) = N) as Hlen.
  { unfold py.len, np.arange. rewrite length_seqZ. lia. }
  rewrite array_split_sections, Hlen in Hplan by done.
  pose proof (Z.mod_pos_bound N k Hk) as Hmod.
  pose proof (Z.div_mod N k ltac:(lia)) as Hdm.
  assert (0 ≤ N / k) as Hq by (apply Z.div_pos; lia).
  set (sizes := replicate _ _ ++ replicate _ _) in *.
  assert (Forall (λ s, 0 ≤ s) sizes) as Hall.
  { unfold sizes. apply Forall_app. split; apply Forall_replicate; lia. }
  assert (zsum sizes = N) as Hsum.
  { unfold sizes. rewrite zsum_app, !zsum_replicate. rewrite !Z2Nat.id by lia. nia. }
  eexists _, k. split; [exact Hplan|]. split; [done|]. split; [done|]. split.
  - apply length_split_sizes; [done|]. change (zsum sizes ≤ py.len (np.arange N)). lia.
  - rewrite concat_split_sizes by done. rewrite Hsum.
    apply take_ge. unfold np.arange. rewrite length_seqZ. lia.
Qed.

(** ** The batch plan *)

Lemma lookup_balanced_sizes (a b : nat) (q : Z) (i : nat) (s : Z) :
  (replicate a (q + 1) ++ replicate b q) !! i = Some s →
  s = q + (if decide (Z.of_nat i < Z.of_nat a) then 1 else 0).
Proof.
  intros Hi. case_decide.
  - rewrite lookup_app_l in Hi by (rewrite length_replicate; lia).
    apply lookup_replicate in Hi as [-> _]. reflexivity.
  - rewrite lookup_app_r in Hi by (rewrite length_replicate; lia).
    apply lookup_replicate in Hi as [-> _]. lia.
Qed.

Lemma zsum_length_concat {A : Type} (ls : list (list A)) :
  zsum (py.len <$> ls) = py.len (concat ls).
Proof.
  induction ls as [|l ls IH]; [reflexivity|].
  change (py.len l + zsum (py.len <$> ls) = py.len (l ++ concat ls)).
  rewrite IH. unfold py.len. rewrite length_app. lia.
Qed.

(** C1. For a total count N > 0 and a batch size B > 0, [_gen_batches]
    stores a plan of ceil(N/B) chunks: chunk number i has
    N div k + 1 elements when i < N mod k and N div k elements otherwise
    (k the number of chunks), so the sizes sum to N and differ pairwise by
    at most one, and the chunks concatenated in order are the ascending
    range 0, ..., N-1. The plan is a function of N and B alone. *)
Theorem gen_batches_partition (self : Loader) :
  batch_order self = "labels" ∨ batch_order self = "instances" →
  0 < batch_count self →
  0 < batch_size self →
  let N := batch_count self in
  let B := batch_size self in
  let k := (N + B - 1) / B in
  ∃ plan,
    _gen_batches self = (Ok tt, set_batches (Some plan) self)
    ∧ plan_batches N B = Ok plan
    ∧ py.len plan = k
    ∧ (k - 1) * B < N ≤ k * B
    ∧ (∀ (i : nat) chunk, plan !! i = Some chunk →
         py.len chunk = N / k + (if decide (Z.of_nat i < N `mod` k) then 1 else 0))
    ∧ zsum (py.len <$> plan) = N
    ∧ (∀ c1 c2, c1 ∈ plan → c2 ∈ plan → Z.abs (py.len c1 - py.len c2) ≤ 1)
    ∧ concat plan = seqZ 0 N.
Proof.
  intros Horder HN HB N B k.
  destruct (plan_batches_spec N B HN HB) as (plan & k' & Hplan & Hk' & Hk & Hsizes & Hcat).
  fold k in Hk'. subst k'.
  pose proof (Z.mod_pos_bound N k Hk) as Hmod.
  assert (∀ (i : nat) chunk, plan !! i = Some chunk →
            py.len chunk = N / k + (if decide (Z.of_nat i < N `mod` k) then 1 else 0))
    as Hchunk.
  { intros i chunk Hi.
    assert ((py.len <$> plan) !! i = Some (py.len chunk)) as Hl
      by (rewrite list_lookup_fmap, Hi; reflexivity).
    rewrite Hsizes in Hl. apply lookup_balanced_sizes in Hl.
    rewrite Z2Nat.id in Hl by lia. exact Hl. }
  exists plan. split; [|split; [exact Hplan|]]; [|split; [|split; [|split; [|split; [|split]]]]].
  - unfold _gen_batches, batch_count in *. subst N B.
    unfold mbind, M_bind, gets, lift, modify. simpl.
    destruct Horder as [Ho|Ho]; rewrite Ho in *; simpl in *; rewrite Hplan; reflexivity.
  - assert (py.len (py.len <$> plan) = py.len plan) as <-
      by (unfold py.len; rewrite length_fmap; reflexivity).
    rewrite Hsizes. unfold py.len. rewrite length_app, !length_replicate. lia.
  - unfold k.
    pose proof (Z.div_mod (N + B - 1) B ltac:(lia)) as Hdm.
    pose proof (Z.mod_pos_bound (N + B - 1) B HB) as Hmb. nia.
  - exact Hchunk.
  - rewrite zsum_length_concat, Hcat. unfold py.len. rewrite length_seqZ. lia.
  - intros c1 c2 H1 H2.
    apply list_elem_of_lookup in H1 as [i1 H1], H2 as [i2 H2].
    rewrite (Hchunk _ _ H1), (Hchunk _ _ H2). repeat case_decide; lia.
  - exact Hcat.
Qed.

(** ** The one-vs-all targets *)

Lemma setitem_fancy_in_range (x : Z) (indices : list Z) :
  ∀ v : list Z,
  (∀ i, i ∈ indices → 0 ≤ i < py.len v) →
  ∃ v', np.setitem_fancy v indices x = Ok v'
    ∧ length v' = length v
    ∧ ∀ k : nat, (k < length v)%nat →
        v' !! k = if decide (Z.of_nat k ∈ indices) then Some x else v !! k.
Proof.
  induction indices as [|i indices IH]; intros v Hin.
  - exists v. split; [reflexivity|]. split; [reflexivity|].
    intros k Hk. case_decide as Hm; [by apply elem_of_nil in Hm | reflexivity].
  - assert (0 ≤ i < py.len v) as Hi by (apply Hin; left).
    simpl. unfold np.setitem_one. rewrite decide_True by exact Hi. simpl.
    destruct (IH (<[Z.to_nat i := x]> v)) as (v' & Hv' & Hlen & Hlook).
    { intros i' Hi'. unfold py.len in *. rewrite length_insert.
      apply Hin. by right. }
    rewrite length_insert in Hlen.
    exists v'. split; [exact Hv'|]. split; [exact Hlen|].
    intros k Hk. rewrite Hlook by (rewrite length_insert; exact Hk).
    unfold py.len in Hi.
    destruct (decide (Z.of_nat k = i)) as [Heq|Hne].
    + rewrite (decide_True (P := Z.of_nat k ∈ i :: indices)) by (subst i; left).
      case_decide; [reflexivity|].
      subst i. rewrite Nat2Z.id. apply list_lookup_insert_eq. exact Hk.
    + rewrite list_lookup_insert_ne by lia.
      destruct (decide (Z.of_nat k ∈ indices)) as [Hm|Hm].
      * rewrite decide_True by (by right). reflexivity.
      * rewrite decide_False; [reflexivity|].
        intros [?|?]%elem_of_cons; [lia | done].
Qed.

Lemma elem_of_getcol_indices (m : sp.spmatrix) (i j : Z) :
  i ∈ sp.indices (sp.getcol m j)
  ↔ 0 ≤ i < sp.nrows m ∧ is_Some (sp.stored m !! (i, j)).
Proof.
  unfold sp.getcol. simpl. rewrite list_elem_of_filter, elem_of_seqZ.
  intuition lia.
Qed.

(** The dense vector written for label [j]: it has one entry per
    instance, [+1] where column [j] has a stored entry and [-1]
    elsewhere. *)
Lemma dense_target_of_column (m : sp.spmatrix) (j n : Z) :
  0 ≤ n → sp.nrows m = n →
  np.minus_ones n = Ok (replicate (Z.to_nat n) (-1))
  ∧ np.setitem_fancy (replicate (Z.to_nat n) (-1)) (sp.indices (sp.getcol m j)) 1
  = Ok ((λ i, if decide (is_Some (sp.stored m !! (i, j))) then 1 else -1)
          <$> seqZ 0 n).
Proof.
  intros Hn Hrows. unfold np.minus_ones. rewrite decide_False by lia.
  split; [reflexivity|].
  destruct (setitem_fancy_in_range 1 (sp.indices (sp.getcol m j))
              (replicate (Z.to_nat n) (-1))) as (v & Hv & Hlen & Hlook).
  { intros i Hi. apply elem_of_getcol_indices in Hi as [Hi _].
    unfold py.len. rewrite length_replicate. lia. }
  rewrite Hv. f_equal. rewrite length_replicate in Hlen, Hlook.
  apply list_eq. intros k. rewrite list_lookup_fmap.
  destruct (decide (k < Z.to_nat n)%nat) as [Hk|Hk].
  - rewrite Hlook by exact Hk.
    rewrite (lookup_seqZ_lt 0 n k) by lia.
    rewrite lookup_replicate_2 by exact Hk.
    replace (0 + Z.of_nat k) with (Z.of_nat k) by lia.
    destruct (decide (Z.of_nat k ∈ sp.indices (sp.getcol m j))) as [Hm|Hm];
      rewrite elem_of_getcol_indices in Hm; simpl.
    + rewrite decide_True by (apply Hm). reflexivity.
    + rewrite decide_False; [reflexivity|]. intros Hs. apply Hm. split; [lia | exact Hs].
  - rewrite (lookup_ge_None_2 v) by lia.
    rewrite (lookup_seqZ_ge 0 n k) by lia. reflexivity.
Qed.

Lemma for_each_append {A B : Type} (l : list A) (body : A → list B → M (list B))
    (f : A → B) (self : Loader) :
  (∀ x acc, body x acc self = (Ok (acc ++ [f x]), self)) →
  ∀ acc, for_each l body acc self = (Ok (acc ++ (f <$> l)), self).
Proof.
  intros Hbody. induction l as [|x l IH]; intros acc; simpl.
  - rewrite app_nil_r. reflexivity.
  - unfold mbind, M_bind. rewrite Hbody, IH, <- app_assoc. reflexivity.
Qed.

Lemma length_filter_fmap {A B : Type} (P : B → Prop) `{∀ y, Decision (P y)}
    (Q : A → Prop) `{∀ x, Decision (Q x)} (f : A → B) (l : list A) :
  (∀ x, P (f x) ↔ Q x) →
  length (filter P (f <$> l)) = length (filter Q l).
Proof.
  intros HPQ. induction l as [|x l IH]; [reflexivity|].
  rewrite fmap_cons, !filter_cons.
  destruct (decide (P (f x))) as [HP|HP], (decide (Q x)) as [HQ|HQ];
    simpl; rewrite ?IH; try reflexivity; exfalso.
  - apply HQ, HPQ, HP.
  - apply HP, HPQ, HQ.
Qed.

(** C2. In label-major one-vs-all order, with a ground-truth label matrix
    (one row per instance, every stored entry positive), the materialiser
    returns for every label j of the chunk, in order, an item whose dense
    vector has one entry per instance, +1 exactly at the rows where
    column j has a positive entry and -1 at every other row; the number
    of +1 entries is the number of stored entries of column j; and the
    vector of a label depends on that label alone, whatever the other
    labels of the chunk are. *)
Theorem label_batch_targets (self : Loader) (batch_indices : list Z) :
  let Y := LabelsBase.data (labels self) in
  let n := num_instances self in
  0 ≤ n →
  sp.nrows Y = n →
  (∀ i j x, sp.stored Y !! (i, j) = Some x → 0 < x) →
  ∃ batch_data,
    _create_label_batch batch_indices self = (Ok batch_data, self)
    ∧ py.len batch_data = py.len batch_indices
    ∧ ∀ (k : nat) (j : Z), batch_indices !! k = Some j →
        ∃ v,
          batch_data !! k =
            Some {| item_data := FeaturesBase.data (features self);
                    item_ind := None;
                    item_Y := Dense v |}
          ∧ _create_label_batch [j] self =
              (Ok [{| item_data := FeaturesBase.data (features self);
                      item_ind := None;
                      item_Y := Dense v |}], self)
          ∧ py.len v = n
          ∧ (∀ i, 0 ≤ i < n →
               v !! Z.to_nat i =
                 Some (match sp.stored Y !! (i, j) with
                       | Some x => if decide (0 < x) then 1 else -1
                       | None => -1
                       end))
          ∧ py.len (filter (λ y, y = 1) v)
            = py.len (sp.indices (sp.getcol Y j)).
Proof.
  intros Y n Hn Hrows Hpos.
  set (vec := λ j : Z,
         (λ i, if decide (is_Some (sp.stored Y !! (i, j))) then 1 else -1)
           <$> seqZ 0 n).
  set (item := λ j : Z,
         {| item_data := FeaturesBase.data (features self);
            item_ind := None; item_Y := Dense (vec j) |}).
  assert (∀ l, _create_label_batch l self = (Ok (item <$> l), self)) as Hrun.
  { intros l. unfold _create_label_batch.
    rewrite (for_each_append l _ item); [reflexivity|].
    intros j acc. unfold mbind, M_bind, gets, lift. cbv beta iota.
    destruct (dense_target_of_column Y j n Hn Hrows) as [Hones Hset].
    fold n. rewrite Hones. unfold LabelsBase.index_select. fold Y.
    rewrite Hset. reflexivity. }
  exists (item <$> batch_indices). split; [apply Hrun|]. split.
  { unfold py.len. rewrite length_fmap. reflexivity. }
  intros k j Hk. exists (vec j).
  split; [rewrite list_lookup_fmap, Hk; reflexivity|].
  split; [apply (Hrun [j])|].
  split; [unfold vec, py.len; rewrite length_fmap, length_seqZ; lia|].
  split.
  - intros i Hi. unfold vec. rewrite list_lookup_fmap.
    rewrite (lookup_seqZ_lt 0 n) by lia. simpl.
    replace (0 + Z.of_nat (Z.to_nat i)) with i by lia.
    destruct (sp.stored Y !! (i, j)) as [x|] eqn:Hx.
    + rewrite decide_True by eauto. rewrite decide_True by (eapply Hpos; eauto).
      reflexivity.
    + rewrite decide_False by (intros [? ?]; discriminate). reflexivity.
  - unfold py.len, vec. f_equal. unfold sp.getcol. simpl. rewrite Hrows.
    apply length_filter_fmap. intros i. case_decide; [tauto|].
    split; [lia | tauto].
Qed.

(** ** Methods that only read [self] *)

Lemma read_only_ret {A : Type} (a : A) : read_only (mret a : M A).
Proof. intros self. reflexivity. Qed.

Lemma read_only_gets {A : Type} (f : Loader → A) : read_only (gets f).
Proof. intros self. reflexivity. Qed.

Lemma read_only_lift {A : Type} (r : result A) : read_only (lift r : M A).
Proof. intros self. reflexivity. Qed.

Lemma read_only_raise {A : Type} (e : exn) : read_only (raise e : M A).
Proof. intros self. reflexivity. Qed.

Lemma read_only_bind {A B : Type} (m : M A) (k : A → M B) :
  read_only m → (∀ a, read_only (k a)) → read_only (m ≫= k).
Proof.
  intros Hm Hk self. unfold mbind, M_bind.
  specialize (Hm self). destruct (m self) as [[a|e] self']; simpl in Hm; subst self'.
  - apply Hk.
  - reflexivity.
Qed.

Lemma read_only_for_each {A S : Type} (l : list A) (body : A → S → M S) :
  (∀ x acc, read_only (body x acc)) → ∀ acc, read_only (for_each l body acc).
Proof.
  intros Hbody. induction l as [|x l IH]; intros acc; simpl.
  - apply read_only_ret.
  - apply read_only_bind; [apply Hbody | exact IH].
Qed.

Create HintDb read_only.
#[local] Hint Resolve read_only_ret read_only_gets read_only_lift read_only_raise
  : read_only.

Ltac read_only_steps :=
  repeat first
    [ apply read_only_bind; [|intros ?]
    | apply read_only_for_each; intros ? ?
    | solve [auto with read_only] ].

Lemma create_instance_batch_read_only (batch_indices : list Z) :
  read_only (_create_instance_batch batch_indices : M Item).
Proof. unfold _create_instance_batch. read_only_steps. Qed.

Lemma create_label_batch_read_only (batch_indices : list Z) :
  read_only (_create_label_batch batch_indices : M (list Item)).
Proof. unfold _create_label_batch. read_only_steps. Qed.

Lemma create_batch_read_only (batch_indices : list Z) :
  read_only (_create_batch batch_indices : M Batch).
Proof.
  unfold _create_batch. apply read_only_bind; [auto with read_only|].
  intros order. destruct (String.eqb order "labels").
  - apply read_only_bind; [apply create_label_batch_read_only|].
    intros ?. apply read_only_ret.
  - apply read_only_bind; [apply create_instance_batch_read_only|].
    intros ?. apply read_only_ret.
Qed.

(** C8. Materialising a chunk leaves the loader, and so its feature set
    and its label matrix, exactly as they were, whether the call returns
    or raises; hence a second call on the same chunk produces the same
    outcome as the first. This holds for the dispatcher [_create_batch]
    and for each of the two materialisers. *)
Theorem materializer_side_effect_free (batch_indices : list Z) (self : Loader) :
  let first := _create_batch batch_indices self in
  let second := _create_batch batch_indices first.2 in
  first.2 = self
  ∧ features first.2 = features self
  ∧ labels first.2 = labels self
  ∧ second = first
  ∧ (_create_instance_batch batch_indices self).2 = self
  ∧ (_create_label_batch batch_indices self).2 = self
  ∧ _create_instance_batch batch_indices
      (_create_instance_batch batch_indices self).2
    = _create_instance_batch batch_indices self
  ∧ _create_label_batch batch_indices
      (_create_label_batch batch_indices self).2
    = _create_label_batch batch_indices self.
Proof.
  intros first second.
  pose proof (create_batch_read_only batch_indices self) as H1.
  pose proof (create_instance_batch_read_only batch_indices self) as H2.
  pose proof (create_label_batch_read_only batch_indices self) as H3.
  fold first in H1. unfold second. rewrite H1, H2, H3. tauto.
Qed.

(** ** The shortlist update: the triples *)

Lemma getitem_lookup {A : Type} (l : list A) (i : Z) (x : A) :
  0 ≤ i → l !! Z.to_nat i = Some x → py.getitem l i = Ok x.
Proof.
  intros Hi Hx. unfold py.getitem. cbv zeta.
  apply lookup_lt_Some in Hx as Hlt.
  rewrite (decide_False (P := i < 0)) by lia. rewrite decide_True by lia.
  rewrite Hx. reflexivity.
Qed.

Lemma getitem_out_of_range {A : Type} (l : list A) (i : Z) :
  py.len l ≤ i → ∃ msg, py.getitem l i = Raise (IndexError msg).
Proof.
  intros Hi. unfold py.getitem, py.len in *. cbv zeta.
  rewrite (decide_False (P := i < 0)) by lia. rewrite decide_False by lia. eauto.
Qed.

Lemma lookup_lil_rows (m : sp.spmatrix) (i : Z) :
  0 ≤ i < sp.nrows m → sp.lil_rows m !! Z.to_nat i = Some (sp.lil_row m i).
Proof.
  intros Hi. unfold sp.lil_rows. rewrite list_lookup_fmap.
  rewrite (lookup_seqZ_lt 0) by lia. simpl. f_equal. f_equal. lia.
Qed.

Lemma zip3_app (r1 r2 c1 c2 d1 d2 : list Z) :
  length r1 = length c1 → length c1 = length d1 →
  zip3 (r1 ++ r2) (c1 ++ c2) (d1 ++ d2) = zip3 r1 c1 d1 ++ zip3 r2 c2 d2.
Proof.
  intros Hrc Hcd. unfold zip3.
  rewrite (zip_with_app pair r1 r2 c1 c2) by exact Hrc.
  rewrite zip_with_app; [reflexivity|].
  rewrite length_zip_with. lia.
Qed.

Lemma zip3_replicate (i v : Z) (P : list Z) :
  zip3 (replicate (length P) i) P (replicate (length P) v)
  = (λ p, (i, p, v)) <$> P.
Proof.
  unfold zip3. induction P as [|p P IH]; [reflexivity|].
  simpl. f_equal. exact IH.
Qed.

Lemma zip3_row_block (i : Z) (P N : list Z) :
  zip3 (py.repeat_list i (py.len P + py.len N)) (P ++ N)
       (py.repeat_list 1 (py.len P) ++ py.repeat_list (-1) (py.len N))
  = row_block i P N.
Proof.
  unfold py.repeat_list, py.len, row_block.
  rewrite <- Nat2Z.inj_add, !Nat2Z.id, replicate_add.
  rewrite zip3_app by (rewrite !length_replicate; reflexivity).
  rewrite !zip3_replicate. reflexivity.
Qed.

(** The sentinel set built by lines 287 and 288 filters the candidates
    as the difference of the spec does. *)
Lemma neg_filter (P C : list Z) (sentinel : Z) :
  filter (λ x, x ∉ (list_to_set P ∪ list_to_set [sentinel] : gset Z)) C
  = filter (λ x, (x ∉ P) ∧ x ≠ sentinel) C.
Proof.
  apply list_filter_iff. intros x.
  rewrite elem_of_union, !elem_of_list_to_set, list_elem_of_singleton. tauto.
Qed.

(** One turn of the loop, for an instance that has a row in the label
    matrix and a candidate list. *)
Lemma shortlist_row_run (self : Loader) (shortlist_ind : list (list Z))
    (idx : Z) (rows cols data : list Z) :
  0 ≤ idx < sp.nrows (LabelsBase.data (labels self)) →
  idx < py.len shortlist_ind →
  let P := positives self idx in
  let N := negatives self shortlist_ind idx in
  shortlist_row shortlist_ind (sp.lil_rows (LabelsBase.data (labels self)))
                idx (rows, cols, data) self
  = (Ok (rows ++ py.repeat_list idx (py.len P + py.len N),
         cols ++ (P ++ N),
         data ++ (py.repeat_list 1 (py.len P) ++ py.repeat_list (-1) (py.len N))),
     self).
Proof.
  intros Hidx Hlen P N. unfold shortlist_row.
  destruct (lookup_lt_is_Some_2 shortlist_ind (Z.to_nat idx)) as [C HC].
  { unfold py.len in Hlen. lia. }
  unfold mbind, M_bind, lift, gets. cbv beta iota.
  rewrite (getitem_lookup _ _ _ (proj1 Hidx) HC).
  rewrite (getitem_lookup _ _ _ (proj1 Hidx) (lookup_lil_rows _ _ Hidx)).
  rewrite neg_filter.
  unfold N, P, negatives, positives, candidates. rewrite HC. reflexivity.
Qed.

Lemma shortlist_loop_run (self : Loader) (shortlist_ind : list (list Z))
    (idxs : list Z) :
  (∀ idx, idx ∈ idxs →
     0 ≤ idx < sp.nrows (LabelsBase.data (labels self))
     ∧ idx < py.len shortlist_ind) →
  ∀ rows cols data,
  for_each idxs
    (shortlist_row shortlist_ind (sp.lil_rows (LabelsBase.data (labels self))))
    (rows, cols, data) self
  = (Ok (rows ++ concat ((λ i, py.repeat_list i
                                 (py.len (positives self i)
                                  + py.len (negatives self shortlist_ind i)))
                           <$> idxs),
         cols ++ concat ((λ i, positives self i ++ negatives self shortlist_ind i)
                           <$> idxs),
         data ++ concat ((λ i, py.repeat_list 1 (py.len (positives self i))
                               ++ py.repeat_list (-1)
                                    (py.len (negatives self shortlist_ind i)))
                           <$> idxs)),
     self).
Proof.
  induction idxs as [|idx idxs IH]; intros Hin rows cols data.
  - simpl. rewrite !app_nil_r. reflexivity.
  - destruct (Hin idx ltac:(left)) as [Hrow Hlen].
    cbn [for_each]. unfold mbind at 1, M_bind at 1.
    rewrite shortlist_row_run by done.
    rewrite IH by (intros ? ?; apply Hin; by right).
    rewrite !fmap_cons. cbn [concat]. rewrite <- !app_assoc. reflexivity.
Qed.

Lemma zip3_emitted (self : Loader) (shortlist_ind : list (list Z))
    (idxs : list Z) :
  zip3
    (concat ((λ i, py.repeat_list i
                     (py.len (positives self i)
                      + py.len (negatives self shortlist_ind i))) <$> idxs))
    (concat ((λ i, positives self i ++ negatives self shortlist_ind i) <$> idxs))
    (concat ((λ i, py.repeat_list 1 (py.len (positives self i))
                   ++ py.repeat_list (-1)
                        (py.len (negatives self shortlist_ind i))) <$> idxs))
  = concat (emitted self shortlist_ind <$> idxs).
Proof.
  induction idxs as [|idx idxs IH]; [reflexivity|].
  rewrite !fmap_cons. cbn [concat]. rewrite zip3_app.
  - rewrite IH, zip3_row_block. reflexivity.
  - unfold py.repeat_list, py.len.
    rewrite length_replicate, length_app. lia.
  - unfold py.repeat_list, py.len.
    rewrite !length_app, !length_replicate. lia.
Qed.

(** The triples of the whole update, when every instance has a row in
    the label matrix and a candidate list. *)
Lemma shortlist_triples_run (self : Loader) (shortlist_ind : list (list Z)) :
  consistent self →
  num_instances self ≤ py.len shortlist_ind →
  ∃ rows cols data,
    shortlist_triples shortlist_ind self = (Ok (rows, cols, data), self)
    ∧ zip3 rows cols data
      = concat (emitted self shortlist_ind <$> seqZ 0 (num_instances self))
    ∧ rows = concat ((λ i, py.repeat_list i
                             (py.len (positives self i)
                              + py.len (negatives self shortlist_ind i)))
                       <$> seqZ 0 (num_instances self))
    ∧ cols = concat ((λ i, positives self i ++ negatives self shortlist_ind i)
                       <$> seqZ 0 (num_instances self))
    ∧ length rows = length data ∧ length cols = length data.
Proof.
  intros (Hrows & Hn & HL) Hlen.
  eexists _, _, _. split; [|split; [apply zip3_emitted|split; [reflexivity|split; [reflexivity|]]]].
  - unfold shortlist_triples, mbind, M_bind, gets, py.range. cbv beta iota.
    rewrite shortlist_loop_run; [reflexivity|].
    intros idx Hidx%elem_of_seqZ. lia.
  - induction (seqZ 0 (num_instances self)) as [|idx idxs [IH1 IH2]]; [done|].
    rewrite !fmap_cons. cbn [concat]. rewrite !length_app, IH1, IH2.
    unfold py.repeat_list, py.len. rewrite ?length_app, !length_replicate. lia.
Qed.

Lemma filter_all {A : Type} (P : A → Prop) `{∀ x, Decision (P x)} (l : list A) :
  Forall P l → filter P l = l.
Proof.
  induction 1 as [|x l Hx _ IH]; [reflexivity|].
  rewrite filter_cons_True by exact Hx. f_equal. exact IH.
Qed.

Lemma filter_none {A : Type} (P : A → Prop) `{∀ x, Decision (P x)} (l : list A) :
  Forall (λ x, ¬ P x) l → filter P l = [].
Proof.
  induction 1 as [|x l Hx _ IH]; [reflexivity|].
  rewrite filter_cons_False by exact Hx. exact IH.
Qed.

Lemma elem_of_row_block (i : Z) (P N : list Z) (t : Z * Z * Z) :
  t ∈ row_block i P N
  ↔ t.1.1 = i ∧ ((t.2 = 1 ∧ t.1.2 ∈ P) ∨ (t.2 = -1 ∧ t.1.2 ∈ N)).
Proof.
  unfold row_block. rewrite elem_of_app, !list_elem_of_fmap. split.
  - intros [(p & -> & Hp)|(x & -> & Hx)]; simpl; tauto.
  - destruct t as [[r c] v]. simpl.
    intros [-> [[-> Hc]|[-> Hc]]]; [left | right]; eauto.
Qed.

Lemma elem_of_positives (self : Loader) (i p : Z) :
  p ∈ positives self i
  ↔ 0 ≤ p < num_labels self
    ∧ is_Some (sp.stored (LabelsBase.data (labels self)) !! (i, p)).
Proof.
  unfold positives, sp.lil_row, num_labels, LabelsBase.num_labels.
  rewrite list_elem_of_filter, elem_of_seqZ. intuition lia.
Qed.

Lemma NoDup_positives (self : Loader) (i : Z) : NoDup (positives self i).
Proof. apply NoDup_filter, NoDup_seqZ. Qed.

Lemma elem_of_negatives (self : Loader) (shortlist_ind : list (list Z)) (i x : Z) :
  x ∈ negatives self shortlist_ind i
  ↔ x ∈ candidates shortlist_ind i
    ∧ (x ∉ positives self i)
    ∧ x ≠ num_labels self.
Proof. unfold negatives. rewrite list_elem_of_filter. tauto. Qed.

Lemma filter_row_emitted (self : Loader) (shortlist_ind : list (list Z))
    (idxs : list Z) (i : Z) :
  NoDup idxs →
  filter (λ t, t.1.1 = i) (concat (emitted self shortlist_ind <$> idxs))
  = if decide (i ∈ idxs) then emitted self shortlist_ind i else [].
Proof.
  induction 1 as [|a idxs Ha Hnd IH].
  - rewrite decide_False by apply not_elem_of_nil. reflexivity.
  - rewrite fmap_cons. cbn [concat]. rewrite filter_app, IH.
    destruct (decide (a = i)) as [->|Hne].
    + rewrite (decide_True (P := i ∈ i :: idxs)) by left.
      rewrite (decide_False (P := i ∈ idxs)) by exact Ha.
      rewrite app_nil_r. apply filter_all.
      apply Forall_forall. intros t Ht. apply elem_of_row_block in Ht. tauto.
    + rewrite filter_none.
      * simpl. destruct (decide (i ∈ idxs)) as [Hi|Hi].
        -- rewrite (decide_True (P := i ∈ a :: idxs)) by (by right). reflexivity.
        -- rewrite (decide_False (P := i ∈ a :: idxs)); [reflexivity|].
           intros [?|?]%elem_of_cons; [congruence | done].
      * apply Forall_forall. intros t Ht. apply elem_of_row_block in Ht.
        intros Heq. apply Hne. destruct Ht as [Ht _]. congruence.
Qed.

Lemma elem_of_concat {A : Type} (x : A) (ls : list (list A)) :
  x ∈ concat ls ↔ ∃ l, x ∈ l ∧ l ∈ ls.
Proof.
  induction ls as [|l ls IH]; simpl.
  - split; [intros []%elem_of_nil | intros (? & _ & []%elem_of_nil)].
  - rewrite elem_of_app, IH. split.
    + intros [Hx|(l' & Hx & Hl')]; [exists l | exists l'];
        (split; [done|]); [left | by right].
    + intros (l' & Hx & [->|Hl']%elem_of_cons); [by left | right; eauto].
Qed.

Lemma elem_of_emitted_all (self : Loader) (shortlist_ind : list (list Z))
    (idxs : list Z) (t : Z * Z * Z) :
  t ∈ concat (emitted self shortlist_ind <$> idxs)
  ↔ t.1.1 ∈ idxs ∧ t ∈ emitted self shortlist_ind t.1.1.
Proof.
  rewrite elem_of_concat. split.
  - intros (blk & Ht & (i & -> & Hi)%list_elem_of_fmap).
    assert (t.1.1 = i) as Hrow by (apply elem_of_row_block in Ht; tauto).
    subst i. tauto.
  - intros [Hi Ht]. eexists. split; [exact Ht|].
    apply list_elem_of_fmap. eauto.
Qed.

(** What [update_data_shortlist] does once the triples are assembled. *)
Lemma update_after_triples (self : Loader) (shortlist_ind : list (list Z))
    (shortlist_sim : list (list Sim)) (rows cols data : list Z) :
  shortlist_triples shortlist_ind self = (Ok (rows, cols, data), self) →
  update_data_shortlist shortlist_ind shortlist_sim self
  = match sp.csc_matrix data rows cols (num_instances self, num_labels self) with
    | Ok m => (Ok tt, set_labels (LabelsBase.set_data m (labels self)) self)
    | Raise e => (Raise e, self)
    end.
Proof.
  intros Htr. unfold update_data_shortlist, mbind, M_bind. rewrite Htr.
  unfold gets, lift, modify. cbv beta iota. simpl fst. simpl snd.
  destruct (sp.csc_matrix _ _ _ _); reflexivity.
Qed.

(** What the loop of the update emits, in terms of the lists it
    computes. For row i these are +1 at each column of [pos_labels[i]],
    the columns stored in the row, followed by -1 at each candidate that
    is neither among them nor the sentinel, the label count. No emitted
    triple has the sentinel as its column, and these triples are what the
    update hands to the matrix constructor. *)
Lemma shortlist_triples_by_row (self : Loader)
    (shortlist_ind : list (list Z)) (shortlist_sim : list (list Sim)) :
  consistent self →
  num_instances self ≤ py.len shortlist_ind →
  ∃ rows cols data,
    shortlist_triples shortlist_ind self = (Ok (rows, cols, data), self)
    ∧ update_data_shortlist shortlist_ind shortlist_sim self
      = match sp.csc_matrix data rows cols
                (num_instances self, num_labels self) with
        | Ok m => (Ok tt, set_labels (LabelsBase.set_data m (labels self)) self)
        | Raise e => (Raise e, self)
        end
    ∧ (∀ i, 0 ≤ i < num_instances self →
         let P := positives self i in
         let C := candidates shortlist_ind i in
         let N := filter (λ x, (x ∉ P) ∧ x ≠ num_labels self) C in
         filter (λ t, t.1.1 = i) (zip3 rows cols data)
         = ((λ p, (i, p, 1)) <$> P) ++ ((λ x, (i, x, -1)) <$> N)
         ∧ py.len (filter (λ t, t.1.1 = i) (zip3 rows cols data))
           = py.len P + py.len N
         ∧ ∀ x, x ∈ N ↔ x ∈ C ∧ (x ∉ P) ∧ x ≠ num_labels self)
    ∧ (∀ t, t ∈ zip3 rows cols data →
         0 ≤ t.1.1 < num_instances self ∧ t.1.2 ≠ num_labels self).
Proof.
  intros Hcons Hlen.
  destruct (shortlist_triples_run self shortlist_ind Hcons Hlen)
    as (rows & cols & data & Hrun & Hzip & _).
  exists rows, cols, data. split; [exact Hrun|].
  split; [by apply update_after_triples|]. rewrite Hzip. split.
  - intros i Hi P C N.
    rewrite filter_row_emitted by apply NoDup_seqZ.
    rewrite decide_True by (apply elem_of_seqZ; lia).
    split; [reflexivity|]. split.
    + unfold emitted, row_block, py.len.
      rewrite length_app, !length_fmap. fold P. unfold negatives. fold P C N. lia.
    + intros x. apply (elem_of_negatives self shortlist_ind i x).
  - intros t [Hrow Ht]%elem_of_emitted_all.
    apply elem_of_seqZ in Hrow. split; [lia|].
    apply elem_of_row_block in Ht as [_ [[_ Hc]|[_ Hc]]].
    + apply elem_of_positives in Hc. lia.
    + apply elem_of_negatives in Hc. tauto.
Qed.

(** ** The shortlist update: the matrix constructor *)

Lemma foldl_max_spec (xs : list Z) :
  ∀ x, x ≤ foldl Z.max x xs
       ∧ (∀ y, y ∈ xs → y ≤ foldl Z.max x xs)
       ∧ (∀ b, x < b → (∀ y, y ∈ xs → y < b) → foldl Z.max x xs < b).
Proof.
  induction xs as [|a xs IH]; intros x; simpl.
  - split; [lia|]. split; [intros y []%elem_of_nil | intros; lia].
  - destruct (IH (Z.max x a)) as (H1 & H2 & H3).
    split; [lia|]. split.
    + intros y [->|Hy]%elem_of_cons; [lia | by apply H2].
    + intros b Hx Hall. apply H3.
      * pose proof (Hall a ltac:(left)). lia.
      * intros y Hy. apply Hall. by right.
Qed.

Lemma foldl_min_spec (xs : list Z) :
  ∀ x, foldl Z.min x xs ≤ x
       ∧ (∀ y, y ∈ xs → foldl Z.min x xs ≤ y)
       ∧ (∀ b, b ≤ x → (∀ y, y ∈ xs → b ≤ y) → b ≤ foldl Z.min x xs).
Proof.
  induction xs as [|a xs IH]; intros x; simpl.
  - split; [lia|]. split; [intros y []%elem_of_nil | intros; lia].
  - destruct (IH (Z.min x a)) as (H1 & H2 & H3).
    split; [lia|]. split.
    + intros y [->|Hy]%elem_of_cons; [lia | by apply H2].
    + intros b Hx Hall. apply H3.
      * pose proof (Hall a ltac:(left)). lia.
      * intros y Hy. apply Hall. by right.
Qed.

Lemma array_max_ge (a : list Z) (x : Z) : x ∈ a → x ≤ sp.array_max a.
Proof.
  destruct a as [|y ys]; [intros []%elem_of_nil|].
  destruct (foldl_max_spec ys y) as (H1 & H2 & _).
  intros [->|Hx]%elem_of_cons; [exact H1 | by apply H2].
Qed.

Lemma array_max_lt (a : list Z) (b : Z) :
  a ≠ [] → (∀ x, x ∈ a → x < b) → sp.array_max a < b.
Proof.
  destruct a as [|y ys]; [done|]. intros _ Hall.
  destruct (foldl_max_spec ys y) as (_ & _ & H3).
  apply H3; [apply Hall; left | intros; apply Hall; by right].
Qed.

Lemma array_min_le (a : list Z) (x : Z) : x ∈ a → sp.array_min a ≤ x.
Proof.
  destruct a as [|y ys]; [intros []%elem_of_nil|].
  destruct (foldl_min_spec ys y) as (H1 & H2 & _).
  intros [->|Hx]%elem_of_cons; [exact H1 | by apply H2].
Qed.

Lemma array_min_ge (a : list Z) (b : Z) :
  a ≠ [] → (∀ x, x ∈ a → b ≤ x) → b ≤ sp.array_min a.
Proof.
  destruct a as [|y ys]; [done|]. intros _ Hall.
  destruct (foldl_min_spec ys y) as (_ & _ & H3).
  apply H3; [apply Hall; left | intros; apply Hall; by right].
Qed.

(** The constructor accepts triples whose indices are inside the
    shape. *)
Lemma csc_matrix_in_range (data rows cols : list Z) (n l : Z) :
  0 ≤ n → 0 ≤ l →
  length rows = length data → length cols = length data →
  (∀ r, r ∈ rows → 0 ≤ r < n) →
  (∀ c, c ∈ cols → 0 ≤ c < l) →
  sp.csc_matrix data rows cols (n, l)
  = Ok (sp.SpMatrix (n, l) (foldl sp.add_entry ∅ (zip3 rows cols data))).
Proof.
  intros Hn Hl Hr Hc Hrows Hcols. unfold sp.csc_matrix. simpl.
  rewrite decide_False by lia.
  assert (sp.coo_check (n, l) data rows cols = Ok tt) as ->; [|reflexivity].
  unfold sp.coo_check, py.len. simpl.
  case_decide as Hnnz; [|reflexivity].
  assert (rows ≠ []) by (intros ->; simpl in *; lia).
  assert (cols ≠ []) by (intros ->; simpl in *; lia).
  rewrite decide_False
    by (pose proof (array_max_lt rows n ltac:(done) ltac:(intros; by apply Hrows)); lia).
  rewrite decide_False
    by (pose proof (array_max_lt cols l ltac:(done) ltac:(intros; by apply Hcols)); lia).
  rewrite decide_False
    by (pose proof (array_min_ge rows 0 ltac:(done) ltac:(intros; by apply Hrows)); lia).
  rewrite decide_False
    by (pose proof (array_min_ge cols 0 ltac:(done) ltac:(intros; by apply Hcols)); lia).
  reflexivity.
Qed.

(** The constructor rejects triples with a column outside the shape,
    when the rows are inside it. *)
Lemma csc_matrix_bad_column (data rows cols : list Z) (n l c : Z) :
  0 ≤ n → 0 ≤ l →
  length rows = length data → length cols = length data →
  (∀ r, r ∈ rows → 0 ≤ r < n) →
  c ∈ cols → ¬ (0 ≤ c < l) →
  ∃ msg, sp.csc_matrix data rows cols (n, l) = Raise (ValueError msg).
Proof.
  intros Hn Hl Hr Hc Hrows Hin Hbad. unfold sp.csc_matrix. simpl.
  rewrite decide_False by lia.
  unfold sp.coo_check, py.len. simpl.
  assert (cols ≠ []) as Hne by (intros ->; by apply elem_of_nil in Hin).
  assert (rows ≠ []) by (intros ->; destruct cols; simpl in *; [done | lia]).
  rewrite decide_True by (destruct data, cols; simpl in *; try done; lia).
  rewrite decide_False
    by (pose proof (array_max_lt rows n ltac:(done) ltac:(intros; by apply Hrows)); lia).
  case_decide; [eauto|].
  rewrite decide_False
    by (pose proof (array_min_ge rows 0 ltac:(done) ltac:(intros; by apply Hrows)); lia).
  rewrite decide_True; [eauto|].
  pose proof (array_max_ge cols c Hin). pose proof (array_min_le cols c Hin). lia.
Qed.

(** A position of the new matrix holds the sum of the values the
    triples give for it, and nothing when no triple names it. *)
Lemma lookup_foldl_add_entry (ts : list (Z * Z * Z)) (k : Z * Z) :
  ∀ m : gmap (Z * Z) Z,
  foldl sp.add_entry m ts !! k
  = if decide (filter (λ t, t.1 = k) ts = []) then m !! k
    else Some (default 0 (m !! k) + zsum (snd <$> filter (λ t, t.1 = k) ts)).
Proof.
  induction ts as [|t ts IH]; intros m; [reflexivity|].
  cbn [foldl]. rewrite IH. unfold sp.add_entry.
  destruct t as [[r c] v]. cbn [fst snd].
  destruct (decide ((r, c) = k)) as [<-|Hne].
  - rewrite (filter_cons_True (λ t, t.1 = (r, c))) by reflexivity.
    rewrite lookup_insert_eq. cbn [default].
    rewrite (decide_False (P := _ :: _ = [])) by discriminate.
    case_decide as Hnil.
    + rewrite Hnil. simpl. f_equal. lia.
    + rewrite fmap_cons. simpl. f_equal. lia.
  - rewrite (filter_cons_False (λ t, t.1 = k)) by (simpl; congruence).
    rewrite lookup_insert_ne by exact Hne. reflexivity.
Qed.

(** ** The shortlist update: the new matrix *)

Lemma filter_col_fmap (i v j : Z) (l : list Z) :
  filter (λ t : Z * Z * Z, t.1.2 = j) ((λ p, (i, p, v)) <$> l)
  = (λ p, (i, p, v)) <$> filter (λ p, p = j) l.
Proof.
  induction l as [|p l IH]; [reflexivity|].
  rewrite fmap_cons, !filter_cons. simpl. rewrite IH.
  destruct (decide (p = j)); reflexivity.
Qed.

Lemma filter_eq_NoDup (j : Z) (l : list Z) :
  NoDup l → filter (λ p, p = j) l = if decide (j ∈ l) then [j] else [].
Proof.
  induction 1 as [|p l Hp Hnd IH].
  - rewrite decide_False by apply not_elem_of_nil. reflexivity.
  - rewrite filter_cons, IH. destruct (decide (p = j)) as [->|Hne].
    + rewrite (decide_False (P := j ∈ l)) by exact Hp.
      rewrite decide_True by left. reflexivity.
    + destruct (decide (j ∈ l)) as [Hj|Hj].
      * rewrite decide_True by (by right). reflexivity.
      * rewrite decide_False; [reflexivity|].
        intros [?|?]%elem_of_cons; [congruence | done].
Qed.

Lemma filter_eq_not_elem (j : Z) (l : list Z) :
  j ∉ l → filter (λ p, p = j) l = [].
Proof.
  intros Hj. apply filter_none, Forall_forall. intros p Hp ->. done.
Qed.

(** The triples that name position (i, j), for an instance i. *)
Lemma filter_position_emitted (self : Loader) (shortlist_ind : list (list Z))
    (n i j : Z) :
  0 ≤ i < n →
  filter (λ t : Z * Z * Z, t.1 = (i, j))
         (concat (emitted self shortlist_ind <$> seqZ 0 n))
  = ((λ p, (i, p, 1)) <$> filter (λ p, p = j) (positives self i))
    ++ ((λ x, (i, x, -1)) <$> filter (λ x, x = j) (negatives self shortlist_ind i)).
Proof.
  intros Hi.
  rewrite (list_filter_iff _ (λ t : Z * Z * Z, t.1.2 = j ∧ t.1.1 = i)).
  2:{ intros [[r c] v]. simpl. split; [intros [= -> ->]; done | intros [-> ->]; done]. }
  rewrite <- (list_filter_filter (λ t : Z * Z * Z, t.1.2 = j) (λ t, t.1.1 = i)).
  rewrite filter_row_emitted by apply NoDup_seqZ.
  rewrite decide_True by (apply elem_of_seqZ; lia).
  unfold emitted, row_block. rewrite filter_app, !filter_col_fmap. reflexivity.
Qed.

Lemma lookup_new_matrix (self : Loader) (shortlist_ind : list (list Z))
    (n i j : Z) :
  0 ≤ i < n →
  foldl sp.add_entry ∅ (concat (emitted self shortlist_ind <$> seqZ 0 n)) !! (i, j)
  = if decide (j ∈ positives self i) then Some 1
    else match filter (λ x, x = j) (negatives self shortlist_ind i) with
         | [] => None
         | l => Some (- py.len l)
         end.
Proof.
  intros Hi. rewrite lookup_foldl_add_entry, filter_position_emitted by done.
  rewrite lookup_empty. cbn [default].
  rewrite (filter_eq_NoDup j (positives self i)) by apply NoDup_positives.
  destruct (decide (j ∈ positives self i)) as [Hj|Hj].
  - rewrite (filter_eq_not_elem j (negatives self shortlist_ind i)).
    2:{ intros Hn%elem_of_negatives. tauto. }
    reflexivity.
  - rewrite fmap_nil, app_nil_l.
    set (l := filter (λ x, x = j) (negatives self shortlist_ind i)).
    destruct l as [|x l']; [reflexivity|].
    rewrite decide_False by discriminate. f_equal.
    rewrite Z.add_0_l, <- list_fmap_compose.
    generalize (x :: l'). intros l. unfold py.len.
    induction l as [|y l IHl]; [reflexivity|].
    rewrite fmap_cons. cbn [zsum foldr length]. fold (zsum ((snd ∘ (λ x0, (i, x0, -1))) <$> l)).
    rewrite IHl. simpl. lia.
Qed.

Lemma triples_rows_in_range (self : Loader) (shortlist_ind : list (list Z))
    (n r : Z) :
  r ∈ concat ((λ i, py.repeat_list i
                      (py.len (positives self i)
                       + py.len (negatives self shortlist_ind i)))
                <$> seqZ 0 n) →
  0 ≤ r < n.
Proof.
  intros (l & Hr & (i & -> & Hi)%list_elem_of_fmap)%elem_of_concat.
  apply elem_of_replicate_inv in Hr as ->. apply elem_of_seqZ in Hi. lia.
Qed.

Lemma elem_of_triples_cols (self : Loader) (shortlist_ind : list (list Z))
    (n c : Z) :
  c ∈ concat ((λ i, positives self i ++ negatives self shortlist_ind i)
                <$> seqZ 0 n)
  ↔ ∃ i, 0 ≤ i < n
         ∧ (c ∈ positives self i ∨ c ∈ negatives self shortlist_ind i).
Proof.
  rewrite elem_of_concat. split.
  - intros (l & Hc & (i & -> & Hi)%list_elem_of_fmap).
    apply elem_of_seqZ in Hi. apply elem_of_app in Hc. exists i. split; [lia | done].
  - intros (i & Hi & Hc). eexists. split; [apply elem_of_app; exact Hc|].
    apply list_elem_of_fmap. exists i. split; [done|]. apply elem_of_seqZ. lia.
Qed.

(** The matrix the update stores, in terms of the lists it computes.
    When every candidate is a label index or the sentinel, the update
    succeeds and stores a matrix of the same shape, instance count by
    label count; every column stored in row i before the update holds +1
    in row i of the new matrix; and when the candidates of instance i are
    distinct, the new row has as many entries as there were stored columns
    and emitted negatives, the ones at the negatives holding -1. *)
Lemma shortlist_update_by_row (self : Loader)
    (shortlist_ind : list (list Z)) (shortlist_sim : list (list Sim)) :
  consistent self →
  num_instances self ≤ py.len shortlist_ind →
  (∀ i c, 0 ≤ i < num_instances self → c ∈ candidates shortlist_ind i →
          0 ≤ c ≤ num_labels self) →
  ∃ m,
    update_data_shortlist shortlist_ind shortlist_sim self
    = (Ok tt, set_labels (LabelsBase.set_data m (labels self)) self)
    ∧ sp.shape m = (num_instances self, num_labels self)
    ∧ sp.shape m = sp.shape (LabelsBase.data (labels self))
    ∧ (∀ i p, 0 ≤ i < num_instances self → p ∈ positives self i →
         sp.stored m !! (i, p) = Some 1)
    ∧ (∀ i, 0 ≤ i < num_instances self → NoDup (candidates shortlist_ind i) →
         py.len (sp.lil_row m i)
         = py.len (positives self i) + py.len (negatives self shortlist_ind i)
         ∧ ∀ x, x ∈ negatives self shortlist_ind i →
                sp.stored m !! (i, x) = Some (-1)).
Proof.
  intros Hcons Hlen Hcand.
  destruct (shortlist_triples_run self shortlist_ind Hcons Hlen)
    as (rows & cols & data & Hrun & Hzip & Hrows & Hcols & Hlr & Hlc).
  destruct Hcons as (Hshape & Hn & HL).
  assert (∀ i x, 0 ≤ i < num_instances self →
                 x ∈ negatives self shortlist_ind i → 0 ≤ x < num_labels self)
    as Hneg.
  { intros i x Hi Hx. apply elem_of_negatives in Hx as (Hc & _ & Hne).
    specialize (Hcand i x Hi Hc). lia. }
  rewrite (update_after_triples _ _ _ _ _ _ Hrun).
  rewrite csc_matrix_in_range; try done.
  2:{ intros r Hr. subst rows. by apply triples_rows_in_range in Hr. }
  2:{ intros c Hc. subst cols. apply elem_of_triples_cols in Hc as (i & Hi & [Hc|Hc]).
      - apply elem_of_positives in Hc. tauto.
      - by apply (Hneg i). }
  rewrite Hzip. eexists. split; [reflexivity|]. cbn [sp.shape sp.stored].
  split; [reflexivity|]. split.
  { unfold num_labels, LabelsBase.num_labels, sp.nrows, sp.ncols in *.
    destruct (sp.shape (LabelsBase.data (labels self))) as [a b].
    simpl in *. congruence. }
  split.
  - intros i p Hi Hp. rewrite lookup_new_matrix by done.
    rewrite decide_True by done. reflexivity.
  - intros i Hi Hnd.
    assert (NoDup (negatives self shortlist_ind i)) as HndN
      by (by apply NoDup_filter).
    assert (∀ j, sp.stored
                   (sp.SpMatrix (num_instances self, num_labels self)
                      (foldl sp.add_entry ∅
                         (concat (emitted self shortlist_ind
                                    <$> seqZ 0 (num_instances self))))) !! (i, j)
                 = if decide (j ∈ positives self i) then Some 1
                   else if decide (j ∈ negatives self shortlist_ind i)
                        then Some (-1) else None) as Hlook.
    { intros j. cbn [sp.stored]. rewrite lookup_new_matrix by done.
      rewrite (filter_eq_NoDup j _ HndN).
      repeat case_decide; reflexivity. }
    split.
    + unfold py.len. rewrite <- Nat2Z.inj_add, <- length_app. f_equal.
      apply Permutation_length, NoDup_Permutation.
      * apply NoDup_filter, NoDup_seqZ.
      * apply NoDup_app. split; [apply NoDup_positives|]. split; [|done].
        intros x Hx Hx'%elem_of_negatives. tauto.
      * intros j. unfold sp.lil_row. rewrite list_elem_of_filter, Hlook.
        rewrite elem_of_app, elem_of_seqZ. cbn [sp.ncols sp.shape snd].
        split.
        -- intros [Hs _]. repeat case_decide; [tauto | tauto |].
           by destruct Hs.
        -- intros [Hj|Hj].
           ++ rewrite decide_True by done. split; [eauto|].
              apply elem_of_positives in Hj. lia.
           ++ split; [repeat case_decide; eauto; done|].
              specialize (Hneg i j Hi Hj). lia.
    + intros x Hx. rewrite Hlook.
      rewrite decide_False by (apply elem_of_negatives in Hx; tauto).
      rewrite decide_True by done. reflexivity.
Qed.

(** C5, as the code has it. A candidate that is neither a label index
    nor the sentinel is not checked for by the update: it is assembled
    among the columns of the triples, the bounds check of the matrix
    constructor then raises [ValueError], and the loader, label matrix
    included, is left exactly as it was before the call. *)
Theorem shortlist_update_rejects_out_of_range (self : Loader)
    (shortlist_ind : list (list Z)) (shortlist_sim : list (list Sim))
    (i c : Z) :
  consistent self →
  num_instances self ≤ py.len shortlist_ind →
  0 ≤ i < num_instances self →
  c ∈ candidates shortlist_ind i →
  c < 0 ∨ num_labels self < c →
  ∃ rows cols data msg,
    shortlist_triples shortlist_ind self = (Ok (rows, cols, data), self)
    ∧ c ∈ cols
    ∧ sp.csc_matrix data rows cols (num_instances self, num_labels self)
      = Raise (ValueError msg)
    ∧ update_data_shortlist shortlist_ind shortlist_sim self
      = (Raise (ValueError msg), self).
Proof.
  intros Hcons Hlen Hi Hc Hbad.
  destruct (shortlist_triples_run self shortlist_ind Hcons Hlen)
    as (rows & cols & data & Hrun & Hzip & Hrows & Hcols & Hlr & Hlc).
  destruct Hcons as (Hshape & Hn & HL).
  assert (c ∈ cols) as Hin.
  { subst cols. apply elem_of_triples_cols. exists i. split; [done|]. right.
    apply elem_of_negatives. split; [done|]. split; [|lia].
    intros Hp%elem_of_positives. lia. }
  destruct (csc_matrix_bad_column data rows cols
              (num_instances self) (num_labels self) c) as [msg Hmsg]; try done.
  { intros r Hr. subst rows. by apply triples_rows_in_range in Hr. }
  { lia. }
  exists rows, cols, data, msg. split; [done|]. split; [done|]. split; [done|].
  rewrite (update_after_triples _ _ _ _ _ _ Hrun), Hmsg. reflexivity.
Qed.

(** ** Construction *)

Lemma load_data_unknown_feature_type (ft order : string) (norm : option string)
    (files : Files) :
  ft ≠ "sparse" → ft ≠ "dense" →
  load_data ft order norm files
  = Raise (NotImplementedError "Unknown feature type!").
Proof.
  intros H1%String.eqb_neq H2%String.eqb_neq.
  unfold load_data, load_features. rewrite H1, H2. reflexivity.
Qed.

Lemma load_data_known_feature_type (ft order : string) (norm : option string)
    (files : Files) :
  ft = "sparse" ∨ ft = "dense" →
  ∃ features,
    load_data ft order norm files
    = Ok (features, load_labels order (label_file files))
    ∧ FeaturesBase.num_instances features = (feat_file files).1.1
    ∧ FeaturesBase.data features = (feat_file files).2.
Proof.
  intros [-> | ->]; unfold load_data, load_features; simpl;
    destruct norm; eexists; (split; [reflexivity|]); split; reflexivity.
Qed.

Lemma gen_batches_unknown_order (self : Loader) :
  batch_order self ≠ "labels" → batch_order self ≠ "instances" →
  _gen_batches self
  = (Raise (NotImplementedError "Unknown order for batching!"), self).
Proof.
  intros H1%String.eqb_neq H2%String.eqb_neq.
  unfold _gen_batches, mbind, M_bind, gets. cbv beta iota.
  rewrite H1, H2. reflexivity.
Qed.

(** The steps of [construct] that come before [_gen_batches]. They raise
    when the label-range restriction is asked for with an empty range, and
    otherwise go through and leave the configuration alone. *)
Lemma restriction_requested_eqb (md : string) (si ei : Z) :
  restriction_requested md si ei
  ↔ String.eqb md "train" = true ∧ negb (si =? 0) || negb (ei =? -1) = true.
Proof.
  unfold restriction_requested. rewrite String.eqb_eq.
  rewrite orb_true_iff, !negb_true_iff, !Z.eqb_neq. reflexivity.
Qed.

Lemma construct_loaded_empty_range (self : Loader) :
  empty_range_requested (mode self) (start_index self) (end_index self)
    (num_labels self) →
  ∃ self',
    construct_loaded self
    = (Raise (ConfigurationError "end_index <= start_index"), self').
Proof.
  intros [[Hmode Hreq]%restriction_requested_eqb Hle].
  unfold construct_loaded, mbind, M_bind, gets, modify, lift.
  cbn [mode set_num_labels_]. rewrite Hmode.
  cbn [start_index end_index set_num_labels_]. rewrite Hreq.
  cbn [labels set_num_labels_ set_end_index start_index end_index].
  unfold LabelsBase.getitem_cols. rewrite decide_True; [eexists; reflexivity|].
  exact Hle.
Qed.

Lemma construct_loaded_reaches_gen_batches (self : Loader) :
  ¬ empty_range_requested (mode self) (start_index self) (end_index self)
      (num_labels self) →
  ∃ self',
    construct_loaded self = _gen_batches self'
    ∧ num_labels_ self' = sp.ncols (LabelsBase.Y (labels self))
    ∧ features self' = features self
    ∧ LabelsBase._format (labels self') = LabelsBase._format (labels self)
    ∧ feature_type self' = feature_type self
    ∧ batch_size self' = batch_size self
    ∧ batch_order self' = batch_order self
    ∧ mode self' = mode self
    ∧ start_index self' = start_index self.
Proof.
  intros Hne.
  unfold construct_loaded, mbind, M_bind, gets, modify, lift.
  cbn [mode set_num_labels_].
  destruct (String.eqb (mode self) "train") eqn:Hmode.
  - cbn [start_index end_index set_num_labels_].
    destruct (negb (start_index self =? 0) || negb (end_index self =? -1)) eqn:Hreq.
    + cbn [labels set_num_labels_ set_end_index start_index end_index].
      unfold LabelsBase.getitem_cols. rewrite decide_False.
      * eexists; (split; [reflexivity|]); repeat split; reflexivity.
      * intros Hle. apply Hne. split; [|exact Hle].
        apply restriction_requested_eqb. by split.
    + eexists; (split; [reflexivity|]); repeat split; reflexivity.
  - eexists. split; [reflexivity|]. repeat split; reflexivity.
Qed.

(** C6. A feature type other than "sparse" and "dense", or a batch order
    other than "labels" and "instances", makes the constructor fail with a
    configuration error, and no loader is built. The code reports the
    unknown feature type by the [NotImplementedError] "Unknown feature
    type!" of [load_features], and, when the feature type is known, the
    unknown batch order by the [NotImplementedError] "Unknown order for
    batching!" of [_gen_batches]; the latter is reached unless the
    label-range restriction, which comes first, was asked for with an
    empty range and has failed already. *)
Theorem construct_rejects_unknown_configuration (files : Files)
    (batch_size : Z) (feature_type mode batch_order : string)
    (norm : option string) (start_index end_index : Z) :
  (feature_type ≠ "sparse" ∧ feature_type ≠ "dense")
  ∨ (batch_order ≠ "labels" ∧ batch_order ≠ "instances") →
  (∃ e,
     construct files batch_size feature_type mode batch_order norm
               start_index end_index
     = Raise e
     ∧ configuration_error e)
  ∧ (feature_type ≠ "sparse" → feature_type ≠ "dense" →
     construct files batch_size feature_type mode batch_order norm
               start_index end_index
     = Raise (NotImplementedError "Unknown feature type!"))
  ∧ (feature_type = "sparse" ∨ feature_type = "dense" →
     batch_order ≠ "labels" → batch_order ≠ "instances" →
     ∃ msg,
       construct files batch_size feature_type mode batch_order norm
                 start_index end_index
       = Raise (if decide (empty_range_requested mode start_index end_index
                             (sp.ncols (label_file files)))
                then ConfigurationError msg
                else NotImplementedError "Unknown order for batching!")).
Proof.
  intros Hbad.
  assert (feature_type ≠ "sparse" → feature_type ≠ "dense" →
          construct files batch_size feature_type mode batch_order norm
                    start_index end_index
          = Raise (NotImplementedError "Unknown feature type!")) as Hft.
  { intros H1 H2. unfold construct.
    rewrite load_data_unknown_feature_type by done. reflexivity. }
  assert (feature_type = "sparse" ∨ feature_type = "dense" →
          batch_order ≠ "labels" → batch_order ≠ "instances" →
          construct files batch_size feature_type mode batch_order norm
                    start_index end_index
          = Raise (if decide (empty_range_requested mode start_index end_index
                                (sp.ncols (label_file files)))
                   then ConfigurationError "end_index <= start_index"
                   else NotImplementedError "Unknown order for batching!"))
    as Hord.
  { intros Hknown H1 H2. unfold construct.
    destruct (load_data_known_feature_type feature_type batch_order norm files Hknown)
      as (f & -> & _).
    unfold mbind, result_bind, rbind. cbn [fst snd].
    match goal with |- context [construct_loaded ?s] => set (self := s) end.
    destruct (decide (empty_range_requested _ _ _ _)) as [He|He].
    - destruct (construct_loaded_empty_range self He) as [self' ->]. reflexivity.
    - destruct (construct_loaded_reaches_gen_batches self He)
        as (self' & -> & _ & _ & _ & _ & _ & Hs' & _).
      rewrite gen_batches_unknown_order by (rewrite Hs'; done). reflexivity. }
  split; [|split; [assumption|]].
  - destruct (decide (feature_type = "sparse")) as [Hs|Hs];
      [|destruct (decide (feature_type = "dense")) as [Hd|Hd]].
    + destruct Hbad as [[? _]|[? ?]]; [done|]. eexists. split; [apply Hord; auto|].
      case_decide; [right | left]; eexists; reflexivity.
    + destruct Hbad as [[_ ?]|[? ?]]; [done|]. eexists. split; [apply Hord; auto|].
      case_decide; [right | left]; eexists; reflexivity.
    + eexists. split; [apply Hft; done|]. left. eexists. reflexivity.
  - intros Hknown H1 H2. eexists. by apply Hord.
Qed.

Lemma load_data_labels (ft order : string) (norm : option string)
    (files : Files) (fl : FeaturesBase.t FData * LabelsBase.t) :
  load_data ft order norm files = Ok fl →
  fl.2 = load_labels order (label_file files).
Proof.
  unfold load_data. destruct (load_features ft (feat_file files)); simpl;
    [|discriminate].
  intros [= <-]. reflexivity.
Qed.

(** [_gen_batches] for one of the two batch orders: it plans the batches
    of the count of that order and stores the plan, or raises what the
    planning raises. *)
Lemma gen_batches_known_order (self : Loader) :
  batch_order self = "labels" ∨ batch_order self = "instances" →
  _gen_batches self
  = match plan_batches (batch_count self) (batch_size self) with
    | Ok plan => (Ok tt, set_batches (Some plan) self)
    | Raise e => (Raise e, self)
    end.
Proof.
  intros Horder. unfold _gen_batches, batch_count, mbind, M_bind, gets, lift, modify.
  cbv beta iota.
  destruct Horder as [Ho|Ho]; rewrite Ho; simpl;
    destruct (plan_batches _ _); reflexivity.
Qed.

(** C10. The label-range restriction and the removal of invalid labels
    happen in mode "train" only. In any other mode, "predict" included,
    the constructed loader holds the label matrix as loaded, with no
    valid-label list, and [start_index] and [end_index] as given and
    unused. In mode "train" with the defaults [start_index = 0] and
    [end_index = -1] no column is sliced, and the invalid labels are
    removed from the matrix as loaded. In both cases the batches are
    planned over the labels kept (or over the instances). *)
Theorem restriction_and_removal_in_train_only (files : Files)
    (bs : Z) (ft md order : string) (nrm : option string) (si ei : Z) :
  order = "labels" ∨ order = "instances" →
  let loaded := load_labels order (label_file files) in
  (md ≠ "train" →
     construct files bs ft md order nrm si ei
     = (fl ← load_data ft order nrm files;
        plan ← plan_batches
                  (if String.eqb order "labels"
                   then sp.ncols (label_file files)
                   else FeaturesBase.num_instances fl.1)
                  bs;
        mret {| feature_type := ft;
                norm := nrm;
                features := fl.1;
                labels := loaded;
                batch_size := bs;
                start_index := si;
                end_index := ei;
                batch_order := order;
                mode := md;
                valid_labels := None;
                num_valid_labels := None;
                batches := Some plan;
                num_labels_ := sp.ncols (label_file files) |}))
  ∧ (md = "train" → si = 0 → ei = -1 →
     construct files bs ft md order nrm si ei
     = (fl ← load_data ft order nrm files;
        plan ← plan_batches
                  (if String.eqb order "labels"
                   then LabelsBase.num_labels (LabelsBase.remove_invalid loaded).2
                   else FeaturesBase.num_instances fl.1)
                  bs;
        mret {| feature_type := ft;
                norm := nrm;
                features := fl.1;
                labels := (LabelsBase.remove_invalid loaded).2;
                batch_size := bs;
                start_index := 0;
                end_index := -1;
                batch_order := order;
                mode := md;
                valid_labels := Some (LabelsBase.get_valid loaded);
                num_valid_labels := None;
                batches := Some plan;
                num_labels_ := sp.ncols (label_file files) |})).
Proof.
  intros Horder loaded. split.
  - intros Hmode%String.eqb_neq. unfold construct.
    destruct (load_data ft order nrm files) as [[f l]|e] eqn:Hload;
      [|reflexivity].
    apply load_data_labels in Hload. simpl in Hload. subst l. fold loaded.
    unfold construct_loaded, _gen_batches, mbind, M_bind, result_bind, rbind,
      gets, modify, lift, mret, M_ret, result_ret.
    cbn -[plan_batches loaded String.eqb]. rewrite Hmode.
    destruct Horder as [-> | ->];
      cbn -[plan_batches]; destruct (plan_batches _ _); reflexivity.
  - intros -> -> ->. unfold construct.
    destruct (load_data ft order nrm files) as [[f l]|e] eqn:Hload;
      [|reflexivity].
    apply load_data_labels in Hload. simpl in Hload. subst l. fold loaded.
    unfold construct_loaded, _gen_batches, mbind, M_bind, result_bind, rbind,
      gets, modify, lift, mret, M_ret, result_ret.
    destruct Horder as [-> | ->];
      cbn -[plan_batches loaded LabelsBase.remove_invalid LabelsBase.get_valid
            LabelsBase.num_labels];
      destruct (plan_batches _ _); reflexivity.
Qed.

(** ** The label-range restriction *)

Lemma elem_of_select_cols_entries (m : sp.spmatrix) (cols : list Z)
    (i k v : Z) :
  ((i, k), v)
    ∈ (kc ← zip (seqZ 0 (py.len cols)) cols;
       i ← seqZ 0 (sp.nrows m);
       match sp.stored m !! (i, kc.2) with
       | Some v => [((i, kc.1), v)]
       | None => []
       end)
  ↔ ∃ (n : nat) (c : Z),
      k = Z.of_nat n ∧ cols !! n = Some c
      ∧ 0 ≤ i < sp.nrows m ∧ sp.stored m !! (i, c) = Some v.
Proof.
  rewrite list_elem_of_bind. split.
  - intros ([k' c] & Hin & Hkc). simpl in Hin.
    apply list_elem_of_bind in Hin as (i' & Hin & Hi'%elem_of_seqZ).
    apply list_elem_of_lookup in Hkc as [n Hn].
    rewrite lookup_zip_with in Hn.
    destruct (seqZ 0 (py.len cols) !! n) as [k''|] eqn:Hk; [|discriminate].
    destruct (cols !! n) as [c'|] eqn:Hc; [|discriminate].
    simpl in Hn. injection Hn as -> ->.
    apply lookup_seqZ in Hk as [-> _].
    destruct (sp.stored m !! (i', c)) as [v'|] eqn:Hv;
      [|by apply elem_of_nil in Hin].
    apply list_elem_of_singleton in Hin. injection Hin as -> -> ->.
    exists n, c. split; [lia|]. split; [done|]. split; [lia | done].
  - intros (n & c & -> & Hc & Hi & Hv).
    exists (Z.of_nat n, c). split.
    + simpl. apply list_elem_of_bind. exists i. split.
      * rewrite Hv. apply list_elem_of_singleton. reflexivity.
      * apply elem_of_seqZ. lia.
    + apply list_elem_of_lookup. exists n. rewrite lookup_zip_with.
      apply lookup_lt_Some in Hc as Hlt.
      rewrite (lookup_seqZ_lt 0) by (unfold py.len; lia).
      rewrite Hc. simpl. do 2 f_equal; lia.
Qed.

(** Column number [n] of the selection is column [cols !! n] of the
    matrix. *)
Lemma lookup_select_cols (m : sp.spmatrix) (cols : list Z) (i : Z)
    (n : nat) (c : Z) :
  0 ≤ i < sp.nrows m → cols !! n = Some c →
  sp.stored (sp.select_cols m cols) !! (i, Z.of_nat n)
  = sp.stored m !! (i, c).
Proof.
  intros Hi Hc. unfold sp.select_cols. cbn [sp.stored].
  destruct (sp.stored m !! (i, c)) as [v|] eqn:Hv.
  - apply elem_of_list_to_map_1'.
    + intros y (n' & c' & Hn & Hc' & _ & Hy)%elem_of_select_cols_entries.
      apply Nat2Z.inj in Hn as <-. congruence.
    + apply elem_of_select_cols_entries. eauto 10.
  - apply not_elem_of_list_to_map_1.
    intros ([[i' k'] v] & Heq & Hin)%list_elem_of_fmap. simpl in Heq.
    injection Heq as <- <-.
    apply elem_of_select_cols_entries in Hin as (n' & c' & Hn & Hc' & _ & Hy).
    apply Nat2Z.inj in Hn as <-. congruence.
Qed.

Lemma lookup_slice_seqZ (len start stop : Z) (n : nat) :
  0 ≤ start → start ≤ stop → stop ≤ len →
  Z.of_nat n < stop - start →
  py.slice (seqZ 0 len) start stop !! n = Some (start + Z.of_nat n).
Proof.
  intros Hs Hse Hel Hn.
  rewrite slice_in_range by (unfold py.len; rewrite ?length_seqZ; lia).
  rewrite lookup_take_lt by lia. rewrite lookup_drop.
  rewrite (lookup_seqZ_lt 0) by lia. f_equal. lia.
Qed.

Lemma length_slice_seqZ (len start stop : Z) :
  0 ≤ start → start ≤ stop → stop ≤ len →
  py.len (py.slice (seqZ 0 len) start stop) = stop - start.
Proof.
  intros Hs Hse Hel.
  rewrite slice_in_range by (unfold py.len; rewrite ?length_seqZ; lia).
  unfold py.len. rewrite length_take, length_drop, length_seqZ. lia.
Qed.

Lemma getitem_cols_run (l : LabelsBase.t) (start stop : Z) :
  start < stop →
  LabelsBase.getitem_cols l start stop
  = Ok (LabelsBase.set_data
          (sp.select_cols (LabelsBase.data l)
             (py.slice (seqZ 0 (sp.ncols (LabelsBase.data l))) start stop))
          l).
Proof.
  intros Hlt. unfold LabelsBase.getitem_cols. rewrite decide_False by lia.
  reflexivity.
Qed.

(** C7, as the code has it. In mode "train" with a restriction asked for
    ([start_index] not 0 or [end_index] not -1), [end_index = -1] resolves
    to the label count. When the end so resolved is not after
    [start_index], construction fails with a configuration error and no
    loader is built; with a known feature type it is the
    [ConfigurationError] of the restriction. Otherwise the columns are
    sliced to [[start_index, end_index)], the invalid labels of the slice
    are removed, and the batches are planned over what is left. *)
Theorem range_restriction_slices_columns (files : Files)
    (bs : Z) (ft order : string) (nrm : option string) (si ei : Z) :
  si ≠ 0 ∨ ei ≠ -1 →
  let Y0 := label_file files in
  let stop := resolved_end ei (sp.ncols Y0) in
  (stop ≤ si →
     (∃ e,
        construct files bs ft "train" order nrm si ei = Raise e
        ∧ configuration_error e)
     ∧ (ft = "sparse" ∨ ft = "dense" →
        ∃ msg,
          construct files bs ft "train" order nrm si ei
          = Raise (ConfigurationError msg)))
  ∧ (si < stop → ft = "sparse" ∨ ft = "dense" →
     order = "labels" ∨ order = "instances" →
     ∃ sliced,
       LabelsBase.getitem_cols (load_labels order Y0) si stop = Ok sliced
       ∧ construct files bs ft "train" order nrm si ei
         = (fl ← load_data ft order nrm files;
            plan ← plan_batches
                      (if String.eqb order "labels"
                       then LabelsBase.num_labels
                              (LabelsBase.remove_invalid sliced).2
                       else FeaturesBase.num_instances fl.1)
                      bs;
            mret {| feature_type := ft;
                    norm := nrm;
                    features := fl.1;
                    labels := (LabelsBase.remove_invalid sliced).2;
                    batch_size := bs;
                    start_index := si;
                    end_index := stop;
                    batch_order := order;
                    mode := "train";
                    valid_labels := Some (LabelsBase.get_valid sliced);
                    num_valid_labels := None;
                    batches := Some plan;
                    num_labels_ := sp.ncols Y0 |})
       ∧ (0 ≤ si → stop ≤ sp.ncols Y0 →
            sp.shape (LabelsBase.data sliced) = (sp.nrows Y0, stop - si)
            ∧ ∀ i j, 0 ≤ i < sp.nrows Y0 → 0 ≤ j < stop - si →
                sp.stored (LabelsBase.data sliced) !! (i, j)
                = sp.stored Y0 !! (i, si + j))).
Proof.
  intros Hreq Y0 stop.
  assert (negb (si =? 0) || negb (ei =? -1) = true) as Hcond.
  { destruct Hreq as [H|H]; apply Z.eqb_neq in H; rewrite H; simpl;
      [reflexivity | apply orb_true_r]. }
  split.
  - intros Hle.
    assert (ft = "sparse" ∨ ft = "dense" →
            ∃ msg, construct files bs ft "train" order nrm si ei
                   = Raise (ConfigurationError msg)) as Hknown.
    { intros Hft.
      destruct (load_data_known_feature_type ft order nrm files Hft)
        as (f & Hload & Hf & _).
      unfold construct. rewrite Hload.
      unfold mbind, result_bind, rbind. cbn [fst snd].
      match goal with |- context [construct_loaded ?s] =>
        destruct (construct_loaded_empty_range s) as [self' ->] end.
      - split; [by split|]. exact Hle.
      - eexists. reflexivity. }
    split; [|exact Hknown].
    destruct (decide (ft = "sparse")) as [Hs|Hs];
      [|destruct (decide (ft = "dense")) as [Hd|Hd]].
    + destruct Hknown as [msg ->]; [by left|].
      eexists. split; [reflexivity|]. right. eauto.
    + destruct Hknown as [msg ->]; [by right|].
      eexists. split; [reflexivity|]. right. eauto.
    + unfold construct. rewrite load_data_unknown_feature_type by done.
      eexists. split; [reflexivity|]. left. eauto.
  - intros Hlt Hft Horder.
    destruct (load_data_known_feature_type ft order nrm files Hft)
      as (f & Hload & Hf & _).
    eexists. split; [by apply getitem_cols_run|].
    split.
    + unfold construct. rewrite Hload.
      unfold construct_loaded, _gen_batches, mbind, M_bind, result_bind, rbind,
        gets, modify, lift, mret, M_ret, result_ret.
      cbn -[plan_batches LabelsBase.remove_invalid LabelsBase.get_valid
            LabelsBase.num_labels LabelsBase.getitem_cols Z.eqb negb orb].
      rewrite Hcond.
      cbn -[plan_batches LabelsBase.remove_invalid LabelsBase.get_valid
            LabelsBase.num_labels LabelsBase.getitem_cols Z.eqb].
      fold Y0.
      change (LabelsBase.num_labels (load_labels order Y0)) with (sp.ncols Y0).
      change (if ei =? -1 then sp.ncols Y0 else ei) with stop.
      rewrite getitem_cols_run by exact Hlt.
      destruct Horder as [-> | ->];
        cbn -[plan_batches LabelsBase.remove_invalid LabelsBase.get_valid
              LabelsBase.num_labels stop];
        destruct (plan_batches _ _); reflexivity.
    + intros Hsi Hstop. unfold LabelsBase.set_data.
      cbn [LabelsBase.data load_labels]. split.
      * unfold sp.select_cols. cbn [sp.shape].
        rewrite length_slice_seqZ by lia. reflexivity.
      * intros i j Hi Hj.
        rewrite <- (Z2Nat.id j) at 1 by lia.
        rewrite (lookup_select_cols _ _ _ _ (si + j)); [reflexivity | exact Hi |].
        rewrite lookup_slice_seqZ by lia. f_equal. lia.
Qed.

(** ** The checkpoint *)

(** C9, on the code as it is. [save] stores the record of the three
    bookkeeping values under the file name, but [load] of that file never
    restores them: its first assignment, to the property [num_labels]
    that has no setter, raises [AttributeError], and the loader it was
    called on is left as it was. *)
Theorem load_after_save_raises (self other : Loader) (fname : string)
    (fs : gmap string FileContent) :
  ∃ fs',
    save fname fs self = (Ok fs', self)
    ∧ fs' !! fname
      = Some (Pickle (PyDict (state_dict
                {| ck_num_labels := num_labels self;
                   ck_num_labels_ := num_labels_ self;
                   ck_valid_labels := valid_labels self |})))
    ∧ ∃ msg, load fname fs' other = (Raise (AttributeError msg), other).
Proof.
  eexists. split; [reflexivity|]. split; [apply lookup_insert_eq|].
  unfold load, pickle_load, mbind, M_bind, lift. rewrite lookup_insert_eq.
  eexists. reflexivity.
Qed.

End Properties.

(** ** The properties on the small data set *)

Lemma example_loader_constructed :
  construct example_files 2 "sparse" "train" "labels" (Some "l2") 0 (-1)
  = Ok example_loader.
Proof. vm_compute. reflexivity. Qed.

Lemma example_loader_consistent : consistent example_loader.
Proof. unfold consistent. vm_compute. intuition discriminate. Qed.

Lemma gen_batches_partition_witness :
  0 < batch_count example_loader
  ∧ 0 < batch_size example_loader
  ∧ ∃ plan,
      _gen_batches example_loader
      = (Ok tt, set_batches (Some plan) example_loader)
      ∧ py.len plan = 2
      ∧ concat plan = [0; 1; 2].
Proof.
  assert (0 < batch_count example_loader) as HN by (vm_compute; reflexivity).
  assert (0 < batch_size example_loader) as HB by (vm_compute; reflexivity).
  split; [exact HN|]. split; [exact HB|].
  destruct (gen_batches_partition example_loader (or_introl eq_refl) HN HB)
    as (plan & Hrun & _ & Hlen & _ & _ & _ & _ & Hcat).
  exists plan. split; [exact Hrun|]. split; [exact Hlen | exact Hcat].
Defined.

Lemma label_batch_targets_witness :
  ∃ batch_data,
    _create_label_batch [0; 1] example_loader = (Ok batch_data, example_loader)
    ∧ py.len batch_data = 2.
Proof.
  assert (0 ≤ num_instances example_loader) as Hn by (vm_compute; discriminate).
  assert (∀ i j x,
            sp.stored (LabelsBase.data (labels example_loader)) !! (i, j) = Some x →
            0 < x) as Hpos.
  { intros i j x Hx. cbn in Hx.
    rewrite !lookup_insert_Some, lookup_empty in Hx.
    destruct Hx as [[_ <-]|[_ [[_ <-]|[_ [[_ <-]|[_ Hx]]]]]];
      [lia | lia | lia | discriminate]. }
  destruct (label_batch_targets example_loader [0; 1] Hn eq_refl Hpos)
    as (batch_data & Hrun & Hlen & _).
  exists batch_data. split; [exact Hrun | exact Hlen].
Defined.

Lemma example_shortlist_in_range (i c : Z) :
  0 ≤ i < num_instances example_loader →
  c ∈ candidates example_shortlist i →
  0 ≤ c ≤ num_labels example_loader.
Proof.
  intros Hi Hc. change (num_instances example_loader) with 4 in Hi.
  change (num_labels example_loader) with 3.
  assert (i = 0 ∨ i = 1 ∨ i = 2 ∨ i = 3) as [-> | [-> | [-> | ->]]] by lia;
    apply list_elem_of_In in Hc; simpl in Hc; lia.
Defined.

(** C3, on the code as it is. The update reads [tolil().rows], every
    stored column of a row, as the positives of the instance. On the
    matrix an earlier update has stored, the negatives of that update are
    among them. Here instance 0 has the one positive 0 and holds -1 at
    label 1; the candidates of the later update are the one label 2, so
    that the row should hold |P_0| + |N_0| = 2 entries. The shape is kept
    and the positive is kept, but the new row holds three entries, and
    label 1 has turned from -1 to +1. *)
Theorem later_update_counts_negatives_as_positives :
  update_data_shortlist (Sim := unit) example_shortlist [] example_loader
  = (Ok tt, example_updated_loader)
  ∧ positive_set example_updated_loader 0 = [0]
  ∧ negative_set example_updated_loader later_shortlist 0 = [2]
  ∧ NoDup (candidates later_shortlist 0)
  ∧ ∃ self',
      update_data_shortlist (Sim := unit) later_shortlist [] example_updated_loader
      = (Ok tt, self')
      ∧ sp.shape (LabelsBase.data (labels self')) = (4, 3)
      ∧ sp.stored (LabelsBase.data (labels self')) !! (0, 0) = Some 1
      ∧ sp.lil_row (LabelsBase.data (labels self')) 0 = [0; 1; 2]
      ∧ py.len (sp.lil_row (LabelsBase.data (labels self')) 0)
        ≠ py.len (positive_set example_updated_loader 0)
          + py.len (negative_set example_updated_loader later_shortlist 0)
      ∧ sp.stored (LabelsBase.data (labels example_updated_loader)) !! (0, 1)
        = Some (-1)
      ∧ sp.stored (LabelsBase.data (labels self')) !! (0, 1) = Some 1.
Proof.
  split; [vm_compute; reflexivity|].
  split; [vm_compute; reflexivity|].
  split; [vm_compute; reflexivity|].
  split; [apply NoDup_singleton|].
  eexists. split; [vm_compute; reflexivity|].
  split; [reflexivity|]. split; [reflexivity|].
  split; [vm_compute; reflexivity|].
  split; [vm_compute; discriminate|]. split; reflexivity.
Qed.

(** C4, on the code as it is. For the same update the loop emits, for
    row 0, +1 at the columns 0 and 1 and -1 at column 2, where P_0 = {0}
    and N_0 = {2} ask for +1 at column 0 and -1 at column 2 only: the
    block of +1 entries has the stored negative of the earlier update in
    it. *)
Theorem later_update_emits_positive_at_negative :
  positive_set example_updated_loader 0 = [0]
  ∧ negative_set example_updated_loader later_shortlist 0 = [2]
  ∧ ∃ rows cols data,
      shortlist_triples later_shortlist example_updated_loader
      = (Ok (rows, cols, data), example_updated_loader)
      ∧ filter (λ t, t.1.1 = 0) (zip3 rows cols data)
        = [(0, 0, 1); (0, 1, 1); (0, 2, -1)]
      ∧ row_block 0 (positive_set example_updated_loader 0)
          (negative_set example_updated_loader later_shortlist 0)
        = [(0, 0, 1); (0, 2, -1)].
Proof.
  split; [vm_compute; reflexivity|].
  split; [vm_compute; reflexivity|].
  eexists _, _, _. split; [vm_compute; reflexivity|].
  split; vm_compute; reflexivity.
Qed.

Lemma shortlist_update_rejects_out_of_range_witness :
  5 ∈ candidates out_of_range_shortlist 0
  ∧ (5 < 0 ∨ num_labels example_loader < 5)
  ∧ ∃ msg,
      update_data_shortlist (Sim := unit) out_of_range_shortlist [] example_loader
      = (Raise (ValueError msg), example_loader).
Proof.
  assert (5 ∈ candidates out_of_range_shortlist 0) as Hc
    by (apply list_elem_of_In; simpl; tauto).
  assert (5 < 0 ∨ num_labels example_loader < 5) as Hbad
    by (right; vm_compute; reflexivity).
  split; [exact Hc|]. split; [exact Hbad|].
  destruct (shortlist_update_rejects_out_of_range (Sim := unit) example_loader
              out_of_range_shortlist [] 0 5 example_loader_consistent
              ltac:(vm_compute; discriminate)
              ltac:(change (0 ≤ 0 < 4); lia) Hc Hbad)
    as (rows & cols & data & msg & _ & _ & _ & Hrun).
  exists msg. exact Hrun.
Defined.

(** C5, the counterexample. Label count 3, positives of instance 0 equal
    to {0}, candidates [0, 1, 5]: the loop assembles the triples without
    complaint, the column 5 among them, and the failure is the
    [ValueError] of the matrix constructor, not an [IndexError] found by a
    check made before the construction. *)
Lemma shortlist_update_no_validation_before_construction :
  shortlist_triples out_of_range_shortlist example_loader
  = (Ok ([0; 0; 0; 1; 2], [0; 1; 5; 1; 2], [1; -1; -1; 1; 1]), example_loader)
  ∧ update_data_shortlist (Sim := unit) out_of_range_shortlist [] example_loader
    = (Raise (ValueError "column index exceeds matrix dimensions"),
       example_loader)
  ∧ ¬ ∃ msg,
        (update_data_shortlist (Sim := unit) out_of_range_shortlist []
           example_loader).1
        = Raise (IndexError msg).
Proof.
  split; [vm_compute; reflexivity|]. split; [vm_compute; reflexivity|].
  intros [msg Hmsg]. vm_compute in Hmsg. discriminate.
Qed.

Lemma construct_rejects_unknown_configuration_witness :
  (∃ msg,
     construct example_files 2 "csr" "train" "labels" (Some "l2") 0 (-1)
     = Raise (NotImplementedError msg))
  ∧ (∃ msg,
       construct example_files 2 "sparse" "train" "rows" (Some "l2") 0 (-1)
       = Raise (NotImplementedError msg)).
Proof.
  split.
  - destruct (construct_rejects_unknown_configuration example_files 2 "csr"
                "train" "labels" (Some "l2") 0 (-1)) as (_ & Hft & _).
    + left. split; discriminate.
    + eexists. apply Hft; discriminate.
  - destruct (construct_rejects_unknown_configuration example_files 2 "sparse"
                "train" "rows" (Some "l2") 0 (-1)) as (_ & _ & Horder).
    + right. split; discriminate.
    + destruct Horder as [msg Horder]; [by left | discriminate | discriminate |].
      eexists. rewrite Horder.
      rewrite decide_False; [reflexivity|].
      intros [[_ [Hs|He]] _]; [by apply Hs | by apply He].
Defined.

Lemma range_restriction_slices_columns_witness :
  (∃ self,
     construct example_files 2 "sparse" "train" "labels" (Some "l2") 1 (-1)
     = Ok self
     ∧ end_index self = 3
     ∧ sp.shape (LabelsBase.data (labels self)) = (4, 2)
     ∧ sp.stored (LabelsBase.data (labels self)) !! (1, 0) = Some 1)
  ∧ (∃ msg,
       construct example_files 2 "sparse" "train" "instances" (Some "l2") 2 1
       = Raise (ConfigurationError msg)).
Proof.
  assert ("sparse" = "sparse" ∨ "sparse" = "dense") as Hft by (left; reflexivity).
  split.
  - assert ((1 : Z) ≠ 0 ∨ (-1 : Z) ≠ -1) as Hreq by (left; discriminate).
    pose proof (@range_restriction_slices_columns unit example_files 2 "sparse"
                  "labels" (Some "l2") 1 (-1) Hreq) as H.
    cbv zeta in H. destruct H as [_ Hslice].
    assert (1 < resolved_end (-1) (sp.ncols (label_file example_files))) as Hlt
      by (vm_compute; reflexivity).
    destruct (Hslice Hlt Hft (or_introl eq_refl)) as (sliced & Hsliced & Hrun & _).
    vm_compute in Hsliced. injection Hsliced as <-.
    rewrite Hrun. eexists. split; [vm_compute; reflexivity|].
    split; [reflexivity|]. split; vm_compute; reflexivity.
  - assert ((2 : Z) ≠ 0 ∨ (1 : Z) ≠ -1) as Hreq by (left; discriminate).
    pose proof (@range_restriction_slices_columns unit example_files 2 "sparse"
                  "instances" (Some "l2") 2 1 Hreq) as H.
    cbv zeta in H. destruct H as [Hfail _].
    assert (resolved_end 1 (sp.ncols (label_file example_files)) ≤ 2) as Hle
      by (vm_compute; discriminate).
    destruct (Hfail Hle) as [_ Hknown]. exact (Hknown Hft).
Defined.

(** C7, the counterexample. In mode "predict", with [start_index = 2] and
    [end_index = 1], so that the end is not after the start, construction
    does not fail and slices nothing: lines 109 to 113 are not reached,
    and the loader holds the label matrix as loaded. *)
Lemma construct_ignores_label_range_outside_train :
  ∃ self,
    construct example_files 2 "sparse" "predict" "labels" (Some "l2") 2 1
    = Ok self
    ∧ end_index self ≤ start_index self
    ∧ LabelsBase.data (labels self) = example_labels
    ∧ sp.shape (LabelsBase.data (labels self)) = (4, 3).
Proof.
  eexists. split; [vm_compute; reflexivity|].
  split; [vm_compute; discriminate|]. split; reflexivity.
Qed.

Lemma restriction_and_removal_in_train_only_witness :
  ∃ self,
    construct example_files 2 "sparse" "predict" "labels" (Some "l2") 1 2
    = Ok self
    ∧ LabelsBase.data (labels self) = example_labels
    ∧ valid_labels self = None.
Proof.
  destruct (restriction_and_removal_in_train_only example_files 2 "sparse"
              "predict" "labels" (Some "l2") 1 2 (or_introl eq_refl))
    as [Hpredict _].
  rewrite (Hpredict ltac:(discriminate)).
  eexists. split; [vm_compute; reflexivity|]. split; reflexivity.
Defined.

(** C9, at the small data set: loading the checkpoint just saved raises,
    and restores nothing. *)
Lemma example_load_after_save :
  ∃ fs,
    save "ckpt.pkl" ∅ example_loader = (Ok fs, example_loader)
    ∧ load "ckpt.pkl" fs example_loader
      = (Raise (AttributeError "can't set attribute"), example_loader).
Proof. eexists. split; vm_compute; reflexivity. Qed.

(** * Further properties of the loaders *)

(** ** More on the batch plan *)

Section BatchPlan.

Context {FData : Type}.

Local Abbreviation Loader := (@Loader FData).

Lemma gen_batches_run (self : Loader) (plan : list (list Z)) :
  batch_order self = "labels" ∨ batch_order self = "instances" →
  plan_batches (batch_count self) (batch_size self) = Ok plan →
  _gen_batches self = (Ok tt, set_batches (Some plan) self).
Proof.
  intros Horder Hplan. rewrite gen_batches_known_order by exact Horder.
  rewrite Hplan. reflexivity.
Qed.

Lemma gen_batches_raise (self : Loader) (e : exn) :
  batch_order self = "labels" ∨ batch_order self = "instances" →
  plan_batches (batch_count self) (batch_size self) = Raise e →
  _gen_batches self = (Raise e, self).
Proof.
  intros Horder Hplan. rewrite gen_batches_known_order by exact Horder.
  rewrite Hplan. reflexivity.
Qed.

Lemma ceil_div_bounds (N B : Z) :
  0 < N → 0 < B →
  let k := (N + B - 1) / B in
  0 < k ∧ k ≤ N ∧ N ≤ k * B ∧ (k - 1) * B < N.
Proof.
  intros HN HB k.
  pose proof (Z.div_mod (N + B - 1) B ltac:(lia)) as Hdm.
  pose proof (Z.mod_pos_bound (N + B - 1) B HB) as Hmb.
  fold k in Hdm. nia.
Qed.

(** X1. No batch of the plan is empty and none exceeds the batch size. *)
Theorem gen_batches_chunk_bounds (self : Loader) :
  batch_order self = "labels" ∨ batch_order self = "instances" →
  0 < batch_count self →
  0 < batch_size self →
  ∃ plan,
    _gen_batches self = (Ok tt, set_batches (Some plan) self)
    ∧ ∀ chunk, chunk ∈ plan → 1 ≤ py.len chunk ≤ batch_size self.
Proof.
  intros Horder HN HB.
  destruct (plan_batches_spec _ _ HN HB) as (plan & k & Hplan & -> & Hk & Hsizes & _).
  exists plan. split; [by apply gen_batches_run|].
  set (N := batch_count self) in *. set (B := batch_size self) in *.
  set (k := (N + B - 1) / B) in *.
  destruct (ceil_div_bounds N B HN HB) as (_ & HkN & HNk & _). fold k in HkN, HNk.
  pose proof (Z.div_mod N k ltac:(lia)) as Hdm.
  pose proof (Z.mod_pos_bound N k Hk) as Hmod.
  intros chunk Hchunk.
  assert (py.len chunk ∈ py.len <$> plan) as Hin by (by apply list_elem_of_fmap_2).
  rewrite Hsizes in Hin.
  apply elem_of_app in Hin as [Hin|Hin]; apply elem_of_replicate in Hin as [-> Hne].
  - assert (0 < N `mod` k) by lia. nia.
  - nia.
Qed.

(** X3. A batch size that is at least the count gives one batch with every
    index. *)
Theorem gen_batches_single_batch (self : Loader) :
  batch_order self = "labels" ∨ batch_order self = "instances" →
  0 < batch_count self →
  batch_count self ≤ batch_size self →
  _gen_batches self
  = (Ok tt, set_batches (Some [seqZ 0 (batch_count self)]) self).
Proof.
  intros Horder HN HB.
  destruct (plan_batches_spec (batch_count self) (batch_size self) HN ltac:(lia))
    as (plan & k & Hplan & -> & Hk & Hsizes & Hcat).
  set (N := batch_count self) in *. set (B := batch_size self) in *.
  assert ((N + B - 1) / B = 1) as Hone.
  { symmetry. apply (Z.div_unique _ _ _ (N - 1)); lia. }
  rewrite Hone, Z.mod_1_r, Z.div_1_r in Hsizes. simpl in Hsizes.
  destruct plan as [|c [|c' plan]]; try discriminate.
  simpl in Hcat. rewrite app_nil_r in Hcat. subst c.
  by apply gen_batches_run.
Qed.

(** X4. When the batch size is not positive, or there is nothing to batch,
    [_gen_batches] raises and stores no plan: [ZeroDivisionError] for a
    batch size of zero, [ValueError] from [np.array_split] otherwise. *)
Theorem gen_batches_raises (self : Loader) :
  batch_order self = "labels" ∨ batch_order self = "instances" →
  0 ≤ batch_count self →
  batch_size self ≤ 0 ∨ batch_count self = 0 →
  ∃ msg,
    _gen_batches self
    = (Raise (if decide (batch_size self = 0)
              then ZeroDivisionError msg else ValueError msg), self).
Proof.
  intros Horder HN Hbad.
  set (N := batch_count self) in *. set (B := batch_size self) in *.
  assert (∃ msg, plan_batches N B
                 = Raise (if decide (B = 0) then ZeroDivisionError msg
                          else ValueError msg)) as [msg Hmsg].
  { unfold plan_batches, py.mod_, py.floordiv.
    destruct (decide (B = 0)) as [HB|HB]; [eexists; reflexivity|].
    simpl. unfold np.array_split.
    rewrite decide_True; [eexists; reflexivity|].
    pose proof (Z.div_mod N B HB) as Hdm.
    destruct Hbad as [HBneg| ->].
    - pose proof (Z.mod_neg_bound N B ltac:(lia)) as Hmod.
      case_decide; nia.
    - rewrite Z.mod_0_l, Z.div_0_l by exact HB. rewrite decide_True by done. lia. }
  exists msg. by apply gen_batches_raise.
Qed.

Lemma lookup_concat_chunk {A : Type} (ls : list (list A)) :
  ∀ (i : nat) (l : list A), ls !! i = Some l →
  l = take (length l) (drop (length (concat (take i ls))) (concat ls)).
Proof.
  induction ls as [|a ls IH]; intros i l Hi; [done|].
  destruct i as [|i]; simpl in Hi.
  - injection Hi as ->. change (l = take (length l) (l ++ concat ls)).
    by rewrite take_app_length.
  - cbn [take concat]. rewrite length_app, drop_app_add. by apply IH.
Qed.

Lemma take_drop_seqZ (N : Z) (a b : nat) :
  Z.of_nat a + Z.of_nat b ≤ N →
  take b (drop a (seqZ 0 N)) = seqZ (Z.of_nat a) (Z.of_nat b).
Proof.
  intros Hab. apply list_eq. intros i.
  destruct (decide (i < b)%nat) as [Hi|Hi].
  - rewrite lookup_take_lt by exact Hi. rewrite lookup_drop.
    rewrite !lookup_seqZ_lt by lia. f_equal. lia.
  - rewrite lookup_take_ge by lia. rewrite lookup_seqZ_ge by lia. reflexivity.
Qed.

(** X2. Every batch of the plan is a range of consecutive indices: with k
    batches, q = N div k and e = N mod k, batch number i starts at
    i*q + min(i, e) and has q + 1 indices when i < e and q otherwise. *)
Theorem gen_batches_chunk_ranges (self : Loader) :
  batch_order self = "labels" ∨ batch_order self = "instances" →
  0 < batch_count self →
  0 < batch_size self →
  let N := batch_count self in
  let k := (N + batch_size self - 1) / batch_size self in
  let q := N / k in
  let e := N `mod` k in
  ∃ plan,
    _gen_batches self = (Ok tt, set_batches (Some plan) self)
    ∧ ∀ (i : nat) chunk, plan !! i = Some chunk →
        chunk = seqZ (Z.of_nat i * q + Z.min (Z.of_nat i) e)
                     (q + if decide (Z.of_nat i < e) then 1 else 0).
Proof.
  intros Horder HN HB N k q e.
  destruct (plan_batches_spec _ _ HN HB) as (plan & k' & Hplan & -> & Hk & Hsizes & Hcat).
  fold N k in Hk, Hsizes. fold q e in Hsizes.
  exists plan. split; [by apply gen_batches_run|].
  pose proof (Z.mod_pos_bound N k Hk) as Hmod. fold e in Hmod.
  pose proof (Z.div_mod N k ltac:(lia)) as Hdm. fold q e in Hdm.
  assert (0 ≤ q) as Hq by (apply Z.div_pos; lia).
  intros i chunk Hi.
  assert (py.len chunk = q + if decide (Z.of_nat i < e) then 1 else 0) as Hlen.
  { assert ((py.len <$> plan) !! i = Some (py.len chunk)) as Hl
      by (rewrite list_lookup_fmap, Hi; reflexivity).
    rewrite Hsizes in Hl. apply lookup_balanced_sizes in Hl.
    rewrite Z2Nat.id in Hl by lia. exact Hl. }
  assert (Z.of_nat (length (concat (take i plan)))
          = Z.of_nat i * q + Z.min (Z.of_nat i) e) as Hstart.
  { change (py.len (concat (take i plan)) = Z.of_nat i * q + Z.min (Z.of_nat i) e).
    rewrite <- zsum_length_concat, fmap_take, Hsizes.
    assert (i < length plan)%nat as Hlt by (by eapply lookup_lt_Some).
    assert (length plan = (Z.to_nat e + Z.to_nat (k - e))%nat) as Hk'.
    { rewrite <- (length_fmap py.len plan), Hsizes.
      rewrite length_app, !length_replicate. reflexivity. }
    rewrite take_app, !take_replicate, length_replicate.
    rewrite zsum_app, !zsum_replicate.
    destruct (decide (i ≤ Z.to_nat e)%nat).
    - rewrite Nat.min_l by lia.
      replace (i - Z.to_nat e)%nat with 0%nat by lia. simpl. lia.
    - rewrite (Nat.min_r i) by lia. rewrite Nat.min_l by lia.
      rewrite Z2Nat.id by lia. rewrite Nat2Z.inj_sub by lia.
      rewrite Z2Nat.id by lia. lia. }
  rewrite (lookup_concat_chunk plan i chunk Hi), Hcat.
  rewrite take_drop_seqZ.
  - unfold py.len in Hlen. rewrite Hstart, Hlen. reflexivity.
  - rewrite Hstart. unfold py.len in Hlen. rewrite Hlen.
    assert (Z.of_nat i < k).
    { apply lookup_lt_Some in Hi.
      assert (py.len (py.len <$> plan) = k) as Hk'.
      { rewrite Hsizes. unfold py.len. rewrite length_app, !length_replicate. lia. }
      unfold py.len in Hk'. rewrite length_fmap in Hk'. lia. }
    case_decide; nia.
Qed.

End BatchPlan.

(** ** More on the shortlist update *)

Section ShortlistUpdate.

Context {FData : Type} {Sim : Type}.

Local Abbreviation Loader := (@Loader FData).
Local Abbreviation M := (@M FData).

(** The matrix the update stores, when every candidate is a label index
    or the sentinel. *)
Lemma update_run (self : Loader) (shortlist_ind : list (list Z))
    (shortlist_sim : list (list Sim)) :
  consistent self →
  num_instances self ≤ py.len shortlist_ind →
  (∀ i c, 0 ≤ i < num_instances self → c ∈ candidates shortlist_ind i →
          0 ≤ c ≤ num_labels self) →
  update_data_shortlist shortlist_ind shortlist_sim self
  = (Ok tt,
     set_labels
       (LabelsBase.set_data
          (sp.SpMatrix (num_instances self, num_labels self)
             (foldl sp.add_entry ∅
                (concat (emitted self shortlist_ind
                           <$> seqZ 0 (num_instances self)))))
          (labels self))
       self).
Proof.
  intros Hcons Hlen Hcand.
  destruct (shortlist_triples_run self shortlist_ind Hcons Hlen)
    as (rows & cols & data & Hrun & Hzip & Hrows & Hcols & Hlr & Hlc).
  destruct Hcons as (Hshape & Hn & HL).
  rewrite (update_after_triples _ _ _ _ _ _ Hrun).
  rewrite csc_matrix_in_range; try done.
  - rewrite Hzip. reflexivity.
  - intros r Hr. subst rows. by apply triples_rows_in_range in Hr.
  - intros c Hc. subst cols.
    apply elem_of_triples_cols in Hc as (i & Hi & [Hc|Hc]).
    + apply elem_of_positives in Hc. tauto.
    + apply elem_of_negatives in Hc as (Hc & _ & Hne).
      specialize (Hcand i c Hi Hc). lia.
Qed.

Lemma filter_eq_negatives (self : Loader) (shortlist_ind : list (list Z))
    (i j : Z) :
  j ∈ negatives self shortlist_ind i →
  filter (λ x, x = j) (negatives self shortlist_ind i)
  = filter (λ x, x = j) (candidates shortlist_ind i).
Proof.
  intros (_ & HP & HL)%elem_of_negatives. unfold negatives.
  rewrite list_filter_filter. apply list_filter_iff. intros x.
  split; [tauto|]. intros ->. tauto.
Qed.

Lemma lookup_updated (self : Loader) (shortlist_ind : list (list Z)) (i j : Z) :
  0 ≤ i < num_instances self →
  foldl sp.add_entry ∅
    (concat (emitted self shortlist_ind <$> seqZ 0 (num_instances self)))
    !! (i, j)
  = if decide (j ∈ positives self i) then Some 1
    else if decide (j ∈ negatives self shortlist_ind i)
         then Some (- occurrences j (candidates shortlist_ind i))
         else None.
Proof.
  intros Hi. rewrite lookup_new_matrix by exact Hi.
  destruct (decide (j ∈ positives self i)); [reflexivity|].
  destruct (decide (j ∈ negatives self shortlist_ind i)) as [Hj|Hj].
  - rewrite filter_eq_negatives by exact Hj. unfold occurrences.
    destruct (filter _ (candidates shortlist_ind i)) as [|x l] eqn:Hf; [|reflexivity].
    exfalso. apply elem_of_negatives in Hj as (Hc & _).
    eapply (filter_nil_not_elem_of (λ x, x = j)); [exact Hf | reflexivity | exact Hc].
  - rewrite filter_eq_not_elem by exact Hj. reflexivity.
Qed.

(** X5. The matrix after an update, entry by entry: an old positive holds +1;
    a candidate that is neither an old positive nor the sentinel holds
    minus the number of times it occurs among the candidates; nothing else
    is stored in the row. *)
Theorem shortlist_update_entries (self : Loader) (shortlist_ind : list (list Z))
    (shortlist_sim : list (list Sim)) :
  consistent self →
  num_instances self ≤ py.len shortlist_ind →
  (∀ i c, 0 ≤ i < num_instances self → c ∈ candidates shortlist_ind i →
          0 ≤ c ≤ num_labels self) →
  ∃ m,
    update_data_shortlist shortlist_ind shortlist_sim self
    = (Ok tt, set_labels (LabelsBase.set_data m (labels self)) self)
    ∧ ∀ i j, 0 ≤ i < num_instances self →
        sp.stored m !! (i, j)
        = if decide (j ∈ positives self i) then Some 1
          else if decide (j ∈ candidates shortlist_ind i ∧ j ≠ num_labels self)
               then Some (- occurrences j (candidates shortlist_ind i))
               else None.
Proof.
  intros Hcons Hlen Hcand. eexists. split; [by apply update_run|].
  intros i j Hi. cbn [sp.stored]. rewrite lookup_updated by exact Hi.
  destruct (decide (j ∈ positives self i)) as [HP|HP]; [reflexivity|].
  destruct (decide (j ∈ negatives self shortlist_ind i)) as [HN|HN].
  - rewrite decide_True; [reflexivity|]. apply elem_of_negatives in HN. tauto.
  - rewrite decide_False; [reflexivity|]. intros [Hc Hne]. apply HN.
    apply elem_of_negatives. tauto.
Qed.

(** X6. A row of the new matrix stores at most as many entries as the
    instance had positives plus candidates. *)
Theorem shortlist_update_row_bound (self : Loader)
    (shortlist_ind : list (list Z)) (shortlist_sim : list (list Sim)) :
  consistent self →
  num_instances self ≤ py.len shortlist_ind →
  (∀ i c, 0 ≤ i < num_instances self → c ∈ candidates shortlist_ind i →
          0 ≤ c ≤ num_labels self) →
  ∃ m,
    update_data_shortlist shortlist_ind shortlist_sim self
    = (Ok tt, set_labels (LabelsBase.set_data m (labels self)) self)
    ∧ ∀ i, 0 ≤ i < num_instances self →
        py.len (sp.lil_row m i)
        ≤ py.len (positives self i) + py.len (candidates shortlist_ind i).
Proof.
  intros Hcons Hlen Hcand. eexists. split; [by apply update_run|].
  intros i Hi. unfold py.len. rewrite <- Nat2Z.inj_add, <- length_app.
  apply inj_le, submseteq_length, NoDup_submseteq.
  - apply NoDup_filter, NoDup_seqZ.
  - intros j [Hs _]%list_elem_of_filter. cbn [sp.stored] in Hs.
    rewrite lookup_updated in Hs by exact Hi. apply elem_of_app.
    destruct (decide (j ∈ positives self i)); [by left|]. right.
    destruct (decide (j ∈ negatives self shortlist_ind i)) as [HN|HN].
    + apply elem_of_negatives in HN. tauto.
    + by destruct Hs.
Qed.

Lemma for_each_app {A S : Type} (l1 l2 : list A) (body : A → S → M S) :
  ∀ (acc : S) (self : Loader),
  for_each (l1 ++ l2) body acc self
  = match for_each l1 body acc self with
    | (Ok acc', self') => for_each l2 body acc' self'
    | (Raise e, self') => (Raise e, self')
    end.
Proof.
  induction l1 as [|x l1 IH]; intros acc self; [reflexivity|].
  cbn [app for_each]. unfold mbind, M_bind.
  destruct (body x acc self) as [[acc'|e] self']; [apply IH | reflexivity].
Qed.

Lemma shortlist_row_no_candidates (self : Loader)
    (shortlist_ind pos_labels : list (list Z)) (idx : Z)
    (acc : list Z * list Z * list Z) (e : exn) :
  py.getitem shortlist_ind idx = Raise e →
  shortlist_row shortlist_ind pos_labels idx acc self = (Raise e, self).
Proof.
  intros He. unfold shortlist_row, mbind, M_bind, lift. rewrite He. reflexivity.
Qed.

(** X7. When there are fewer candidate lists than instances the update raises
    [IndexError] at the first instance without one, and the loader is left
    as it was. *)
Theorem shortlist_update_missing_candidates (self : Loader)
    (shortlist_ind : list (list Z)) (shortlist_sim : list (list Sim)) :
  consistent self →
  py.len shortlist_ind < num_instances self →
  ∃ msg,
    update_data_shortlist shortlist_ind shortlist_sim self
    = (Raise (IndexError msg), self).
Proof.
  intros (Hrows & Hn & HL) Hlen.
  destruct (getitem_out_of_range shortlist_ind (py.len shortlist_ind) ltac:(lia))
    as [msg Hmsg].
  exists msg.
  assert (shortlist_triples shortlist_ind self = (Raise (IndexError msg), self))
    as Htriples.
  { unfold shortlist_triples, mbind, M_bind, gets, py.range. cbv beta iota.
    assert (0 ≤ py.len shortlist_ind) as H0 by (unfold py.len; lia).
    assert (seqZ 0 (num_instances self)
            = seqZ 0 (py.len shortlist_ind)
              ++ seqZ (py.len shortlist_ind)
                   (num_instances self - py.len shortlist_ind)) as ->.
    { rewrite <- (Z.add_0_l (py.len shortlist_ind)) at 2.
      rewrite <- seqZ_app by lia. f_equal. lia. }
    rewrite for_each_app.
    rewrite shortlist_loop_run by (intros idx Hidx%elem_of_seqZ; lia).
    rewrite seqZ_cons by lia. cbn [for_each].
    unfold mbind, M_bind.
    rewrite (shortlist_row_no_candidates _ _ _ _ _ _ Hmsg). reflexivity. }
  unfold update_data_shortlist. unfold mbind at 1, M_bind.
  rewrite Htriples. reflexivity.
Qed.

Lemma update_run_consistent (self : Loader) (m : gmap (Z * Z) Z) :
  consistent self →
  consistent
    (set_labels
       (LabelsBase.set_data
          (sp.SpMatrix (num_instances self, num_labels self) m) (labels self))
       self).
Proof. intros (Hrows & Hn & HL). repeat split; assumption. Qed.

(** X8. A second update reads the negatives the first one stored as
    positives: whatever candidates it is given, it stores +1 at every old
    positive and at every negative of the first update. *)
Theorem shortlist_update_twice_promotes_negatives (self : Loader)
    (first second : list (list Z)) (shortlist_sim : list (list Sim)) :
  consistent self →
  num_instances self ≤ py.len first →
  num_instances self ≤ py.len second →
  (∀ i c, 0 ≤ i < num_instances self →
          c ∈ candidates first i ∨ c ∈ candidates second i →
          0 ≤ c ≤ num_labels self) →
  ∃ self1 self2,
    update_data_shortlist first shortlist_sim self = (Ok tt, self1)
    ∧ update_data_shortlist second shortlist_sim self1 = (Ok tt, self2)
    ∧ ∀ i x, 0 ≤ i < num_instances self →
        x ∈ positives self i ∨ x ∈ negatives self first i →
        sp.stored (LabelsBase.data (labels self2)) !! (i, x) = Some 1.
Proof.
  intros Hcons Hlen1 Hlen2 Hcand.
  eexists _, _. split; [apply update_run; eauto|].
  set (self1 := set_labels _ self).
  assert (consistent self1) as Hcons1 by (by apply update_run_consistent).
  split.
  - apply update_run; [exact Hcons1 | exact Hlen2 |].
    intros i c Hi Hc. apply (Hcand i c Hi). by right.
  - intros i x Hi Hx.
    change (foldl sp.add_entry ∅
              (concat (emitted self1 second <$> seqZ 0 (num_instances self1)))
              !! (i, x) = Some 1).
    rewrite lookup_updated by exact Hi.
    rewrite decide_True; [reflexivity|].
    apply elem_of_positives.
    change (num_labels self1) with (num_labels self).
    change (sp.stored (LabelsBase.data (labels self1)) !! (i, x))
      with (foldl sp.add_entry ∅
              (concat (emitted self first <$> seqZ 0 (num_instances self)))
              !! (i, x)).
    rewrite lookup_updated by exact Hi.
    destruct Hx as [Hx|Hx].
    + rewrite decide_True by exact Hx. split; [|eauto].
      apply elem_of_positives in Hx. tauto.
    + apply elem_of_negatives in Hx as Hx'. destruct Hx' as (Hc & _ & Hne).
      specialize (Hcand i x Hi (or_introl Hc)).
      split; [lia|]. repeat case_decide; eauto. done.
Qed.

Lemma shortlist_row_read_only (shortlist_ind pos_labels : list (list Z))
    (idx : Z) (acc : list Z * list Z * list Z) :
  read_only (shortlist_row shortlist_ind pos_labels idx acc : M _).
Proof.
  unfold shortlist_row.
  apply read_only_bind; [apply read_only_lift|]. intros indices.
  apply read_only_bind; [apply read_only_lift|]. intros _pos.
  apply read_only_bind; [apply read_only_gets|]. intros sentinel.
  apply read_only_ret.
Qed.

Lemma shortlist_triples_read_only (shortlist_ind : list (list Z)) :
  read_only (shortlist_triples shortlist_ind : M _).
Proof.
  unfold shortlist_triples.
  apply read_only_bind; [apply read_only_gets|]. intros lbl.
  apply read_only_bind; [apply read_only_gets|]. intros n.
  apply read_only_for_each. intros idx acc. apply shortlist_row_read_only.
Qed.

Lemma csc_matrix_shape (data rows cols : list Z) (shape : Z * Z) (m : sp.spmatrix) :
  sp.csc_matrix data rows cols shape = Ok m → sp.shape m = shape.
Proof.
  unfold sp.csc_matrix. case_decide; [discriminate|].
  destruct (sp.coo_check _ _ _ _); simpl; [|discriminate].
  intros [= <-]. reflexivity.
Qed.

(** X9. Whatever it is given, the update writes nothing but the label matrix,
    which keeps its layout tag and its label count, so that [get_stats],
    the batch plan and the valid-label list are as before; and an update
    that raises has written nothing at all. *)
Theorem shortlist_update_frame (self : Loader) (shortlist_ind : list (list Z))
    (shortlist_sim : list (list Sim)) :
  let outcome := update_data_shortlist shortlist_ind shortlist_sim self in
  (∃ m, outcome.2 = set_labels (LabelsBase.set_data m (labels self)) self
        ∧ sp.ncols m = num_labels self)
  ∧ get_stats outcome.2 = get_stats self
  ∧ batches outcome.2 = batches self
  ∧ valid_labels outcome.2 = valid_labels self
  ∧ features outcome.2 = features self
  ∧ LabelsBase._format (labels outcome.2) = LabelsBase._format (labels self)
  ∧ (∀ e, outcome.1 = Raise e → outcome.2 = self).
Proof.
  intros outcome.
  assert ((∃ e, outcome = (Raise e, self))
          ∨ ∃ m, outcome = (Ok tt, set_labels (LabelsBase.set_data m (labels self)) self)
                 ∧ sp.shape m = (num_instances self, num_labels self)) as Hcases.
  { pose proof (shortlist_triples_read_only shortlist_ind self) as Hro.
    destruct (shortlist_triples shortlist_ind self) as [[triples|e] self'] eqn:Htr;
      simpl in Hro; subst self'.
    - destruct triples as [[rows cols] data].
      unfold outcome. rewrite (update_after_triples _ _ _ _ _ _ Htr).
      destruct (sp.csc_matrix _ _ _ _) as [m|e] eqn:Hm; [|left; eexists; reflexivity].
      right. exists m. split; [reflexivity|]. by apply csc_matrix_shape in Hm.
    - left. exists e. unfold outcome, update_data_shortlist.
      unfold mbind at 1, M_bind. rewrite Htr. reflexivity. }
  destruct Hcases as [[e Heq]|(m & Heq & Hshape)]; rewrite Heq; cbn [fst snd].
  - split.
    + exists (LabelsBase.data (labels self)). split; [|reflexivity].
      destruct self as [? ? ? [? ?] ? ? ? ? ? ? ? ? ?]. reflexivity.
    + repeat split; reflexivity.
  - split.
    + exists m. split; [reflexivity|]. unfold sp.ncols. rewrite Hshape. reflexivity.
    + unfold get_stats, num_labels, num_instances, num_features,
        LabelsBase.num_labels, sp.ncols.
      cbn [labels features set_labels LabelsBase.data LabelsBase.set_data].
      rewrite Hshape. repeat split; try reflexivity. intros e [=].
Qed.

(** *** The update on a matrix in ground-truth form *)

Lemma positive_set_ground_truth (self : Loader) (i : Z) :
  ground_truth self → positive_set self i = positives self i.
Proof.
  intros Hgt. unfold positive_set, positives, sp.lil_row.
  apply list_filter_iff. intros j. unfold holds_positive. split.
  - intros (v & Hv & _). eauto.
  - intros [v Hv]. exists v. split; [exact Hv|]. exact (Hgt i j v Hv).
Qed.

Lemma negative_set_ground_truth (self : Loader) (shortlist_ind : list (list Z))
    (i : Z) :
  ground_truth self →
  negative_set self shortlist_ind i = negatives self shortlist_ind i.
Proof.
  intros Hgt. unfold negative_set, negatives.
  rewrite positive_set_ground_truth by exact Hgt. reflexivity.
Qed.

(** X14. On a label matrix in ground-truth form the loop of the update
    emits, for every instance i, +1 at each column of the positive set P_i
    followed by -1 at each column of N_i = C_i \ (P_i ∪ {sentinel}):
    |P_i| + |N_i| triples, none of which has the sentinel as its
    column. *)
Theorem ground_truth_update_emits_negatives (self : Loader)
    (shortlist_ind : list (list Z)) :
  ground_truth self →
  consistent self →
  num_instances self ≤ py.len shortlist_ind →
  ∃ rows cols data,
    shortlist_triples shortlist_ind self = (Ok (rows, cols, data), self)
    ∧ (∀ i, 0 ≤ i < num_instances self →
         filter (λ t, t.1.1 = i) (zip3 rows cols data)
         = row_block i (positive_set self i) (negative_set self shortlist_ind i)
         ∧ py.len (filter (λ t, t.1.1 = i) (zip3 rows cols data))
           = py.len (positive_set self i)
             + py.len (negative_set self shortlist_ind i))
    ∧ (∀ t, t ∈ zip3 rows cols data →
         0 ≤ t.1.1 < num_instances self ∧ t.1.2 ≠ num_labels self).
Proof.
  intros Hgt Hcons Hlen.
  destruct (shortlist_triples_by_row (Sim := unit) self shortlist_ind [] Hcons Hlen)
    as (rows & cols & data & Hrun & _ & Hrow & Hsent).
  exists rows, cols, data. split; [exact Hrun|]. split; [|exact Hsent].
  intros i Hi. destruct (Hrow i Hi) as (Hblock & Hcount & _).
  rewrite positive_set_ground_truth, negative_set_ground_truth by exact Hgt.
  split; [exact Hblock | exact Hcount].
Qed.

(** X13. On a label matrix in ground-truth form, an update whose candidates
    are label indices or the sentinel succeeds and stores a matrix of
    the same shape; every positive of the old matrix holds +1 in the new
    one; and when the candidates of instance i are distinct, row i of
    the new matrix has |P_i| + |N_i| entries, the ones at N_i holding
    -1. *)
Theorem ground_truth_update_preserves_positives (self : Loader)
    (shortlist_ind : list (list Z)) (shortlist_sim : list (list Sim)) :
  ground_truth self →
  consistent self →
  num_instances self ≤ py.len shortlist_ind →
  (∀ i c, 0 ≤ i < num_instances self → c ∈ candidates shortlist_ind i →
          0 ≤ c ≤ num_labels self) →
  ∃ m,
    update_data_shortlist shortlist_ind shortlist_sim self
    = (Ok tt, set_labels (LabelsBase.set_data m (labels self)) self)
    ∧ sp.shape m = sp.shape (LabelsBase.data (labels self))
    ∧ (∀ i p, 0 ≤ i < num_instances self → p ∈ positive_set self i →
         sp.stored m !! (i, p) = Some 1)
    ∧ (∀ i, 0 ≤ i < num_instances self → NoDup (candidates shortlist_ind i) →
         py.len (sp.lil_row m i)
         = py.len (positive_set self i)
           + py.len (negative_set self shortlist_ind i)
         ∧ ∀ x, x ∈ negative_set self shortlist_ind i →
                sp.stored m !! (i, x) = Some (-1)).
Proof.
  intros Hgt Hcons Hlen Hcand.
  destruct (shortlist_update_by_row self shortlist_ind shortlist_sim
              Hcons Hlen Hcand)
    as (m & Hrun & _ & Hshape & Hpos & Hrows).
  exists m. split; [exact Hrun|]. split; [exact Hshape|]. split.
  - intros i p Hi Hp. rewrite positive_set_ground_truth in Hp by exact Hgt.
    by apply Hpos.
  - intros i Hi Hnd.
    rewrite positive_set_ground_truth, negative_set_ground_truth by exact Hgt.
    by apply Hrows.
Qed.

End ShortlistUpdate.

(** ** Iterating a loader *)

Section Iteration.

Context {FData : Type} {Sim : Type}.

Local Abbreviation Loader := (@Loader FData).
Local Abbreviation M := (@M FData).
Local Abbreviation Item := (@Item FData).
Local Abbreviation Batch := (@Batch FData).

Lemma create_label_batch_run (self : Loader) (batch_indices : list Z) :
  0 ≤ num_instances self →
  sp.nrows (LabelsBase.data (labels self)) = num_instances self →
  _create_label_batch batch_indices self
  = (Ok ((λ j, {| item_data := FeaturesBase.data (features self);
                  item_ind := None;
                  item_Y := Dense (one_vs_all (LabelsBase.data (labels self))
                                     (num_instances self) j) |})
           <$> batch_indices),
     self).
Proof.
  intros Hn Hrows. unfold _create_label_batch.
  rewrite (for_each_append batch_indices _
             (λ j, {| item_data := FeaturesBase.data (features self);
                      item_ind := None;
                      item_Y := Dense (one_vs_all (LabelsBase.data (labels self))
                                         (num_instances self) j) |}));
    [reflexivity|].
  intros j acc. unfold mbind, M_bind, gets, lift. cbv beta iota.
  destruct (dense_target_of_column (LabelsBase.data (labels self)) j
              (num_instances self) Hn Hrows) as [Hones Hset].
  rewrite Hones. unfold LabelsBase.index_select. rewrite Hset. reflexivity.
Qed.

Lemma yield_each_run (create : list Z → M Batch) (f : list Z → Batch)
    (self : Loader) (chunks : list (list Z)) :
  (∀ c, c ∈ chunks → create c self = (Ok (f c), self)) →
  yield_each create chunks self = (f <$> chunks, StopIteration, self).
Proof.
  induction chunks as [|c chunks IH]; intros Hrun; [reflexivity|].
  cbn [yield_each]. rewrite Hrun by left.
  rewrite IH by (intros; apply Hrun; by right). reflexivity.
Qed.

Lemma yield_each_read_only (create : list Z → M Batch) (chunks : list (list Z)) :
  (∀ c, read_only (create c)) →
  ∀ self, (yield_each create chunks self).2 = self.
Proof.
  intros Hro. induction chunks as [|c chunks IH]; intros self; [reflexivity|].
  cbn [yield_each]. specialize (Hro c self).
  destruct (create c self) as [[b|e] self']; simpl in Hro; subst self'.
  - simpl. apply IH.
  - reflexivity.
Qed.

Lemma concat_fmap_fmap {A B : Type} (f : A → B) (ls : list (list A)) :
  concat ((λ l : list A, f <$> l) <$> ls) = f <$> concat ls.
Proof.
  induction ls as [|l ls IH]; [reflexivity|].
  cbn [fmap list_fmap concat]. rewrite fmap_app. f_equal. exact IH.
Qed.

(** X10. One pass over a label-major [Dataloader] whose plan covers the labels
    in order ends normally and delivers, batch after batch, exactly one
    item per label, in ascending label order, each with the one-vs-all
    target of its label. *)
Theorem dataloader_pass_over_labels (self : Loader) (plan : list (list Z)) :
  batch_order self = "labels" →
  batches self = Some plan →
  concat plan = seqZ 0 (num_labels self) →
  0 ≤ num_instances self →
  sp.nrows (LabelsBase.data (labels self)) = num_instances self →
  ∃ yielded,
    Dataloader.__iter__ self = (yielded, StopIteration, self)
    ∧ length yielded = length plan
    ∧ concat (batch_items <$> yielded)
      = (λ j, {| item_data := FeaturesBase.data (features self);
                 item_ind := None;
                 item_Y := Dense (one_vs_all (LabelsBase.data (labels self))
                                    (num_instances self) j) |})
          <$> seqZ 0 (num_labels self).
Proof.
  intros Horder Hplan Hcat Hn Hrows.
  set (item := λ j : Z, {| item_data := FeaturesBase.data (features self);
                           item_ind := None;
                           item_Y := Dense (one_vs_all (LabelsBase.data (labels self))
                                              (num_instances self) j) |}).
  exists ((λ c, LabelBatch (item <$> c)) <$> plan). split; [|split].
  - unfold Dataloader.__iter__, iterate. rewrite Hplan.
    apply yield_each_run. intros c _.
    unfold _create_batch, mbind, M_bind, gets. cbv beta iota.
    rewrite Horder. cbn [String.eqb Ascii.eqb Bool.eqb].
    rewrite create_label_batch_run by done. reflexivity.
  - rewrite length_fmap. reflexivity.
  - rewrite <- list_fmap_compose, <- Hcat, <- concat_fmap_fmap. reflexivity.
Qed.


Lemma shortlist_create_label_batch_run (self : Loader) (batch_indices : list Z) :
  DataloaderShortlist._create_label_batch batch_indices self
  = (Ok ((λ idx, {| item_data := FeaturesBase.data (features self);
                    item_ind := Some (sp.indices
                                        (sp.getrow (LabelsBase.data (labels self)) idx));
                    item_Y := Dense (sp.data
                                       (sp.getrow (LabelsBase.data (labels self)) idx)) |})
           <$> batch_indices),
     self).
Proof.
  unfold DataloaderShortlist._create_label_batch.
  rewrite (for_each_append batch_indices _
             (λ idx, {| item_data := FeaturesBase.data (features self);
                        item_ind := Some (sp.indices
                                            (sp.getrow (LabelsBase.data (labels self)) idx));
                        item_Y := Dense (sp.data
                                           (sp.getrow (LabelsBase.data (labels self)) idx)) |}));
    reflexivity.
Qed.

Lemma shortlist_create_batch_read_only (batch_indices : list Z) :
  read_only (DataloaderShortlist._create_batch batch_indices : M Batch).
Proof.
  intros self. unfold DataloaderShortlist._create_batch, mbind, M_bind, gets.
  cbv beta iota. destruct (String.eqb (batch_order self) "labels").
  - rewrite shortlist_create_label_batch_run. reflexivity.
  - reflexivity.
Qed.

(** X12. A pass, complete or cut short by an exception, leaves the loader as
    it was, for both loaders; a second pass therefore yields what the
    first did. *)
Theorem pass_leaves_loader_unchanged (self : Loader) :
  (Dataloader.__iter__ self).2 = self
  ∧ (DataloaderShortlist.__iter__ self).2 = self
  ∧ Dataloader.__iter__ (Dataloader.__iter__ self).2 = Dataloader.__iter__ self
  ∧ DataloaderShortlist.__iter__ (DataloaderShortlist.__iter__ self).2
    = DataloaderShortlist.__iter__ self.
Proof.
  assert ((Dataloader.__iter__ self).2 = self) as H1.
  { unfold Dataloader.__iter__, iterate. destruct (batches self); [|reflexivity].
    apply yield_each_read_only. intros c. apply create_batch_read_only. }
  assert ((DataloaderShortlist.__iter__ self).2 = self) as H2.
  { unfold DataloaderShortlist.__iter__, iterate. destruct (batches self); [|reflexivity].
    apply yield_each_read_only. intros c. apply shortlist_create_batch_read_only. }
  rewrite H1, H2. tauto.
Qed.

End Iteration.

(** ** More on the one-vs-all materialiser, construction and the
       checkpoint *)

Section Construction.

Context {FData : Type}.

Local Abbreviation Loader := (@Loader FData).
Local Abbreviation Files := (@Files FData).
Local Abbreviation M := (@M FData).
Local Abbreviation Item := (@Item FData).

Lemma setitem_one_length (x : Z) (v v' : list Z) (i : Z) :
  np.setitem_one x v i = Ok v' → length v' = length v.
Proof.
  unfold np.setitem_one. repeat case_decide; intros [= <-];
    apply length_insert.
Qed.

Lemma setitem_fancy_raises_index_error (x : Z) (indices : list Z) :
  ∀ (v : list Z) (e : exn),
  np.setitem_fancy v indices x = Raise e → ∃ msg, e = IndexError msg.
Proof.
  induction indices as [|i indices IH]; intros v e; simpl; [discriminate|].
  destruct (np.setitem_one x v i) as [v'|e'] eqn:Hone; simpl.
  - apply IH.
  - intros [= <-]. unfold np.setitem_one in Hone.
    repeat case_decide; try discriminate. injection Hone as <-. eauto.
Qed.

Lemma setitem_fancy_out_of_range (x : Z) (indices : list Z) :
  ∀ (v : list Z) (i : Z),
  (∀ i', i' ∈ indices → 0 ≤ i') →
  i ∈ indices → py.len v ≤ i →
  ∃ msg, np.setitem_fancy v indices x = Raise (IndexError msg).
Proof.
  induction indices as [|i' indices IH]; intros v i Hpos Hin Hi;
    [by apply elem_of_nil in Hin|].
  simpl. destruct (np.setitem_one x v i') as [v'|e'] eqn:Hone; simpl.
  - apply elem_of_cons in Hin as [->|Hin].
    + unfold np.setitem_one in Hone.
      pose proof (Hpos i' ltac:(left)).
      repeat case_decide; try discriminate; lia.
    + apply (IH v' i); [intros; apply Hpos; by right | exact Hin |].
      apply setitem_one_length in Hone. unfold py.len in *. lia.
  - unfold np.setitem_one in Hone.
    repeat case_decide; try discriminate. injection Hone as <-. eauto.
Qed.

Lemma for_each_index_error {A S : Type} (body : A → S → M S) (self : Loader)
    (l : list A) (x : A) :
  (∀ y acc, (∃ acc', body y acc self = (Ok acc', self))
            ∨ ∃ msg, body y acc self = (Raise (IndexError msg), self)) →
  x ∈ l →
  (∀ acc, ∃ msg, body x acc self = (Raise (IndexError msg), self)) →
  ∀ acc, ∃ msg, for_each l body acc self = (Raise (IndexError msg), self).
Proof.
  intros Hbody Hin Hx. induction l as [|y l IH]; intros acc;
    [by apply elem_of_nil in Hin|].
  cbn [for_each]. unfold mbind, M_bind.
  destruct (Hbody y acc) as [[acc' Hok]|[msg Hraise]].
  - rewrite Hok. apply elem_of_cons in Hin as [->|Hin].
    + destruct (Hx acc) as [msg Hraise]. congruence.
    + by apply IH.
  - rewrite Hraise. eauto.
Qed.

(** X15. A stored entry of the label matrix at a row beyond the instance
    count makes the one-vs-all materialiser raise [IndexError] for any
    chunk that holds its label; nothing is truncated silently, and the
    loader is left as it was. *)
Theorem label_batch_row_beyond_instances (self : Loader)
    (batch_indices : list Z) (j r : Z) :
  0 ≤ num_instances self →
  j ∈ batch_indices →
  num_instances self ≤ r < sp.nrows (LabelsBase.data (labels self)) →
  is_Some (sp.stored (LabelsBase.data (labels self)) !! (r, j)) →
  ∃ msg,
    _create_label_batch batch_indices self = (Raise (IndexError msg), self).
Proof.
  intros Hn Hj Hr Hs. unfold _create_label_batch.
  assert (np.minus_ones (num_instances self)
          = Ok (replicate (Z.to_nat (num_instances self)) (-1))) as Hones.
  { unfold np.minus_ones. rewrite decide_False by lia. reflexivity. }
  apply for_each_index_error with (x := j); [|exact Hj|].
  - intros idx acc. unfold mbind, M_bind, gets, lift. cbv beta iota.
    rewrite Hones.
    destruct (np.setitem_fancy _ _ 1) as [v|e] eqn:Hset; [left; eauto|].
    right. apply setitem_fancy_raises_index_error in Hset as [msg ->]. eauto.
  - intros acc. unfold mbind, M_bind, gets, lift. cbv beta iota.
    rewrite Hones.
    destruct (setitem_fancy_out_of_range 1
                (sp.indices (LabelsBase.index_select (labels self) j))
                (replicate (Z.to_nat (num_instances self)) (-1)) r)
      as [msg ->]; [| | |eauto].
    + intros i Hi%elem_of_getcol_indices. lia.
    + apply elem_of_getcol_indices. split; [lia | exact Hs].
    + unfold py.len. rewrite length_replicate. lia.
Qed.

Lemma gen_batches_returns (self self' : Loader) (r : unit) :
  _gen_batches self = (Ok r, self') →
  (batch_order self = "labels" ∨ batch_order self = "instances")
  ∧ ∃ plan, self' = set_batches (Some plan) self.
Proof.
  destruct (decide (batch_order self = "labels")) as [Ho|Ho];
    [|destruct (decide (batch_order self = "instances")) as [Ho'|Ho']].
  - rewrite gen_batches_known_order by (by left).
    destruct (plan_batches _ _); [|discriminate]. intros [= _ <-]. eauto.
  - rewrite gen_batches_known_order by (by right).
    destruct (plan_batches _ _); [|discriminate]. intros [= _ <-]. eauto.
  - rewrite gen_batches_unknown_order by done. discriminate.
Qed.

(** X16. What holds of every loader the constructor returns: it has a batch
    plan; [num_labels_] is the label count of the label file, whatever
    was sliced or removed; the features are those of the feature file,
    normalised exactly when a norm was given; and the configuration is
    the one passed in, with a known feature type and batch order. *)
Theorem constructed_loader_invariants (files : Files) (bs : Z)
    (ft md order : string) (nrm : option string) (si ei : Z) (self : Loader) :
  construct files bs ft md order nrm si ei = Ok self →
  (∃ plan, batches self = Some plan)
  ∧ num_labels_ self = sp.ncols (label_file files)
  ∧ num_instances self = (feat_file files).1.1
  ∧ FeaturesBase.data (features self) = (feat_file files).2
  ∧ FeaturesBase.normalized (features self) = nrm
  ∧ LabelsBase._format (labels self)
    = (if String.eqb order "labels" then "csc" else "csr")
  ∧ feature_type self = ft ∧ batch_size self = bs ∧ batch_order self = order
  ∧ mode self = md ∧ start_index self = si
  ∧ (order = "labels" ∨ order = "instances")
  ∧ (ft = "sparse" ∨ ft = "dense").
Proof.
  unfold construct.
  destruct (load_data ft order nrm files) as [[f l]|e] eqn:Hload; [|discriminate].
  assert (ft = "sparse" ∨ ft = "dense") as Hft.
  { destruct (decide (ft = "sparse")); [by left|].
    destruct (decide (ft = "dense")); [by right|].
    rewrite load_data_unknown_feature_type in Hload by done. discriminate. }
  destruct (load_data_known_feature_type ft order nrm files Hft)
    as (f' & Hload' & Hf1 & Hf2).
  rewrite Hload in Hload'. injection Hload' as <- ->.
  assert (FeaturesBase.normalized f = nrm) as Hnorm.
  { unfold load_data, load_features in Hload.
    destruct Hft as [-> | ->]; simpl in Hload; destruct nrm;
      injection Hload as <-; reflexivity. }
  unfold mbind, result_bind, rbind. cbn [fst snd].
  match goal with |- context [construct_loaded ?s] => set (s0 := s) end.
  destruct (decide (empty_range_requested (mode s0) (start_index s0)
                      (end_index s0) (num_labels s0))) as [He|He].
  { destruct (construct_loaded_empty_range s0 He) as [s' ->]. discriminate. }
  destruct (construct_loaded_reaches_gen_batches s0 He)
    as (s' & -> & H1 & H2 & H3 & H4 & H5 & H6 & H7 & H8).
  subst s0.
  cbn [labels features feature_type batch_size batch_order mode start_index] in *.
  destruct (_gen_batches s') as [[r|e] s''] eqn:Hgen; [|discriminate].
  intros [= <-]. apply gen_batches_returns in Hgen as [Horder [plan ->]].
  cbn [batches set_batches num_labels_ features labels feature_type batch_size
       batch_order mode start_index].
  unfold num_instances. cbn [features set_batches].
  rewrite H1, H2, H3, H4, H5, H6, H7, H8. rewrite H6 in Horder.
  repeat split; first [reflexivity | assumption | eexists; reflexivity].
Qed.

Lemma construct_loaded_not_train (self : Loader) :
  mode self ≠ "train" →
  construct_loaded self
  = _gen_batches (set_num_labels_ (sp.ncols (LabelsBase.Y (labels self))) self).
Proof.
  intros Hmode%String.eqb_neq.
  unfold construct_loaded, mbind, M_bind, gets, modify. cbn [mode set_num_labels_].
  rewrite Hmode. reflexivity.
Qed.

(** X17. Outside mode "train", with a known feature type and batch order, a
    positive batch size and at least one label (or instance) to batch, the
    constructor returns a loader whose label matrix is the one loaded,
    whose plan covers the indices in order, and whose length is
    ceil(N/B). *)
Theorem untrained_loader_length (files : Files) (bs : Z)
    (ft md order : string) (nrm : option string) (si ei : Z) :
  md ≠ "train" →
  ft = "sparse" ∨ ft = "dense" →
  order = "labels" ∨ order = "instances" →
  0 < bs →
  let N := if String.eqb order "labels" then sp.ncols (label_file files)
           else (feat_file files).1.1 in
  0 < N →
  ∃ self plan,
    construct files bs ft md order nrm si ei = Ok self
    ∧ LabelsBase.data (labels self) = label_file files
    ∧ batches self = Some plan
    ∧ concat plan = seqZ 0 N
    ∧ __len__ self = Some ((N + bs - 1) / bs).
Proof.
  intros Hmode Hft Horder Hbs N HN. unfold construct.
  destruct (load_data_known_feature_type ft order nrm files Hft)
    as (f & -> & Hf & _).
  unfold mbind, result_bind, rbind. cbn [fst snd].
  rewrite construct_loaded_not_train by exact Hmode.
  destruct (plan_batches_spec N bs HN Hbs) as (plan & k & Hplan & -> & Hk & Hsizes & Hcat).
  match goal with |- context [_gen_batches ?s] => set (self0 := s) end.
  assert (batch_count self0 = N) as Hcount.
  { unfold batch_count, N, self0, num_labels, num_instances. cbn.
    destruct Horder as [-> | ->]; [reflexivity | exact Hf]. }
  rewrite (gen_batches_run self0 plan); [| exact Horder | by rewrite Hcount].
  eexists _, plan. split; [reflexivity|]. split; [reflexivity|].
  split; [reflexivity|]. split; [exact Hcat|].
  unfold __len__, num_batches. cbn [batches set_batches fmap option_fmap option_map].
  f_equal.
  assert (py.len (py.len <$> plan) = py.len plan) as <-
    by (unfold py.len; rewrite length_fmap; reflexivity).
  rewrite Hsizes. unfold py.len. rewrite length_app, !length_replicate.
  pose proof (Z.mod_pos_bound N ((N + bs - 1) / bs) Hk). lia.
Qed.


End Construction.

(** ** The ranking helper *)

Section RankSparse.

Context {Score : Type} (argsort_neg : list Score → list Z).

(** Whatever the order among equal scores, the argsort is a permutation of
    the positions. *)
Hypothesis argsort_neg_permutation :
  ∀ data, argsort_neg data ≡ₚ seqZ 0 (py.len data).

Lemma lookup_nth_lt (l : list Z) (i : nat) :
  (i < length l)%nat → l !! i = Some (nth i l 0).
Proof.
  intros Hi. destruct (lookup_lt_is_Some_2 l i Hi) as [x Hx].
  rewrite Hx. f_equal. symmetry. by apply nth_lookup_Some.
Qed.

Lemma take_indices_in_range (index idx : list Z) :
  (∀ j, j ∈ idx → 0 ≤ j < py.len index) →
  noncontribution.take_indices index idx
  = Ok ((λ j, nth (Z.to_nat j) index 0) <$> idx).
Proof.
  induction idx as [|j idx IH]; intros Hin; [reflexivity|].
  cbn [noncontribution.take_indices].
  pose proof (Hin j ltac:(left)) as Hj. unfold py.len in Hj.
  destruct (lookup_lt_is_Some_2 index (Z.to_nat j) ltac:(lia)) as [x Hx].
  rewrite (getitem_lookup index j x) by (first [lia | exact Hx]).
  rewrite IH by (intros; apply Hin; by right).
  unfold rbind. rewrite fmap_cons. do 2 f_equal.
  symmetry. apply nth_lookup_Some with (d := 0) in Hx. exact Hx.
Qed.

Lemma slice_from_zero {A : Type} (l : list A) (K : Z) :
  0 ≤ K → py.slice l 0 K = take (Z.to_nat K) l.
Proof.
  intros HK. unfold py.slice, py.slice_bound. cbv zeta.
  rewrite (decide_False (P := 0 < 0)) by lia.
  rewrite (decide_False (P := K < 0)) by lia.
  rewrite (Z.min_l 0) by lia. rewrite Z.sub_0_r.
  change (Z.to_nat 0) with 0%nat. rewrite drop_0.
  destruct (decide (K ≤ Z.of_nat (length l))) as [Hle|Hgt].
  - rewrite (Z.min_l K) by exact Hle. reflexivity.
  - rewrite (Z.min_r K) by lia. rewrite Nat2Z.id.
    rewrite (take_ge l (length l)) by lia.
    rewrite (take_ge l (Z.to_nat K)) by lia. reflexivity.
Qed.

(** The columns ranked for a row: the row's indices in the order of the
    argsort, cut at [K]. *)
Lemma top_properties (x : noncontribution.row) (K : Z) :
  0 ≤ K →
  length (noncontribution.indices x) = length (noncontribution.data x) →
  let idx := take (Z.to_nat K) (argsort_neg (noncontribution.data x)) in
  let top := (λ j, nth (Z.to_nat j) (noncontribution.indices x) 0) <$> idx in
  (∀ j, j ∈ idx → 0 ≤ j < py.len (noncontribution.indices x))
  ∧ py.len top = Z.min K (py.len (noncontribution.indices x))
  ∧ (∀ c, c ∈ top → c ∈ noncontribution.indices x)
  ∧ (NoDup (noncontribution.indices x) → NoDup top).
Proof.
  intros HK Hlen idx top.
  pose proof (argsort_neg_permutation (noncontribution.data x)) as Hperm.
  assert (∀ j, j ∈ idx → 0 ≤ j < py.len (noncontribution.indices x)) as Hrange.
  { intros j Hj. apply elem_of_take in Hj as (p & Hj & _).
    apply list_elem_of_lookup_2 in Hj. rewrite Hperm in Hj.
    apply elem_of_seqZ in Hj. unfold py.len in *. lia. }
  split; [exact Hrange|]. split; [|split].
  - unfold top, idx, py.len. rewrite length_fmap, length_take.
    rewrite (Permutation_length Hperm), length_seqZ. unfold py.len. lia.
  - intros c (j & -> & Hj)%list_elem_of_fmap.
    specialize (Hrange j Hj). unfold py.len in Hrange.
    apply list_elem_of_lookup. exists (Z.to_nat j).
    apply lookup_nth_lt. lia.
  - intros Hnd. apply NoDup_fmap_2_strong.
    + intros j1 j2 H1 H2 Heq.
      pose proof (Hrange j1 H1) as R1. pose proof (Hrange j2 H2) as R2.
      unfold py.len in R1, R2.
      assert (Z.to_nat j1 = Z.to_nat j2); [|lia].
      eapply (NoDup_lookup _ _ _ _ Hnd); [apply lookup_nth_lt; lia|].
      rewrite Heq. apply lookup_nth_lt. lia.
    + unfold idx. eapply sublist_NoDup; [|apply sublist_take].
      rewrite Hperm. apply NoDup_seqZ.
Qed.

Lemma assign_row_prefix_run (predicted : list (list Z)) (i : nat)
    (row values : list Z) :
  predicted !! i = Some row →
  (length values ≤ length row)%nat →
  noncontribution.assign_row_prefix predicted (Z.of_nat i) (py.len values) values
  = Ok (<[i := values ++ drop (length values) row]> predicted).
Proof.
  intros Hrow Hlen. unfold noncontribution.assign_row_prefix.
  rewrite (getitem_lookup predicted (Z.of_nat i) row)
    by (first [lia | rewrite Nat2Z.id; exact Hrow]).
  unfold rbind. rewrite slice_from_zero by (unfold py.len; lia).
  unfold py.len. rewrite !Nat2Z.id, length_take.
  rewrite Nat.min_l by exact Hlen. rewrite decide_True by reflexivity. reflexivity.
Qed.

Lemma rank_rows_run (K fill : Z) (rows : list noncontribution.row) :
  0 ≤ K →
  (∀ x, x ∈ rows →
     length (noncontribution.indices x) = length (noncontribution.data x)) →
  ∀ (a : nat) (predicted : list (list Z)),
  drop a predicted = replicate (length rows) (replicate (Z.to_nat K) fill) →
  noncontribution.rank_rows argsort_neg K
    (zip (seqZ (Z.of_nat a) (py.len rows)) rows) predicted
  = Ok (take a predicted
        ++ ((λ x,
               let top := (λ j, nth (Z.to_nat j) (noncontribution.indices x) 0)
                            <$> take (Z.to_nat K)
                                  (argsort_neg (noncontribution.data x)) in
               top ++ replicate (Z.to_nat K - length top) fill) <$> rows)).
Proof.
  intros HK Hwf. induction rows as [|x rows IH]; intros a predicted Hdrop.
  - simpl. simpl in Hdrop. rewrite app_nil_r.
    rewrite <- (take_drop a predicted) at 1. rewrite Hdrop, app_nil_r. reflexivity.
  - unfold py.len. rewrite seqZ_cons by (simpl; lia).
    cbn [zip zip_with noncontribution.rank_rows].
    destruct (top_properties x K HK (Hwf x ltac:(left)))
      as (Hrange & Htop & _ & _).
    rewrite slice_from_zero by exact HK.
    rewrite take_indices_in_range by exact Hrange.
    unfold rbind at 1.
    set (top := (λ j, nth (Z.to_nat j) (noncontribution.indices x) 0)
                  <$> take (Z.to_nat K) (argsort_neg (noncontribution.data x))) in *.
    assert (py.len (take (Z.to_nat K) (argsort_neg (noncontribution.data x)))
            = py.len top) as ->
      by (unfold top, py.len; rewrite length_fmap; reflexivity).
    assert (predicted !! a = Some (replicate (Z.to_nat K) fill)) as Hrow.
    { rewrite <- (Nat.add_0_r a), <- lookup_drop, Hdrop. reflexivity. }
    rewrite (assign_row_prefix_run predicted a _ top Hrow)
      by (rewrite length_replicate; unfold py.len in Htop; lia).
    unfold rbind.
    replace (Z.pred (Z.of_nat (length (x :: rows)))) with (py.len rows)
      by (unfold py.len; simpl; lia).
    replace (Z.succ (Z.of_nat a)) with (Z.of_nat (S a)) by lia.
    rewrite IH.
    + rewrite fmap_cons. cbv zeta. fold top.
      rewrite drop_replicate.
      erewrite take_S_r by (apply list_lookup_insert_eq; by eapply lookup_lt_Some).
      rewrite take_insert_ge by lia. rewrite <- app_assoc. reflexivity.
    + intros y Hy. apply Hwf. by right.
    + rewrite drop_insert_lt by lia.
      rewrite <- (Nat.add_1_r a), <- drop_drop, Hdrop. reflexivity.
Qed.

(** X19. The ranking has one row of [K] entries per row of the matrix. A row
    starts with min(K, number of stored entries) of the row's own column
    indices, without repetition when the row has none, and is filled up
    with the column count, the index one past the last column. *)
Theorem rank_sparse_rows (X : noncontribution.csr) (K : Z) :
  0 ≤ K →
  py.len (noncontribution.rows X) = (noncontribution.shape X).1 →
  (∀ x, x ∈ noncontribution.rows X →
     length (noncontribution.indices x) = length (noncontribution.data x)) →
  ∃ predicted,
    noncontribution._rank_sparse argsort_neg X K = Ok predicted
    ∧ length predicted = length (noncontribution.rows X)
    ∧ ∀ (i : nat) x, noncontribution.rows X !! i = Some x →
        ∃ top,
          predicted !! i
          = Some (top ++ replicate (Z.to_nat K - length top)
                           (noncontribution.shape X).2)
          ∧ py.len top = Z.min K (py.len (noncontribution.indices x))
          ∧ (∀ c, c ∈ top → c ∈ noncontribution.indices x)
          ∧ (NoDup (noncontribution.indices x) → NoDup top).
Proof.
  intros HK Htotal Hwf. unfold noncontribution._rank_sparse, noncontribution.full.
  rewrite decide_False by (unfold py.len in Htotal; lia).
  unfold rbind. rewrite <- Htotal.
  replace (Z.to_nat (py.len (noncontribution.rows X)))
    with (length (noncontribution.rows X)) by (unfold py.len; lia).
  rewrite (rank_rows_run K _ _ HK Hwf 0%nat) by reflexivity.
  eexists. split; [reflexivity|]. rewrite take_0, app_nil_l.
  split; [by rewrite length_fmap|].
  intros i x Hx. eexists. split; [rewrite list_lookup_fmap, Hx; reflexivity|].
  destruct (top_properties x K HK (Hwf x (list_elem_of_lookup_2 _ _ _ Hx)))
    as (_ & H1 & H2 & H3).
  split; [exact H1|]. split; [exact H2 | exact H3].
Qed.

End RankSparse.

(** ** The further properties on the small data set *)

Lemma gen_batches_chunk_bounds_witness :
  ∃ plan,
    _gen_batches example_loader = (Ok tt, set_batches (Some plan) example_loader)
    ∧ ∀ chunk, chunk ∈ plan → 1 ≤ py.len chunk ≤ 2.
Proof.
  assert (0 < batch_count example_loader) as HN by (vm_compute; reflexivity).
  assert (0 < batch_size example_loader) as HB by (vm_compute; reflexivity).
  exact (gen_batches_chunk_bounds example_loader (or_introl eq_refl) HN HB).
Defined.

Lemma gen_batches_single_batch_witness :
  _gen_batches example_wide_loader
  = (Ok tt, set_batches (Some [[0; 1; 2]]) example_wide_loader).
Proof.
  assert (0 < batch_count example_wide_loader) as HN by (vm_compute; reflexivity).
  assert (batch_count example_wide_loader ≤ batch_size example_wide_loader) as HB
    by (vm_compute; discriminate).
  exact (gen_batches_single_batch example_wide_loader (or_introl eq_refl) HN HB).
Defined.

Lemma gen_batches_raises_witness :
  ∃ msg,
    _gen_batches example_unbatchable_loader
    = (Raise (ZeroDivisionError msg), example_unbatchable_loader).
Proof.
  assert (0 ≤ batch_count example_unbatchable_loader) as HN
    by (vm_compute; discriminate).
  assert (batch_size example_unbatchable_loader ≤ 0
          ∨ batch_count example_unbatchable_loader = 0) as Hbad
    by (left; vm_compute; discriminate).
  exact (gen_batches_raises example_unbatchable_loader (or_introl eq_refl) HN Hbad).
Defined.

Lemma gen_batches_chunk_ranges_witness :
  ∃ plan,
    _gen_batches example_loader = (Ok tt, set_batches (Some plan) example_loader)
    ∧ ∀ chunk, plan !! 1%nat = Some chunk → chunk = [2].
Proof.
  assert (0 < batch_count example_loader) as HN by (vm_compute; reflexivity).
  assert (0 < batch_size example_loader) as HB by (vm_compute; reflexivity).
  destruct (gen_batches_chunk_ranges example_loader (or_introl eq_refl) HN HB)
    as (plan & Hrun & Hchunk).
  exists plan. split; [exact Hrun|]. intros chunk Hc. exact (Hchunk 1%nat chunk Hc).
Defined.

Lemma shortlist_update_entries_witness :
  ∃ m,
    update_data_shortlist (Sim := unit) example_shortlist [] example_loader
    = (Ok tt,
       set_labels (LabelsBase.set_data m (labels example_loader)) example_loader)
    ∧ sp.stored m !! (0, 1) = Some (-1)
    ∧ sp.stored m !! (0, 2) = None.
Proof.
  destruct (shortlist_update_entries (Sim := unit) example_loader
              example_shortlist [] example_loader_consistent
              ltac:(vm_compute; discriminate) example_shortlist_in_range)
    as (m & Hrun & Hm).
  exists m. split; [exact Hrun|].
  split; rewrite Hm by (change (0 ≤ 0 < 4); lia); vm_compute; reflexivity.
Defined.

Lemma shortlist_update_row_bound_witness :
  ∃ m,
    update_data_shortlist (Sim := unit) example_shortlist [] example_loader
    = (Ok tt,
       set_labels (LabelsBase.set_data m (labels example_loader)) example_loader)
    ∧ py.len (sp.lil_row m 0) ≤ 3.
Proof.
  destruct (shortlist_update_row_bound (Sim := unit) example_loader
              example_shortlist [] example_loader_consistent
              ltac:(vm_compute; discriminate) example_shortlist_in_range)
    as (m & Hrun & Hm).
  exists m. split; [exact Hrun|].
  exact (Hm 0 ltac:(change (0 ≤ 0 < 4); lia)).
Defined.

Lemma shortlist_update_missing_candidates_witness :
  ∃ msg,
    update_data_shortlist (Sim := unit) [[1]] [] example_loader
    = (Raise (IndexError msg), example_loader).
Proof.
  exact (shortlist_update_missing_candidates (Sim := unit) example_loader [[1]] []
           example_loader_consistent ltac:(vm_compute; reflexivity)).
Defined.

Lemma shortlist_update_twice_promotes_negatives_witness :
  ∃ self1 self2,
    update_data_shortlist (Sim := unit) example_shortlist [] example_loader
    = (Ok tt, self1)
    ∧ update_data_shortlist (Sim := unit) example_shortlist [] self1
      = (Ok tt, self2)
    ∧ sp.stored (LabelsBase.data (labels self2)) !! (0, 1) = Some 1.
Proof.
  destruct (shortlist_update_twice_promotes_negatives (Sim := unit) example_loader
              example_shortlist example_shortlist [] example_loader_consistent
              ltac:(vm_compute; discriminate) ltac:(vm_compute; discriminate))
    as (self1 & self2 & H1 & H2 & Hpromoted).
  { intros i c Hi [Hc|Hc]; exact (example_shortlist_in_range i c Hi Hc). }
  exists self1, self2. split; [exact H1|]. split; [exact H2|].
  apply Hpromoted; [change (0 ≤ 0 < 4); lia|]. right.
  apply elem_of_negatives. split; [|split].
  - apply list_elem_of_In. simpl. tauto.
  - intros Hp%list_elem_of_In. vm_compute in Hp. intuition discriminate.
  - discriminate.
Defined.

Lemma example_loader_ground_truth : ground_truth example_loader.
Proof.
  intros i j v Hv. cbn in Hv.
  rewrite !lookup_insert_Some, lookup_empty in Hv.
  destruct Hv as [[_ <-]|[_ [[_ <-]|[_ [[_ <-]|[_ Hv]]]]]];
    [lia | lia | lia | discriminate].
Defined.

Lemma ground_truth_update_emits_negatives_witness :
  num_instances example_loader ≤ py.len example_shortlist
  ∧ ∃ rows cols data,
      shortlist_triples example_shortlist example_loader
      = (Ok (rows, cols, data), example_loader)
      ∧ filter (λ t, t.1.1 = 0) (zip3 rows cols data) = [(0, 0, 1); (0, 1, -1)].
Proof.
  assert (num_instances example_loader ≤ py.len example_shortlist) as Hlen
    by (vm_compute; discriminate).
  split; [exact Hlen|].
  destruct (ground_truth_update_emits_negatives example_loader
              example_shortlist example_loader_ground_truth
              example_loader_consistent Hlen)
    as (rows & cols & data & Hrun & Hrow & _).
  exists rows, cols, data. split; [exact Hrun|].
  destruct (Hrow 0 ltac:(change (0 ≤ 0 < 4); lia)) as [-> _].
  vm_compute. reflexivity.
Defined.

Lemma ground_truth_update_preserves_positives_witness :
  num_instances example_loader ≤ py.len example_shortlist
  ∧ ∃ m,
      update_data_shortlist (Sim := unit) example_shortlist [] example_loader
      = (Ok tt,
         set_labels (LabelsBase.set_data m (labels example_loader)) example_loader)
      ∧ sp.shape m = (4, 3)
      ∧ sp.stored m !! (1, 1) = Some 1.
Proof.
  assert (num_instances example_loader ≤ py.len example_shortlist) as Hlen
    by (vm_compute; discriminate).
  split; [exact Hlen|].
  destruct (ground_truth_update_preserves_positives (Sim := unit) example_loader
              example_shortlist [] example_loader_ground_truth
              example_loader_consistent Hlen example_shortlist_in_range)
    as (m & Hrun & Hshape & Hpos & _).
  exists m. split; [exact Hrun|]. split; [exact Hshape|].
  apply Hpos; [change (0 ≤ 1 < 4); lia|]. vm_compute. left.
Defined.

Lemma dataloader_pass_over_labels_witness :
  ∃ yielded,
    Dataloader.__iter__ example_loader = (yielded, StopIteration, example_loader)
    ∧ length yielded = 2%nat.
Proof.
  destruct (dataloader_pass_over_labels example_loader [[0; 1]; [2]]
              eq_refl eq_refl eq_refl ltac:(vm_compute; discriminate) eq_refl)
    as (yielded & Hrun & Hlen & _).
  exists yielded. split; [exact Hrun | exact Hlen].
Defined.


Lemma label_batch_row_beyond_instances_witness :
  ∃ msg,
    _create_label_batch [1; 0] example_tall_loader
    = (Raise (IndexError msg), example_tall_loader).
Proof.
  apply (label_batch_row_beyond_instances example_tall_loader [1; 0] 0 4).
  - vm_compute; discriminate.
  - apply list_elem_of_In. simpl. tauto.
  - change (4 ≤ 4 < 5). lia.
  - eexists. reflexivity.
Defined.

Lemma constructed_loader_invariants_witness :
  (∃ plan, batches example_loader = Some plan)
  ∧ num_labels_ example_loader = 3.
Proof.
  destruct (constructed_loader_invariants example_files 2 "sparse" "train"
              "labels" (Some "l2") 0 (-1) example_loader
              example_loader_constructed) as (Hplan & Hnum & _).
  split; [exact Hplan | exact Hnum].
Defined.

Lemma untrained_loader_length_witness :
  ∃ self,
    construct example_files 2 "sparse" "predict" "instances" (Some "l2") 0 (-1)
    = Ok self
    ∧ __len__ self = Some 2.
Proof.
  assert ("predict" ≠ "train") as Hmode by discriminate.
  assert ("sparse" = "sparse" ∨ "sparse" = "dense") as Hft by (left; reflexivity).
  assert ("instances" = "labels" ∨ "instances" = "instances") as Horder
    by (right; reflexivity).
  assert (0 < 2) as Hbs by lia.
  pose proof (@untrained_loader_length unit example_files 2 "sparse" "predict"
                "instances" (Some "l2") 0 (-1) Hmode Hft Horder Hbs) as H.
  cbv zeta in H.
  destruct (H ltac:(vm_compute; reflexivity)) as (self & plan & Hrun & _ & _ & _ & Hlen).
  exists self. split; [exact Hrun | exact Hlen].
Defined.

Lemma example_argsort_permutation (data : list Z) :
  example_argsort data ≡ₚ seqZ 0 (py.len data).
Proof.
  unfold example_argsort. rewrite merge_sort_Permutation.
  rewrite snd_zip by (unfold py.len; rewrite length_seqZ; lia).
  reflexivity.
Qed.

Lemma example_scores_ranked :
  noncontribution._rank_sparse example_argsort example_scores 2
  = Ok [[2; 3]; [1; 4]].
Proof. vm_compute. reflexivity. Qed.

Lemma rank_sparse_rows_witness :
  ∃ predicted,
    noncontribution._rank_sparse example_argsort example_scores 2 = Ok predicted
    ∧ length predicted = 2%nat.
Proof.
  destruct (rank_sparse_rows example_argsort example_argsort_permutation
              example_scores 2 ltac:(lia) eq_refl) as (predicted & Hrun & Hlen & _).
  { intros x Hx. apply list_elem_of_In in Hx. simpl in Hx.
    destruct Hx as [<- | [<- | []]]; reflexivity. }
  exists predicted. split; [exact Hrun | exact Hlen].
Defined.
